(** * Eye-Spend: the expense intake and risk-classification pipeline of [app.py]

    A shallow embedding of the business logic of [src/app.py]:
    - [analyze_receipt_with_ai] (credential resolution, the call to the hosted
      model, fence stripping, JSON decoding, coercions, degraded records);
    - the tab-1 handler that appends the record to the session and mirrors it
      into the [full_history] table, and the risk classification shown next
      to it;
    - the tab-2 aggregation ([groupby] / [sort_values] / [head]) and the
      dashboard built on it;
    - [get_financial_advice_and_prediction] and the handler of the coach;
    - the status box of the sidebar, the result card, [get_base64_image];
    - the script [src/list_models.py].

    Conventions of the model.
    - A Python [str] is a [string]; one [ascii] stands for one code point, so
      the texts covered are those over code points below 256.
    - A Python [int] is a [Z]; a Python [float] is idealised as an exact
      rational [Q] (no rounding, no overflow, no NaN or infinities).
    - A [DataFrame] is the list of its rows.  The readers of the columns
      [Category] and [Amount] stand for the library on tables whose cells
      have the types of the seeded table ([well_typed], [float_amounts]);
      the sort of [sort_values] is a parameter ([Sorting]), since the call
      does not fix the order of rows of equal total.
    - A Python [dict] is an association list in insertion order.
    - Calls that leave the process (environment, secrets file, clock, hosted
      model, image decoder, random generator) are answered by a [World] record;
      the calls made are recorded as a trace of [Event]s.
    - Exceptions are explicit: a computation returns or raises ([Outcome]). *)

From Stdlib Require Import ZArith QArith Qround Qabs Lia Lqa Bool List Ascii String.
From Stdlib Require Import Permutation Sorted.
Import ListNotations.

Set Warnings "-register-all".

Close Scope Q_scope.
Close Scope Z_scope.
Open Scope list_scope.
Open Scope string_scope.
Open Scope nat_scope.

(* ================================================================== *)
(** * Python strings *)
(* ================================================================== *)

Module PyStr.

(** [str.isspace] on one code point below 256: the characters removed by
    [str.strip()]. *)
Definition isspace (c : ascii) : bool :=
  let n := nat_of_ascii c in
  ((9 <=? n) && (n <=? 13)) || ((28 <=? n) && (n <=? 32))
  || (n =? 133) || (n =? 160).

Definition is_empty (s : string) : bool :=
  match s with EmptyString => true | String _ _ => false end.

Fixpoint lstrip (s : string) : string :=
  match s with
  | EmptyString => EmptyString
  | String c s' => if isspace c then lstrip s' else s
  end.

Fixpoint rstrip (s : string) : string :=
  match s with
  | EmptyString => EmptyString
  | String c s' =>
      let r := rstrip s' in
      if is_empty r && isspace c then EmptyString else String c r
  end.

(** [s.strip()] *)
Definition strip (s : string) : string := rstrip (lstrip s).

(** [s[n:]] for [n >= 0] *)
Fixpoint drop (n : nat) (s : string) : string :=
  match n, s with
  | O, _ => s
  | S _, EmptyString => EmptyString
  | S n', String _ s' => drop n' s'
  end.

(** [s[:n]] for [n >= 0] *)
Fixpoint take (n : nat) (s : string) : string :=
  match n, s with
  | O, _ => EmptyString
  | S _, EmptyString => EmptyString
  | S n', String c s' => String c (take n' s')
  end.

(** [s[:-n]] for [n > 0]: everything but the last [n] characters. *)
Definition drop_last (n : nat) (s : string) : string :=
  take (String.length s - n) s.

(** [s.startswith(p)] *)
Definition startswith (s p : string) : bool := String.prefix p s.

(** [s.endswith(p)] *)
Definition endswith (s p : string) : bool :=
  (String.length p <=? String.length s)
  && String.eqb (drop (String.length s - String.length p) s) p.

(** [sub in s] *)
Fixpoint contains (sub s : string) : bool :=
  String.prefix sub s
  || match s with
     | EmptyString => false
     | String _ s' => contains sub s'
     end.

(** [sub] occurs in [s], as a proposition. *)
Definition occurs_in (sub s : string) : Prop :=
  exists before after, s = before ++ sub ++ after.

Fixpoint all_space (s : string) : bool :=
  match s with
  | EmptyString => true
  | String c s' => isspace c && all_space s'
  end.

End PyStr.

(* ================================================================== *)
(** * Calendar dates, [strftime] and [strptime] with format [%Y-%m-%d] *)
(* ================================================================== *)

Module Dates.

Record Date := mkDate { year : nat; month : nat; day : nat }.

Definition is_leap (y : nat) : bool :=
  ((y mod 4 =? 0) && negb (y mod 100 =? 0)) || (y mod 400 =? 0).

Definition days_in_month (y m : nat) : nat :=
  match m with
  | 2 => if is_leap y then 29 else 28
  | 4 | 6 | 9 | 11 => 30
  | _ => 31
  end.

(** The dates a [datetime] can hold: [MINYEAR = 1], [MAXYEAR = 9999]. *)
Definition valid_date (d : Date) : bool :=
  (1 <=? year d) && (year d <? 10 * 1000)
  && (1 <=? month d) && (month d <=? 12)
  && (1 <=? day d) && (day d <=? days_in_month (year d) (month d)).

Definition digit_char (n : nat) : ascii := ascii_of_nat (48 + n mod 10).

Definition digit_val (c : ascii) : option nat :=
  let n := nat_of_ascii c in
  if (48 <=? n) && (n <=? 57) then Some (n - 48) else None.

Definition pad2 (n : nat) (rest : string) : string :=
  String (digit_char (n / 10)) (String (digit_char n) rest).

Definition pad4 (n : nat) (rest : string) : string :=
  String (digit_char (n / 1000)) (String (digit_char (n / 100))
    (pad2 n rest)).

(** [d.strftime("%Y-%m-%d")]: the year on four digits, month and day on
    two.  This is what the interpreter writes for the years 1000 to 9999,
    which are those of [datetime.now()]; below the year 1000 the C library
    decides whether [%Y] is padded (glibc writes [999]), and the definition
    is not meant for these years. *)
Definition strftime_ymd (d : Date) : string :=
  pad4 (year d) (String "-" (pad2 (month d) (String "-" (pad2 (day d) "")))).

(** ** The matcher of [_strptime] for [%Y-%m-%d]

    The format is compiled to the regular expression
    [(\d\d\d\d)-(1[0-2]|0[1-9]|[1-9])-(3[01]|[12]\d|0[1-9]|[1-9]| [1-9])];
    alternatives are tried in order, with backtracking into the
    continuation [k]. *)

Definition Matcher (A : Type) := string -> option A.

Fixpoint first_match {A} (alts : list (option A)) : option A :=
  match alts with
  | [] => None
  | Some a :: _ => Some a
  | None :: rest => first_match rest
  end.

Definition in_range (lo hi : nat) (c : ascii) : option nat :=
  match digit_val c with
  | Some v => if (lo <=? v) && (v <=? hi) then Some v else None
  | None => None
  end.

(** One character that is a digit between [lo] and [hi]. *)
Definition one_digit {A} (lo hi : nat) (k : nat -> Matcher A) : Matcher A :=
  fun s =>
    match s with
    | String c rest =>
        match in_range lo hi c with
        | Some v => k v rest
        | None => None
        end
    | EmptyString => None
    end.

(** One literal character. *)
Definition lit {A} (ch : ascii) (k : Matcher A) : Matcher A :=
  fun s =>
    match s with
    | String c rest => if Ascii.eqb c ch then k rest else None
    | EmptyString => None
    end.

Definition match_Y {A} (k : nat -> Matcher A) : Matcher A :=
  one_digit 0 9 (fun a => one_digit 0 9 (fun b => one_digit 0 9 (fun c =>
  one_digit 0 9 (fun d => k (1000 * a + 100 * b + 10 * c + d))))).

Definition match_m {A} (k : nat -> Matcher A) : Matcher A :=
  fun s => first_match
    [ lit "1" (one_digit 0 2 (fun v => k (10 + v))) s;
      lit "0" (one_digit 1 9 k) s;
      one_digit 1 9 k s ].

Definition match_d {A} (k : nat -> Matcher A) : Matcher A :=
  fun s => first_match
    [ lit "3" (one_digit 0 1 (fun v => k (30 + v))) s;
      one_digit 1 2 (fun t => one_digit 0 9 (fun v => k (10 * t + v))) s;
      lit "0" (one_digit 1 9 k) s;
      one_digit 1 9 k s;
      lit " " (one_digit 1 9 k) s ].

(** The groups found and the text left after the match. *)
Definition match_ymd : Matcher (nat * nat * nat * string) :=
  match_Y (fun y => lit "-" (match_m (fun m => lit "-" (match_d (fun d rest =>
    Some (y, m, d, rest)))))).

(** The ways [strptime] raises [ValueError]. *)
Inductive StrptimeError :=
| NoMatch                          (* time data does not match format *)
| UnconvertedData (rest : string)  (* unconverted data remains *)
| YearOutOfRange                   (* year 0 is out of range *)
| DayOutOfRange.                   (* day is out of range for month *)

(** [datetime.strptime(s, "%Y-%m-%d")], keeping the calendar date: the
    match, the test that nothing is left, then the construction of the
    date. *)
Definition strptime_ymd (s : string) : StrptimeError + Date :=
  match match_ymd s with
  | None => inl NoMatch
  | Some (y, m, d, rest) =>
      if PyStr.is_empty rest then
        let r := mkDate y m d in
        if y =? 0 then inl YearOutOfRange
        else if valid_date r then inr r else inl DayOutOfRange
      else inl (UnconvertedData rest)
  end.

End Dates.

(* ================================================================== *)
(** * Python values, exceptions and dictionaries *)
(* ================================================================== *)

Module Py.

(** [except Exception] catches the classes that derive from [Exception];
    [KeyboardInterrupt], [SystemExit] and the like derive from
    [BaseException] only and pass through it. *)
Inductive ExnBase := DerivesException | BaseExceptionOnly.

Record Exn := mkExn { exn_base : ExnBase; exn_type : string; exn_str : string }.

Definition is_Exception (e : Exn) : bool :=
  match exn_base e with DerivesException => true | BaseExceptionOnly => false end.

Definition ValueError (msg : string) := mkExn DerivesException "ValueError" msg.
Definition TypeError (msg : string) := mkExn DerivesException "TypeError" msg.
Definition KeyError (key : string) := mkExn DerivesException "KeyError" ("'" ++ key ++ "'").
Definition AttributeError (msg : string) := mkExn DerivesException "AttributeError" msg.
Definition JSONDecodeError (msg : string) := mkExn DerivesException "JSONDecodeError" msg.

Inductive PyVal :=
| PyNone
| PyBool (b : bool)
| PyInt (z : Z)
| PyFloat (q : Q)
| PyStr (s : string)
| PyList (l : list PyVal)
| PyDict (d : list (string * PyVal))
| PyDate (d : Dates.Date).

Definition Dict := list (string * PyVal).

Definition type_name (v : PyVal) : string :=
  match v with
  | PyNone => "NoneType"
  | PyBool _ => "bool"
  | PyInt _ => "int"
  | PyFloat _ => "float"
  | PyStr _ => "str"
  | PyList _ => "list"
  | PyDict _ => "dict"
  | PyDate _ => "datetime.datetime"
  end.

(** [d.get(k)] *)
Fixpoint dict_get (k : string) (d : Dict) : option PyVal :=
  match d with
  | [] => None
  | (k', v) :: d' => if String.eqb k' k then Some v else dict_get k d'
  end.

(** [d.get(k, dflt)] *)
Definition dict_get_default (k : string) (dflt : PyVal) (d : Dict) : PyVal :=
  match dict_get k d with Some v => v | None => dflt end.

(** [d[k] = v]: an existing key keeps its place, a new key goes last. *)
Fixpoint dict_set (k : string) (v : PyVal) (d : Dict) : Dict :=
  match d with
  | [] => [(k, v)]
  | (k', v') :: d' =>
      if String.eqb k' k then (k', v) :: d' else (k', v') :: dict_set k v d'
  end.

(** [del d[k]] when present *)
Fixpoint dict_del (k : string) (d : Dict) : Dict :=
  match d with
  | [] => []
  | (k', v') :: d' =>
      if String.eqb k' k then d' else (k', v') :: dict_del k d'
  end.

(** Truth value of [api_key]: [None] and the empty string are false. *)
Definition truthy_key (k : option string) : bool :=
  match k with
  | None => false
  | Some s => negb (PyStr.is_empty s)
  end.

(** What the interpreter and its [json] module provide.  [json_loads]
    answers with the message of a [JSONDecodeError] or with the decoded
    value; [float_of_str] and [int_of_str] are the string cases of the
    builtins [float] and [int]. *)
Class Runtime := {
  json_loads : string -> string + PyVal;
  float_of_str : string -> option Q;
  int_of_str : string -> option Z
}.

(** The builtin [float(v)].  Floats being exact and unbounded here, the
    conversion of an [int] is exact: the [OverflowError] that the
    interpreter raises on an [int] beyond the range of its floats is not in
    the model (it derives from [Exception], as the errors below do). *)
Definition py_float {RT : Runtime} (v : PyVal) : Exn + Q :=
  match v with
  | PyFloat q => inr q
  | PyInt z => inr (inject_Z z)
  | PyBool b => inr (inject_Z (if b then 1 else 0))
  | PyStr s =>
      match float_of_str s with
      | Some q => inr q
      | None => inl (ValueError ("could not convert string to float: '" ++ s ++ "'"))
      end
  | other =>
      inl (TypeError ("float() argument must be a string or a real number, not '"
                      ++ type_name other ++ "'"))
  end.

(** The builtin [int(v)]; a float is truncated towards zero.  There is no
    infinite float and no NaN here, on which the interpreter raises
    [OverflowError] and [ValueError] (both derive from [Exception], as the
    errors below do). *)
Definition py_int {RT : Runtime} (v : PyVal) : Exn + Z :=
  match v with
  | PyInt z => inr z
  | PyBool b => inr (if b then 1 else 0)%Z
  | PyFloat q => inr (Z.quot (Qnum q) (Zpos (Qden q)))
  | PyStr s =>
      match int_of_str s with
      | Some z => inr z
      | None => inl (ValueError ("invalid literal for int() with base 10: '" ++ s ++ "'"))
      end
  | other =>
      inl (TypeError ("int() argument must be a string, a bytes-like object or a real number, not '"
                      ++ type_name other ++ "'"))
  end.

End Py.

Import Dates Py.

(* ================================================================== *)
(** * The world outside the process, the session, and effects *)
(* ================================================================== *)

(** One entry of [genai.list_models()]. *)
Record ModelInfo := mkModelInfo {
  name : string;
  supported_generation_methods : list string
}.

(** The answers of the outside world during one script run. *)
Record World := mkWorld {
  (** [os.environ.get("API_KEY")] *)
  env_API_KEY : option string;
  (** [st.secrets["GEMINI_API_KEY"]]: the value, or the exception raised
      when the file or the key is missing *)
  secrets_GEMINI_API_KEY : Exn + string;
  (** [datetime.now()], as a calendar date *)
  now : Date;
  (** [genai.configure(api_key=...)] *)
  configure_outcome : option Exn;
  (** [genai.list_models()]: the entries it yields, then the exception that
      ends the iteration if any *)
  list_models_items : list ModelInfo;
  list_models_error : option Exn;
  (** [Image.open(uploaded_image)] *)
  image_open_outcome : option Exn;
  (** [model.generate_content(...)] and then [response.text] *)
  generate_content_outcome : Exn + (Exn + string);
  (** [random.uniform(0.95, 1.05)] *)
  uniform_sample : Q
}.

Inductive Event :=
| EvStError (msg : string)            (* st.error(msg) *)
| EvConfigure (api_key : string)      (* genai.configure *)
| EvListModels                        (* genai.list_models: request *)
| EvImageOpen                         (* Image.open *)
| EvGenerateContent (model : string)  (* model.generate_content: request *)
| EvSleep (seconds : nat)             (* time.sleep *)
| EvRerun.                            (* st.rerun *)

(** The calls that reach the external service. *)
Definition is_network_call (ev : Event) : bool :=
  match ev with
  | EvListModels | EvGenerateContent _ => true
  | _ => false
  end.

(** A [DataFrame] by rows; a row maps column names to cells, a missing
    column is NaN. *)
Definition Row := Dict.
Definition DataFrame := list Row.

(** The dictionary returned by [get_financial_advice_and_prediction]. *)
Record Advice := mkAdvice {
  monthly_forecast : Q;
  cuttable_expenses : string;
  advice : list string
}.

(** [st.session_state]: ['history'] is absent until the first analysis,
    ['full_history'] is seeded when the session starts, ['advice'] is absent
    until the coach is asked. *)
Record Session := mkSession {
  history : option (list Dict);
  full_history : DataFrame;
  session_advice : option Advice
}.

Record State := mkState { session : Session; trace : list Event }.

Inductive Outcome (A : Type) :=
| Returned (a : A)
| Raised (e : Exn).
Arguments Returned {A} a.
Arguments Raised {A} e.

(** Computations that read and write the state and may raise. *)
Definition M (A : Type) := State -> Outcome A * State.

Definition ret {A} (a : A) : M A := fun st => (Returned a, st).

Definition bind {A B} (m : M A) (k : A -> M B) : M B :=
  fun st =>
    match m st with
    | (Returned a, st') => k a st'
    | (Raised e, st') => (Raised e, st')
    end.

Definition raise {A} (e : Exn) : M A := fun st => (Raised e, st).

Declare Scope py_scope.
Delimit Scope py_scope with py.
Notation "x <- m ;; k" := (bind m (fun x => k))
  (at level 61, m at next level, right associativity) : py_scope.
Notation "m ;; k" := (bind m (fun _ => k))
  (at level 61, right associativity) : py_scope.
Open Scope py_scope.

(** A value or the exception raised instead. *)
Definition lift {A} (r : Exn + A) : M A :=
  match r with
  | inr a => ret a
  | inl e => raise e
  end.

(** A call that returns nothing or raises. *)
Definition lift_unit (r : option Exn) : M unit :=
  match r with
  | None => ret tt
  | Some e => raise e
  end.

(** [try: m  except Exception as e: h e] *)
Definition try_except_Exception {A} (m : M A) (h : Exn -> M A) : M A :=
  fun st =>
    match m st with
    | (Raised e, st') => if is_Exception e then h e st' else (Raised e, st')
    | r => r
    end.

(** [try: m  except: h] (a bare [except] catches everything) *)
Definition try_except_all {A} (m : M A) (h : M A) : M A :=
  fun st =>
    match m st with
    | (Raised e, st') => h st'
    | r => r
    end.

Definition emit (ev : Event) : M unit :=
  fun st => (Returned tt, mkState (session st) (trace st ++ [ev])%list).

Definition get_session : M Session := fun st => (Returned (session st), st).

Definition put_session (s : Session) : M unit :=
  fun st => (Returned tt, mkState s (trace st)).

Definition st_error (msg : string) : M unit := emit (EvStError msg).

(* ================================================================== *)
(** * ReceiptAnalyzer: [analyze_receipt_with_ai] *)
(* ================================================================== *)

Section Analyzer.

Context {RT : Runtime}.

(** Lines 132-137: the environment first, then the secrets file. *)
Definition resolve_api_key (w : World) : M (option string) :=
  let api_key := env_API_KEY w in
  if negb (truthy_key api_key) then
    try_except_all
      (k <- lift (secrets_GEMINI_API_KEY w) ;; ret (Some k))
      (ret api_key)
  else ret api_key.

(** Lines 141-148. *)
Definition missing_key_record (today : Date) : Dict :=
  [ ("vendor", PyStr "Unknown");
    ("date", PyStr (strftime_ymd today));
    ("amount", PyFloat 0);
    ("category", PyStr "Uncategorized");
    ("risk_score", PyInt 0);
    ("risk_reason", PyStr "API Key missing.") ].

(** Lines 202-209. *)
Definition error_record (today : Date) (e : Exn) : Dict :=
  [ ("vendor", PyStr "Error");
    ("date", PyStr (strftime_ymd today));
    ("amount", PyFloat 0);
    ("category", PyStr "Error");
    ("risk_score", PyInt 0);
    ("risk_reason", PyStr ("Analysis failed: " ++ exn_str e)) ].

Definition default_model_name : string := "gemini-1.5-flash".

(** The loop of lines 156-159: the first entry that supports
    [generateContent] and whose name contains [flash]. *)
Fixpoint first_flash_model (models : list ModelInfo) : option string :=
  match models with
  | [] => None
  | m :: rest =>
      if existsb (String.eqb "generateContent") (supported_generation_methods m)
         && PyStr.contains "flash" (name m)
      then Some (name m)
      else first_flash_model rest
  end.

(** Lines 154-161. *)
Definition select_model_name (w : World) : M string :=
  try_except_Exception
    (emit EvListModels ;;
     match first_flash_model (list_models_items w) with
     | Some n => ret n
     | None => lift_unit (list_models_error w) ;; ret default_model_name
     end)
    (fun _ => ret default_model_name).

(** Lines 186-190. *)
Definition clean_response (text : string) : string :=
  let response_text := PyStr.strip text in
  let response_text :=
    if PyStr.startswith response_text "```json"
    then PyStr.drop 7 response_text else response_text in
  let response_text :=
    if PyStr.endswith response_text "```"
    then PyStr.drop_last 3 response_text else response_text in
  response_text.

(** Lines 195-196 on the decoded value: [data.get] exists on a [dict]
    only. *)
Definition ensure_data_types (data : PyVal) : M Dict :=
  match data with
  | PyDict d =>
      amount <- lift (py_float (dict_get_default "amount" (PyFloat 0) d)) ;;
      let d := dict_set "amount" (PyFloat amount) d in
      risk_score <- lift (py_int (dict_get_default "risk_score" (PyInt 0) d)) ;;
      ret (dict_set "risk_score" (PyInt risk_score) d)
  | other =>
      raise (AttributeError ("'" ++ type_name other ++ "' object has no attribute 'get'"))
  end.

(** [json.loads(response_text)] *)
Definition loads (text : string) : M PyVal :=
  match json_loads text with
  | inr v => ret v
  | inl msg => raise (JSONDecodeError msg)
  end.

(** The body of the [try] block, lines 151-198.  [GenerativeModel(model_name)]
    only builds the client object and the prompt is a constant: neither
    appears here. *)
Definition analyze_body (w : World) (api_key : string) : M Dict :=
  emit (EvConfigure api_key) ;;
  lift_unit (configure_outcome w) ;;
  model_name <- select_model_name w ;;
  emit EvImageOpen ;;
  lift_unit (image_open_outcome w) ;;
  emit (EvGenerateContent model_name) ;;
  response <- lift (generate_content_outcome w) ;;
  text <- lift response ;;
  data <- loads (clean_response text) ;;
  ensure_data_types data.

Definition missing_key_message : string :=
  "API Key not found. Please set API_KEY in environment or GEMINI_API_KEY in .streamlit/secrets.toml".

(** The text of a key that passed the truth test. *)
Definition key_text (api_key : option string) : string :=
  match api_key with Some k => k | None => "" end.

Definition analyze_receipt_with_ai (w : World) : M Dict :=
  api_key <- resolve_api_key w ;;
  if negb (truthy_key api_key) then
    st_error missing_key_message ;;
    ret (missing_key_record (now w))
  else
    try_except_Exception
      (analyze_body w (key_text api_key))
      (fun e =>
         st_error ("Error analyzing receipt: " ++ exn_str e) ;;
         ret (error_record (now w) e)).

(* ================================================================ *)
(** * ExpenseRecord store: the tab-1 handler and its readers *)
(* ================================================================ *)

(** [data['date']] *)
Definition getitem (k : string) (d : Dict) : M PyVal :=
  match dict_get k d with
  | Some v => ret v
  | None => raise (KeyError k)
  end.

Definition strptime_message (s : string) (err : StrptimeError) : string :=
  match err with
  | NoMatch => "time data '" ++ s ++ "' does not match format '%Y-%m-%d'"
  | UnconvertedData rest => "unconverted data remains: " ++ rest
  | YearOutOfRange => "year 0 is out of range"
  | DayOutOfRange => "day is out of range for month"
  end.

(** [datetime.strptime(v, '%Y-%m-%d')] *)
Definition strptime (v : PyVal) : M Date :=
  match v with
  | PyStr s =>
      match strptime_ymd s with
      | inr d => ret d
      | inl err => raise (ValueError (strptime_message s err))
      end
  | other =>
      raise (TypeError ("strptime() argument 1 must be str, not " ++ type_name other))
  end.

(** Lines 306-320, run when the analysis button is pressed. *)
Definition run_ai_analysis (w : World) : M unit :=
  data <- analyze_receipt_with_ai w ;;
  s <- get_session ;;
  (match history s with
   | None => put_session (mkSession (Some []) (full_history s) (session_advice s))
   | Some _ => ret tt
   end) ;;
  s <- get_session ;;
  put_session (mkSession (option_map (fun h => h ++ [data])%list (history s))
                         (full_history s) (session_advice s)) ;;
  let df_new : DataFrame := [data] in
  date_cell <- getitem "date" data ;;
  d <- strptime date_cell ;;
  let df_new := map (dict_set "Date" (PyDate d)) df_new in
  s <- get_session ;;
  put_session (mkSession (history s)
                         (full_history s ++ map (dict_del "date") df_new)%list
                         (session_advice s)) ;;
  emit EvRerun.

End Analyzer.

(** [latest()]: line 328-329, [history[-1]] when the list exists and is not
    empty. *)
Definition latest (s : Session) : option Dict :=
  match history s with
  | Some h => last (map Some h) None
  | None => None
  end.

(** [all()]: lines 462-463, the records in the order of the list. *)
Definition all (s : Session) : list Dict :=
  match history s with
  | Some h => h
  | None => []
  end.

(* ================================================================== *)
(** * RiskClassifier: lines 333-344 *)
(* ================================================================== *)

(** The three variables set by lines 333-344 (the emoji are kept as their
    UTF-8 bytes). *)
Record Classification := mkClassification {
  risk_class : string;
  status_emoji : string;
  approval_action : string
}.

Definition classify (score : Z) : Classification :=
  let c := mkClassification "risk-low" "✅" "Auto-Approve" in
  let c := if (score >? 50)%Z
           then mkClassification "risk-medium" "⚠️" "Requires Review" else c in
  let c := if (score >? 80)%Z
           then mkClassification "risk-high" "❌" "Auto-Reject" else c in
  c.

Inductive Level := Low | Medium | High.

(** The level named by the style class of the score. *)
Definition level_of (c : Classification) : option Level :=
  if String.eqb (risk_class c) "risk-high" then Some High
  else if String.eqb (risk_class c) "risk-medium" then Some Medium
  else if String.eqb (risk_class c) "risk-low" then Some Low
  else None.

(* ================================================================== *)
(** * HistoryTable: seeding, lines 250-257 *)
(* ================================================================== *)

Definition seed_categories : list string :=
  ["Travel"; "Meals"; "Software"; "Office Supplies"; "Entertainment"; "Client Gifts"].

(** [l * n] on Python lists. *)
Fixpoint list_times {A} (l : list A) (n : nat) : list A :=
  match n with
  | O => []
  | S n' => (l ++ list_times l n')%list
  end.

Definition seed_row (c : string) (a : Q) (d : Date) : Row :=
  [ ("Category", PyStr c); ("Amount", PyFloat a); ("Date", PyDate d) ].

Fixpoint zip_rows (cs : list string) (amounts : list Q) (dates : list Date) : DataFrame :=
  match cs, amounts, dates with
  | c :: cs', a :: amounts', d :: dates' => seed_row c a d :: zip_rows cs' amounts' dates'
  | _, _, _ => []
  end.

(** The seeded table, from the 120 amounts and the 120 dates drawn at
    random. *)
Definition initial_data (amounts : list Q) (dates : list Date) : DataFrame :=
  zip_rows (list_times seed_categories 20) amounts dates.

(* ================================================================== *)
(** * AggregationView: lines 397-418 *)
(* ================================================================== *)

(** The cell of column [Category] when it holds a label.  The reader
    stands for the library on the tables of [well_typed] below, where a cell
    of this column is a text or is missing (NaN).  On a cell of another type
    the library does something else (a key that is not null is a group of
    its own); here such a cell is read as missing, and the statements about
    what the dashboard shows carry [well_typed] as a hypothesis. *)
Definition category_cell (r : Row) : option string :=
  match dict_get "Category" r with
  | Some (PyStr c) => Some c
  | _ => None
  end.

(** The cell of column [Amount] when it holds a number.  As for
    [category_cell]: on the tables of [float_amounts] below a cell of this
    column is a float or is missing, and the reader is what the library
    sums; a cell of another type (a text, a bool) is not skipped by the
    library, it is read as missing here, and the statements about sums carry
    [float_amounts] as a hypothesis. *)
Definition amount_cell (r : Row) : option Q :=
  match dict_get "Amount" r with
  | Some (PyFloat q) => Some q
  | Some (PyInt z) => Some (inject_Z z)
  | _ => None
  end.

(** The column [Category] of the row holds a text or nothing. *)
Definition text_category (r : Row) : bool :=
  match dict_get "Category" r with
  | None => true
  | Some (PyStr _) => true
  | Some _ => false
  end.

(** The column [Amount] of the row holds a float or nothing. *)
Definition float_amount (r : Row) : bool :=
  match dict_get "Amount" r with
  | None => true
  | Some (PyFloat _) => true
  | Some _ => false
  end.

(** The tables on which [df['Amount'].sum()] is the sum of the floats of
    the column. *)
Definition float_amounts (df : DataFrame) : bool := forallb float_amount df.

(** The tables on which the grouping by category and the sums are those of
    the readers above: the seeded table is one, and so is every table grown
    by records that have no key [Category] and no key [Amount]. *)
Definition well_typed (df : DataFrame) : bool :=
  forallb (fun r => text_category r && float_amount r) df.

(** A missing amount adds nothing to a sum ([skipna]). *)
Definition amount_or_zero (r : Row) : Q :=
  match amount_cell r with Some a => a | None => 0%Q end.

Definition Summary := list (string * Q).

Fixpoint summary_get (c : string) (s : Summary) : option Q :=
  match s with
  | [] => None
  | (c', t) :: s' => if String.eqb c' c then Some t else summary_get c s'
  end.

(** One row added to the running totals of its group. *)
Fixpoint add_to_group (c : string) (a : Q) (acc : Summary) : Summary :=
  match acc with
  | [] => [(c, (0 + a)%Q)]
  | (c', t) :: acc' =>
      if String.eqb c' c then (c', (t + a)%Q) :: acc'
      else (c', t) :: add_to_group c a acc'
  end.

(** The totals by group in one pass over the rows; a row without a category
    belongs to no group. *)
Definition group_totals (df : DataFrame) : Summary :=
  fold_left
    (fun acc r =>
       match category_cell r with
       | Some c => add_to_group c (amount_or_zero r) acc
       | None => acc
       end)
    df [].

Section StableSort.
Context {A : Type}.
(** [before x y]: [y] must come before [x]. *)
Variable before : A -> A -> bool.

Fixpoint insert_stable (x : A) (l : list A) : list A :=
  match l with
  | [] => [x]
  | y :: l' => if before x y then y :: insert_stable x l' else x :: l
  end.

(** Insertion sort that keeps the order of the elements it does not have
    to exchange. *)
Definition stable_sort (l : list A) : list A :=
  fold_right insert_stable [] l.
End StableSort.

(** [groupby('Category')] orders the groups by key. *)
Definition key_after (x y : string * Q) : bool := String.ltb (fst y) (fst x).

(** [df.groupby('Category')['Amount'].sum().reset_index()] *)
Definition summarize (df : DataFrame) : Summary :=
  stable_sort key_after (group_totals df).

(** [x < y] on amounts. *)
Definition Qltb (x y : Q) : bool := negb (Qle_bool y x).

(** [a] is listed before [b] in a descending order of totals. *)
Definition total_ge (a b : string * Q) : Prop := (snd b <= snd a)%Q.

(** [sort_values(by="Amount", ascending=False)], called at line 415 with the
    default [kind='quicksort'].  The library gives back the rows of the
    frame in descending order of the column; the default kind is not a
    stable sort, so the order in which rows of equal total come out is not
    fixed by the call.  The sort of the library is therefore a parameter,
    known by what it promises: a rearrangement of the rows, in descending
    order. *)
Class Sorting := {
  sort_values_desc : Summary -> Summary;
  sort_values_desc_permutes : forall s, Permutation (sort_values_desc s) s;
  sort_values_desc_descends : forall s, StronglySorted total_ge (sort_values_desc s)
}.

Section Breakdown.

Context {SO : Sorting}.

(** [sort_values(by="Amount", ascending=False).head(n)] *)
Definition topN (s : Summary) (n : nat) : Summary := firstn n (sort_values_desc s).

(** Lines 414-418. *)
Definition top_3_breakdown (df : DataFrame) : Summary := topN (summarize df) 3.

End Breakdown.

(** Two sorts to run the page on.  In the first a row goes behind the rows
    of strictly greater total, and behind those only: rows of equal total
    stay as they were (what a stable kind gives).  In the second a row goes
    behind the rows of equal total as well: rows of equal total come out in
    the opposite order. *)
Definition amount_after (x y : string * Q) : bool := Qltb (snd x) (snd y).

Definition sort_keeping_ties (s : Summary) : Summary := stable_sort amount_after s.

Definition amount_not_before (x y : string * Q) : bool := Qle_bool (snd x) (snd y).

Definition sort_swapping_ties (s : Summary) : Summary :=
  stable_sort amount_not_before s.

(** [df_summary.loc[df_summary['Amount'].idxmax()]]: the first row that
    holds the greatest total. *)
Fixpoint idxmax_row (s : Summary) : option (string * Q) :=
  match s with
  | [] => None
  | x :: s' =>
      match idxmax_row s' with
      | Some y => if Qltb (snd x) (snd y) then Some y else Some x
      | None => Some x
      end
  end.

(* ================================================================== *)
(** * AdvisorStub: [get_financial_advice_and_prediction] *)
(* ================================================================== *)

(** [df['Amount'].sum()] *)
Definition column_sum (df : DataFrame) : Q :=
  fold_left (fun acc r => (acc + amount_or_zero r)%Q) df 0%Q.

(** Rounding to the nearest integer, a tie going to the even one. *)
Definition round_half_even (x : Q) : Z :=
  let f := Qfloor x in
  match Qcompare (x - inject_Z f) (1 # 2) with
  | Lt => f
  | Gt => (f + 1)%Z
  | Eq => if Z.even f then f else (f + 1)%Z
  end.

(** [round(x, 2)] *)
Definition round2 (x : Q) : Q := (inject_Z (round_half_even (x * 100)) / 100)%Q.

Definition advice_list : list string :=
  [ "Your **Software** spending is efficient at just 15% of your total budget. Keep utilizing subscription bundles.";
    "The **Meals** category shows frequent high-value transactions. Consider setting a daily cap of $50 to cut costs by 15%.";
    "**Entertainment** expenses currently exceed internal policy thresholds. We recommend cutting these expenses completely to save $1,200/month.";
    "Optimize **Travel** by booking flights 21 days in advance; this could reduce airfare costs by 10% next month." ].

(** Line 228, with the sample of [random.uniform(0.95, 1.05)] as [u]. *)
Definition forecast (df_history : DataFrame) (u : Q) : Q :=
  (column_sum df_history * u)%Q.

Definition get_financial_advice_and_prediction (w : World) (df_history : DataFrame)
  : M Advice :=
  emit (EvSleep 2) ;;
  ret (mkAdvice (round2 (forecast df_history (uniform_sample w)))
                "Entertainment, High-Value Meals"
                advice_list).

(** Lines 425-429. *)
Definition ask_financial_coach (w : World) : M unit :=
  s <- get_session ;;
  advice_data <- get_financial_advice_and_prediction w (full_history s) ;;
  put_session (mkSession (history s) (full_history s) (Some advice_data)) ;;
  emit EvRerun.

(* ================================================================== *)
(** * The rest of the page: status box, result card, dashboard *)
(* ================================================================== *)

(** ** Sidebar, lines 266-283 *)

Record StatusBox := mkStatusBox {
  status_online : bool;        (* st.success or st.error *)
  status_text : string;
  status_caption : string
}.

(** [api_key == ""] *)
Definition is_empty_key (api_key : option string) : bool :=
  match api_key with
  | Some k => PyStr.is_empty k
  | None => false
  end.

Definition system_status (w : World) : M StatusBox :=
  api_key <- resolve_api_key w ;;
  if truthy_key api_key then
    ret (mkStatusBox true "AI Model (Gemini Vision) Online 🟢" "Secure API Key Loaded")
  else if is_empty_key api_key then
    ret (mkStatusBox false "AI Model Offline 🔴" "API Key is present but empty")
  else
    ret (mkStatusBox false "AI Model Offline 🔴" "Missing API Key").

(** ** Result card, lines 328-390 *)

(** [v > n] for an integer literal [n]: numbers compare, other values raise
    [TypeError]. *)
Definition py_gt (v : PyVal) (n : Z) : Exn + bool :=
  match v with
  | PyInt z => inr (z >? n)%Z
  | PyBool b => inr ((if b then 1 else 0) >? n)%Z
  | PyFloat q => inr (Qltb (inject_Z n) q)
  | other =>
      inl (TypeError ("'>' not supported between instances of '"
                      ++ type_name other ++ "' and 'int'"))
  end.

(** Lines 333-344 on the outcomes of the two comparisons. *)
Definition classify_by (gt50 gt80 : bool) : Classification :=
  let c := mkClassification "risk-low" "✅" "Auto-Approve" in
  let c := if gt50
           then mkClassification "risk-medium" "⚠️" "Requires Review" else c in
  let c := if gt80
           then mkClassification "risk-high" "❌" "Auto-Reject" else c in
  c.

(** What the card and the report below it show. *)
Record ResultCard := mkResultCard {
  card_classification : Classification;
  card_vendor : PyVal;
  card_date : PyVal;
  card_category : PyVal;
  card_amount : PyVal;
  card_score : PyVal;
  card_risk_reason : PyVal;
  card_button : string
}.

(** Lines 380-385. *)
Definition first_button (approval_action : string) : string :=
  if negb (String.eqb approval_action "Auto-Reject")
  then "Confirm & Approve" else "Flag for Manual Review".

(** The right column of the first tab: nothing without a record, else the
    card of the latest record; the subscripts are evaluated in the order of
    the text. *)
Definition render_results : M (option ResultCard) :=
  s <- get_session ;;
  match latest s with
  | None => ret None
  | Some latest_record =>
      score <- getitem "risk_score" latest_record ;;
      gt50 <- lift (py_gt score 50) ;;
      gt80 <- lift (py_gt score 80) ;;
      let c := classify_by gt50 gt80 in
      vendor <- getitem "vendor" latest_record ;;
      date <- getitem "date" latest_record ;;
      category <- getitem "category" latest_record ;;
      amount <- getitem "amount" latest_record ;;
      risk_reason <- getitem "risk_reason" latest_record ;;
      ret (Some (mkResultCard c vendor date category amount score risk_reason
                              (first_button (approval_action c))))
  end.

(** ** Dashboard, lines 397-418 *)

(** [df_summary['Amount'].sum()] *)
Definition total_spending (s : Summary) : Q :=
  fold_left (fun acc x => (acc + snd x)%Q) s 0%Q.

Record Dashboard := mkDashboard {
  dash_summary : Summary;        (* the bars of the chart *)
  dash_total : Q;
  dash_highest : string;
  dash_top3 : Summary
}.

(** The second tab; [idxmax] of an empty column raises [ValueError]. *)
Definition render_dashboard {SO : Sorting} : M Dashboard :=
  s <- get_session ;;
  let df_summary := summarize (full_history s) in
  let total_spending := total_spending df_summary in
  match idxmax_row df_summary with
  | None => raise (ValueError "attempt to get argmax of an empty sequence")
  | Some highest_category =>
      ret (mkDashboard df_summary total_spending (fst highest_category)
                       (topN df_summary 3))
  end.

(* ================================================================== *)
(** * The logo: [get_base64_image], lines 23-38 *)
(* ================================================================== *)

(** [base64.b64encode] on bytes (one [ascii] per byte), with the standard
    alphabet and padding. *)
Module Base64.

Definition alphabet : string :=
  "ABCDEFGHIJKLMNOPQRSTUVWXYZabcdefghijklmnopqrstuvwxyz0123456789+/".

Definition bit (b : bool) : nat := if b then 1 else 0.

(** The number written by six bits, the first one the most significant. *)
Definition sextet (b5 b4 b3 b2 b1 b0 : bool) : nat :=
  32 * bit b5 + 16 * bit b4 + 8 * bit b3 + 4 * bit b2 + 2 * bit b1 + bit b0.

Definition b64_char (n : nat) : ascii :=
  match String.get n alphabet with
  | Some c => c
  | None => "="%char
  end.

(** Three bytes give four characters. *)
Definition encode3 (x y z : ascii) : string :=
  let 'Ascii x0 x1 x2 x3 x4 x5 x6 x7 := x in
  let 'Ascii y0 y1 y2 y3 y4 y5 y6 y7 := y in
  let 'Ascii z0 z1 z2 z3 z4 z5 z6 z7 := z in
  String (b64_char (sextet x7 x6 x5 x4 x3 x2))
    (String (b64_char (sextet x1 x0 y7 y6 y5 y4))
      (String (b64_char (sextet y3 y2 y1 y0 z7 z6))
        (String (b64_char (sextet z5 z4 z3 z2 z1 z0)) ""))).

(** Two bytes at the end give three characters and one pad. *)
Definition encode2 (x y : ascii) : string :=
  let 'Ascii x0 x1 x2 x3 x4 x5 x6 x7 := x in
  let 'Ascii y0 y1 y2 y3 y4 y5 y6 y7 := y in
  String (b64_char (sextet x7 x6 x5 x4 x3 x2))
    (String (b64_char (sextet x1 x0 y7 y6 y5 y4))
      (String (b64_char (sextet y3 y2 y1 y0 false false)) "=")).

(** One byte at the end gives two characters and two pads. *)
Definition encode1 (x : ascii) : string :=
  let 'Ascii x0 x1 x2 x3 x4 x5 x6 x7 := x in
  String (b64_char (sextet x7 x6 x5 x4 x3 x2))
    (String (b64_char (sextet x1 x0 false false false false)) "==").

Fixpoint b64encode (bytes : string) : string :=
  match bytes with
  | String x (String y (String z rest)) => encode3 x y z ++ b64encode rest
  | String x (String y EmptyString) => encode2 x y
  | String x EmptyString => encode1 x
  | EmptyString => ""
  end.

End Base64.

(** What the function asks of the file system: [os.path.exists(path)] and
    the outcome of [open(path, "rb")] followed by [read()]. *)
Record Files := mkFiles {
  path_exists : string -> bool;
  read_file : string -> Exn + string
}.

(** The message shown on the page, if any. *)
Inductive Notice :=
| NoNotice
| StWarning (msg : string)
| StError (msg : string).

Definition placeholder_logo : string :=
  "https://placehold.co/50x50/58a6ff/0d1117?text=iS".

Definition get_base64_image (fs : Files) (path : string) : Outcome (string * Notice) :=
  if negb (path_exists fs path) then
    Returned (placeholder_logo,
              StWarning ("Logo file not found at " ++ path ++ ". Using placeholder."))
  else
    match read_file fs path with
    | inr bytes => Returned ("data:image/png;base64," ++ Base64.b64encode bytes, NoNotice)
    | inl e =>
        if is_Exception e then
          Returned (placeholder_logo,
                    StError ("Error loading logo: " ++ exn_str e ++ ". Using placeholder."))
        else Raised e
    end.

(* ================================================================== *)
(** * The script [list_models.py] *)
(* ================================================================== *)

(** How the script ends: at its last line, by [exit(code)], or by an
    exception that nothing catches. *)
Inductive Termination :=
| Finished
| SystemExit (code : Z)
| Uncaught (e : Exn).

(** What a run of the script leaves: the lines printed, the calls made to
    the library, and its end. *)
Record ScriptRun := mkScriptRun {
  stdout : list string;
  calls : list Event;
  termination : Termination
}.

(** Lines 6-12.  [secrets] is the outcome of [toml.load] followed by
    [secrets.get("GEMINI_API_KEY")]: an exception, or the value if the key
    is there. *)
Definition script_api_key (env : option string) (secrets : Exn + option string)
  : Exn + option string :=
  if negb (truthy_key env) then
    match secrets with
    | inr v => inr v
    | inl e => if is_Exception e then inr env else inl e
    end
  else inr env.

(** The loop of lines 22-24: the names of the entries that support
    [generateContent], in the order of the listing. *)
Fixpoint generation_models (models : list ModelInfo) : list string :=
  match models with
  | [] => []
  | m :: rest =>
      if existsb (String.eqb "generateContent") (supported_generation_methods m)
      then name m :: generation_models rest
      else generation_models rest
  end.

Definition list_models_script (secrets : Exn + option string) (w : World) : ScriptRun :=
  match script_api_key (env_API_KEY w) secrets with
  | inl e => mkScriptRun [] [] (Uncaught e)
  | inr api_key =>
      if negb (truthy_key api_key) then
        mkScriptRun ["API Key not found!"] [] (SystemExit 1)
      else
        let configured := [EvConfigure (key_text api_key)] in
        match configure_outcome w with
        | Some e => mkScriptRun [] configured (Uncaught e)
        | None =>
            let listed := (configured ++ [EvListModels])%list in
            let printed :=
              "Listing available models:" :: generation_models (list_models_items w) in
            match list_models_error w with
            | None => mkScriptRun printed listed Finished
            | Some e =>
                if is_Exception e then
                  mkScriptRun
                    (printed ++ [("Error listing models: " ++ exn_str e)%string])%list
                    listed Finished
                else mkScriptRun printed listed (Uncaught e)
            end
        end
  end.

(* ================================================================== *)
(** * A runtime to evaluate the model on concrete responses *)
(* ================================================================== *)

(** A decoder for the part of JSON that the examples below use: objects,
    arrays, strings with the one-letter escapes, decimal numbers without
    exponent, [true], [false], [null].  The theorems about the analyzer hold
    for every [Runtime]; this one serves to run it. *)
Module JsonModel.

Definition dquote : ascii := ascii_of_nat 34.
Definition backslash : ascii := ascii_of_nat 92.

(** Writes a JSON text with apostrophes in place of double quotes. *)
Fixpoint js (s : string) : string :=
  match s with
  | EmptyString => EmptyString
  | String c s' => String (if Ascii.eqb c "'" then dquote else c) (js s')
  end.

Definition is_json_ws (c : ascii) : bool :=
  let n := nat_of_ascii c in
  (n =? 32) || (n =? 9) || (n =? 10) || (n =? 13).

Fixpoint skip_ws (s : string) : string :=
  match s with
  | EmptyString => EmptyString
  | String c s' => if is_json_ws c then skip_ws s' else s
  end.

Fixpoint read_digits (s : string) (acc : Z) (count : nat) : Z * nat * string :=
  match s with
  | EmptyString => (acc, count, s)
  | String c s' =>
      match digit_val c with
      | Some v => read_digits s' (10 * acc + Z.of_nat v)%Z (S count)
      | None => (acc, count, s)
      end
  end.

Definition read_sign (s : string) : bool * string :=
  match s with
  | String "-" r => (true, r)
  | _ => (false, s)
  end.

Definition signed_Z (neg : bool) (z : Z) : Z := if neg then (- z)%Z else z.

(** [-? digits (. digits)?]: an [int] without fraction, a [float] with
    one. *)
Definition parse_number (s : string) : option (PyVal * string) :=
  let '(neg, s1) := read_sign s in
  let '(ip, n, s2) := read_digits s1 0%Z 0 in
  if n =? 0 then None
  else
    match s2 with
    | String "." s3 =>
        let '(fp, k, s4) := read_digits s3 0%Z 0 in
        if k =? 0 then None
        else
          let q := (inject_Z ip + Qmake fp (Pos.pow 10 (Pos.of_nat k)))%Q in
          Some (PyFloat (Qred (if neg then - q else q)%Q), s4)
    | _ => Some (PyInt (signed_Z neg ip), s2)
    end.

Definition unescape (c : ascii) : option ascii :=
  if Ascii.eqb c dquote then Some dquote
  else if Ascii.eqb c backslash then Some backslash
  else if Ascii.eqb c "/" then Some "/"%char
  else if Ascii.eqb c "n" then Some (ascii_of_nat 10)
  else if Ascii.eqb c "t" then Some (ascii_of_nat 9)
  else if Ascii.eqb c "r" then Some (ascii_of_nat 13)
  else if Ascii.eqb c "b" then Some (ascii_of_nat 8)
  else if Ascii.eqb c "f" then Some (ascii_of_nat 12)
  else None.

Definition cons_char (c : ascii) (r : option (string * string)) : option (string * string) :=
  match r with
  | Some (body, rest) => Some (String c body, rest)
  | None => None
  end.

(** The characters up to the closing quote, after the opening one. *)
Fixpoint parse_string_body (s : string) : option (string * string) :=
  match s with
  | EmptyString => None
  | String c s' =>
      if Ascii.eqb c dquote then Some (EmptyString, s')
      else if Ascii.eqb c backslash then
        match s' with
        | String e s'' =>
            match unescape e with
            | Some ch => cons_char ch (parse_string_body s'')
            | None => None
            end
        | EmptyString => None
        end
      else cons_char c (parse_string_body s')
  end.

Definition expect (word : string) (v : PyVal) (s : string) : option (PyVal * string) :=
  if String.prefix word s then Some (v, PyStr.drop (String.length word) s) else None.

Section Containers.
Variable parse_item : string -> option (PyVal * string).

(** [item (, item)* ]], after the opening bracket. *)
Fixpoint parse_elements (fuel : nat) (s : string) : option (list PyVal * string) :=
  match fuel with
  | O => None
  | S fuel' =>
      match parse_item s with
      | Some (v, s1) =>
          match skip_ws s1 with
          | String "," s2 =>
              match parse_elements fuel' s2 with
              | Some (vs, s3) => Some (v :: vs, s3)
              | None => None
              end
          | String "]" s2 => Some ([v], s2)
          | _ => None
          end
      | None => None
      end
  end.

(** [key : item (, key : item)* }], after the opening brace. *)
Fixpoint parse_members (fuel : nat) (s : string) : option (Dict * string) :=
  match fuel with
  | O => None
  | S fuel' =>
      match skip_ws s with
      | String c s0 =>
          if Ascii.eqb c dquote then
            match parse_string_body s0 with
            | Some (k, s1) =>
                match skip_ws s1 with
                | String ":" s2 =>
                    match parse_item s2 with
                    | Some (v, s3) =>
                        match skip_ws s3 with
                        | String "," s4 =>
                            match parse_members fuel' s4 with
                            | Some (kvs, s5) => Some ((k, v) :: kvs, s5)
                            | None => None
                            end
                        | String "}" s4 => Some ([(k, v)], s4)
                        | _ => None
                        end
                    | None => None
                    end
                | _ => None
                end
            | None => None
            end
          else None
      | EmptyString => None
      end
  end.
End Containers.

(** A repeated key keeps its first place and its last value. *)
Definition dict_of_pairs (kvs : Dict) : Dict :=
  fold_left (fun d kv => dict_set (fst kv) (snd kv) d) kvs [].

Fixpoint parse_value (fuel : nat) (s : string) : option (PyVal * string) :=
  match fuel with
  | O => None
  | S fuel' =>
      match skip_ws s with
      | EmptyString => None
      | String c rest =>
          if Ascii.eqb c "{" then
            match skip_ws rest with
            | String "}" r => Some (PyDict [], r)
            | _ =>
                match parse_members (parse_value fuel') fuel' rest with
                | Some (kvs, r) => Some (PyDict (dict_of_pairs kvs), r)
                | None => None
                end
            end
          else if Ascii.eqb c "[" then
            match skip_ws rest with
            | String "]" r => Some (PyList [], r)
            | _ =>
                match parse_elements (parse_value fuel') fuel' rest with
                | Some (vs, r) => Some (PyList vs, r)
                | None => None
                end
            end
          else if Ascii.eqb c dquote then
            match parse_string_body rest with
            | Some (str, r) => Some (PyStr str, r)
            | None => None
            end
          else if Ascii.eqb c "n" then expect "null" PyNone (String c rest)
          else if Ascii.eqb c "t" then expect "true" (PyBool true) (String c rest)
          else if Ascii.eqb c "f" then expect "false" (PyBool false) (String c rest)
          else parse_number (String c rest)
      end
  end.

Definition decode (s : string) : string + PyVal :=
  match parse_value (S (String.length s)) s with
  | Some (v, rest) =>
      if PyStr.is_empty (skip_ws rest) then inr v else inl "Extra data"
  | None => inl "Expecting value"
  end.

(** [int("  -12 ")] *)
Definition int_of_string (s : string) : option Z :=
  let '(neg, s1) := read_sign (PyStr.strip s) in
  let '(z, n, rest) := read_digits s1 0%Z 0 in
  if (0 <? n) && PyStr.is_empty rest then Some (signed_Z neg z) else None.

(** [float(" 12.50 ")] *)
Definition float_of_string (s : string) : option Q :=
  match parse_number (PyStr.strip s) with
  | Some (PyFloat q, EmptyString) => Some q
  | Some (PyInt z, EmptyString) => Some (inject_Z z)
  | _ => None
  end.

#[export] Instance runtime : Runtime := {
  json_loads := decode;
  float_of_str := float_of_string;
  int_of_str := int_of_string
}.

End JsonModel.

(* ================================================================== *)
(** * Vocabulary of the statements *)
(* ================================================================== *)

(** The environment variable holds a usable key. *)
Definition env_yields_key (w : World) : bool := truthy_key (env_API_KEY w).

(** The secrets file holds a usable key. *)
Definition secrets_yield_key (w : World) : bool :=
  match secrets_GEMINI_API_KEY w with
  | inr k => negb (PyStr.is_empty k)
  | inl _ => false
  end.

(** Neither source yields a key. *)
Definition no_credential (w : World) : bool :=
  negb (env_yields_key w) && negb (secrets_yield_key w).

(** The key that the two sources yield, the environment first. *)
Definition credential (w : World) : string :=
  if env_yields_key w then key_text (env_API_KEY w)
  else match secrets_GEMINI_API_KEY w with inr k => k | inl _ => "" end.

(** The call does not raise, or raises an [Exception]. *)
Definition derives_Exception (o : option Exn) : bool :=
  match o with Some e => is_Exception e | None => true end.

(** Every exception that the outside world raises during the analysis
    derives from [Exception] (network, decoding and service errors do). *)
Definition raises_only_Exception (w : World) : bool :=
  derives_Exception (configure_outcome w)
  && derives_Exception (list_models_error w)
  && derives_Exception (image_open_outcome w)
  && match generate_content_outcome w with
     | inl e => is_Exception e
     | inr (inl e) => is_Exception e
     | inr (inr _) => true
     end.

(** The events added to the trace between two states. *)
Definition emitted (before after : State) : list Event :=
  skipn (List.length (trace before)) (trace after).

(** The world [w] where the service answers [text]. *)
Definition with_response (w : World) (text : string) : World :=
  mkWorld (env_API_KEY w) (secrets_GEMINI_API_KEY w) (now w)
          (configure_outcome w) (list_models_items w) (list_models_error w)
          (image_open_outcome w) (inr (inr text)) (uniform_sample w).

(** [riskScore] is an integer of [0,100] and [amount] a non-negative
    number. *)
Definition record_in_range (r : Dict) : bool :=
  match dict_get "risk_score" r, dict_get "amount" r with
  | Some (PyInt z), Some (PyFloat q) =>
      (0 <=? z)%Z && (z <=? 100)%Z && Qle_bool 0 q
  | _, _ => false
  end.

(** The state after the handler of line 200 ran on [st1]. *)
Definition after_handler (st1 : State) (e : Exn) : State :=
  mkState (session st1)
          (trace st1 ++ [EvStError ("Error analyzing receipt: " ++ exn_str e)])%list.

(** The states of the [try] block when it reaches the request, and when the
    request has been sent. *)
Definition at_image_open (st : State) (key : string) : State :=
  mkState (session st) (trace st ++ [EvConfigure key; EvListModels; EvImageOpen])%list.

Definition after_request (st : State) (key model : string) : State :=
  mkState (session st)
          (trace st ++ [EvConfigure key; EvListModels; EvImageOpen;
                        EvGenerateContent model])%list.

Definition is_digit (c : ascii) : bool :=
  match digit_val c with Some _ => true | None => false end.

(** The shape [YYYY-MM-DD]. *)
Definition is_ymd_text (s : string) : bool :=
  match s with
  | String y1 (String y2 (String y3 (String y4 (String h1 (String m1 (String m2
      (String h2 (String d1 (String d2 EmptyString))))))))) =>
      is_digit y1 && is_digit y2 && is_digit y3 && is_digit y4
      && Ascii.eqb h1 "-" && is_digit m1 && is_digit m2
      && Ascii.eqb h2 "-" && is_digit d1 && is_digit d2
  | _ => false
  end.

(** The six keys of an ExpenseRecord, in the order of the literals of lines
    141-148 and 202-209. *)
Definition expense_record_keys : list string :=
  ["vendor"; "date"; "amount"; "category"; "risk_score"; "risk_reason"].

(** A well-formed record: it has these keys and no other. *)
Definition has_record_keys (r : Dict) : Prop := map fst r = expense_record_keys.

(** The state once line 312 has appended [data] to ['history']. *)
Definition appended (st : State) (data : Dict) : State :=
  mkState (mkSession (Some (all (session st) ++ [data])%list)
                     (full_history (session st))
                     (session_advice (session st)))
          (trace st).

(** The two records built by the analyzer itself. *)
Definition degraded (w : World) (r : Dict) : Prop :=
  r = missing_key_record (now w) \/ exists e, r = error_record (now w) e.

(** A computation that leaves the session as it found it. *)
Definition keeps_session {A} (m : M A) : Prop :=
  forall st o st', m st = (o, st') -> session st' = session st.

(** The row is in group [c]. *)
Definition in_category (c : string) (r : Row) : bool :=
  match category_cell r with
  | Some c' => String.eqb c' c
  | None => false
  end.

Definition has_category (c : string) (df : DataFrame) : bool :=
  existsb (in_category c) df.

(** The sum of a list of amounts, in the order of the list. *)
Definition Qsum (l : list Q) : Q := fold_right Qplus 0%Q l.

(** The sum of the amounts of the rows of category [c]. *)
Definition category_total (c : string) (df : DataFrame) : Q :=
  Qsum (map amount_or_zero (filter (in_category c) df)).

(** The sum of all the amounts of the table. *)
Definition sum_of_amounts (df : DataFrame) : Q := Qsum (map amount_or_zero df).

Definition option_Qeq (a b : option Q) : Prop :=
  match a, b with
  | Some x, Some y => (x == y)%Q
  | None, None => True
  | _, _ => False
  end.

(** The entry has total [q]. *)
Definition has_total (q : Q) (x : string * Q) : bool := Qeq_bool (snd x) q.

(** The row that the tab-1 handler adds to [full_history] for [data]. *)
Definition mirrored_row (d : Date) (data : Dict) : Row :=
  dict_del "date" (dict_set "Date" (PyDate d) data).

(** The text of a cell that holds a string. *)
Definition string_of (v : option PyVal) : string :=
  match v with Some (PyStr s) => s | _ => "" end.

(** ** Concrete worlds and sessions *)

Definition today : Date := mkDate 2026 11 4.

Definition flash : ModelInfo :=
  mkModelInfo "models/gemini-1.5-flash-latest" ["generateContent"; "countTokens"].

(** A world with a key in the environment, where the service answers
    [text]. *)
Definition online (text : string) : World :=
  mkWorld (Some "k-1") (inl (KeyError "GEMINI_API_KEY")) today
          None [mkModelInfo "models/embedding-001" ["embedContent"]; flash] None
          None (inr (inr text)) 1%Q.

(** A world without any key. *)
Definition offline : World :=
  mkWorld None (inl (KeyError "GEMINI_API_KEY")) today
          None [] None None (inr (inr "")) 1%Q.

Definition connection_refused : Exn :=
  mkExn DerivesException "ConnectionError" "connection refused".

(** A world with a key where listing the models and the request fail. *)
Definition unreachable : World :=
  mkWorld (Some "k-1") (inl (KeyError "GEMINI_API_KEY")) today
          None [] (Some (mkExn DerivesException "ServiceUnavailable" "503"))
          None (inl connection_refused) 1%Q.

(** The table of the example of the specification. *)
Definition three_rows : DataFrame :=
  [ seed_row "Travel" 100 today; seed_row "Travel" 50 today; seed_row "Meals" 30 today ].

(** Two categories of equal total. *)
Definition tied_rows : DataFrame :=
  [ seed_row "Meals" 100 today; seed_row "Travel" 100 today ].

(** A table whose amounts sum to 1000. *)
Definition thousand : DataFrame :=
  [ seed_row "Travel" 600 today; seed_row "Meals" 400 today ].

(** A world where the generator draws the upper end of its interval. *)
Definition generous : World :=
  mkWorld None (inl (KeyError "GEMINI_API_KEY")) today
          None [] None None (inr (inr "")) (105 # 100)%Q.

(** A session that starts with the table [df] and no analysis yet. *)
Definition fresh (df : DataFrame) : State := mkState (mkSession None df None) [].

(** The analyzer and the handler on the runtime of [JsonModel]. *)
Definition analyze_on : World -> M Dict := @analyze_receipt_with_ai JsonModel.runtime.
Definition run_on : World -> M unit := @run_ai_analysis JsonModel.runtime.

Definition cafe_payload : string :=
  JsonModel.js "{'vendor': 'Cafe', 'date': '2024-03-09', 'amount': 12.5, 'category': 'Meals', 'risk_score': 20, 'risk_reason': 'ordinary'}".

Definition casino_payload : string :=
  JsonModel.js "{'vendor': 'Casino', 'date': '2024-03-09', 'amount': -5, 'category': 'Entertainment', 'risk_score': 150, 'risk_reason': 'gambling'}".

Definition undated_payload : string :=
  JsonModel.js "{'vendor': 'Cafe', 'date': 'March 9th', 'amount': 12.5, 'category': 'Meals', 'risk_score': 20, 'risk_reason': 'ordinary'}".

(** What the analyzer returns for [cafe_payload]. *)
Definition cafe_record : Dict :=
  [ ("vendor", PyStr "Cafe"); ("date", PyStr "2024-03-09");
    ("amount", PyFloat (25 # 2)); ("category", PyStr "Meals");
    ("risk_score", PyInt 20); ("risk_reason", PyStr "ordinary") ].

Definition newline : string := String (ascii_of_nat 10) "".

(** A payload in a fenced block that names no language. *)
Definition plain_fenced (payload : string) : string :=
  "```" ++ newline ++ payload ++ newline ++ "```".

(** ** Vocabulary of the properties of the whole page *)

(** The calls of the [try] block up to the request, in their order. *)
Definition request_steps (key model : string) : list Event :=
  [EvConfigure key; EvListModels; EvImageOpen; EvGenerateContent model].

(** The model named by a request. *)
Definition requested_model (ev : Event) : option string :=
  match ev with
  | EvGenerateContent m => Some m
  | _ => None
  end.

Definition is_request (ev : Event) : bool :=
  match ev with EvGenerateContent _ => true | _ => false end.

(** The model that lines 154-161 select in the world [w] when the listing
    does not stop the analysis. *)
Definition chosen_model (w : World) : string :=
  match first_flash_model (list_models_items w) with
  | Some n => n
  | None => default_model_name
  end.

(** The events that one call of the analyzer can emit in the world [w]: the
    message of the missing key alone, or the first [n] calls of the [try]
    block, followed or not by the message of the handler. *)
Definition analysis_events (w : World) (evs : list Event) : Prop :=
  (no_credential w = true /\ evs = [EvStError missing_key_message])
  \/ (no_credential w = false
      /\ exists n model msgs,
          1 <= n <= 4
          /\ model = chosen_model w
          /\ (msgs = [] \/ exists msg, msgs = [EvStError msg])
          /\ evs = (firstn n (request_steps (credential w) model) ++ msgs)%list).

(** [l] is a beginning of [l']. *)
Definition begins {A} (l l' : list A) : Prop := exists rest, l' = (l ++ rest)%list.

(** The state left by one press of the analysis button in the world [w],
    whether the handler returned or raised: the session outlives the run. *)
Definition press {RT : Runtime} (st : State) (w : World) : State :=
  snd (run_ai_analysis w st).

(** The state after one press per world of [ws]. *)
Definition presses {RT : Runtime} (ws : list World) (st : State) : State :=
  fold_left press ws st.

(** The state of a session that starts with the seeded table. *)
Definition seeded (amounts : list Q) (dates : list Date) : State :=
  mkState (mkSession None (initial_data amounts dates) None) [].

(** The keys that the card reads and that only the payload can provide. *)
Definition payload_only_keys : list string :=
  ["vendor"; "date"; "category"; "risk_reason"].

(** The dictionary decoded from the answer of the service, when the request
    is answered by a text that decodes to one. *)
Definition decoded_payload {RT : Runtime} (w : World) : option Dict :=
  match generate_content_outcome w with
  | inr (inr text) =>
      match json_loads (clean_response text) with
      | inr (PyDict d) => Some d
      | _ => None
      end
  | _ => None
  end.

(** The answer of the service has no key [Category] and no key [Amount]: the
    prompt asks for [category] and [amount]. *)
Definition prompt_keys_only {RT : Runtime} (w : World) : bool :=
  match decoded_payload w with
  | Some d =>
      match dict_get "Category" d, dict_get "Amount" d with
      | None, None => true
      | _, _ => false
      end
  | None => true
  end.

(** The three ways for the conversion of the date to stop the handler. *)
Definition date_failure (data : Dict) (e : Exn) : Prop :=
  (dict_get "date" data = None /\ e = KeyError "date")
  \/ (exists v, dict_get "date" data = Some v
                /\ (forall s, v <> PyStr s)
                /\ e = TypeError ("strptime() argument 1 must be str, not " ++ type_name v))
  \/ (exists s err, dict_get "date" data = Some (PyStr s)
                    /\ strptime_ymd s = inl err
                    /\ e = ValueError (strptime_message s err)).

(** ** Vocabulary of the dashboard *)

(** The row belongs to a group of the summary. *)
Definition categorised (r : Row) : bool :=
  match category_cell r with Some _ => true | None => false end.

(** The keys of the running totals when a row of category [c] is added. *)
Fixpoint add_key (c : string) (keys : list string) : list string :=
  match keys with
  | [] => [c]
  | c' :: keys' => if String.eqb c' c then keys else c' :: add_key c keys'
  end.

(** The groups of a column of categories, in the order of their first
    rows. *)
Definition group_keys (cats : list (option string)) : list string :=
  fold_left (fun keys oc => match oc with Some c => add_key c keys | None => keys end)
            cats [].

Definition name_after (x y : string) : bool := String.ltb y x.

(** The six categories of the seeded table in the order of the chart. *)
Definition chart_categories : list string :=
  ["Client Gifts"; "Entertainment"; "Meals"; "Office Supplies"; "Software"; "Travel"].

(** [y] is a greatest total of the summary. *)
Definition greatest_total (s : Summary) (t : Q) : Prop :=
  forall c t', summary_get c s = Some t' -> (t' <= t)%Q.

(** ** Vocabulary of the logo: reading a Base64 text back *)

(** The place of a character in a text, from [i] on. *)
Fixpoint index_from (i : nat) (c : ascii) (s : string) : option nat :=
  match s with
  | EmptyString => None
  | String c' s' => if Ascii.eqb c' c then Some i else index_from (S i) c s'
  end.

(** The six bits that a character of the alphabet stands for, the most
    significant first. *)
Definition b64_bits (c : ascii) : option (bool * bool * bool * bool * bool * bool) :=
  match index_from 0 c Base64.alphabet with
  | Some n =>
      Some (Nat.testbit n 5, Nat.testbit n 4, Nat.testbit n 3,
            Nat.testbit n 2, Nat.testbit n 1, Nat.testbit n 0)
  | None => None
  end.

Definition is_pad (c : ascii) : bool := Ascii.eqb c "=".

(** The bytes of one group of four characters: three bytes, or two before
    one pad, or one before two pads. *)
Definition b64decode_group (a b c d : ascii) : option string :=
  match b64_bits a, b64_bits b with
  | Some (a5, a4, a3, a2, a1, a0), Some (b5, b4, b3, b2, b1, b0) =>
      let x := Ascii b4 b5 a0 a1 a2 a3 a4 a5 in
      match b64_bits c, b64_bits d with
      | Some (c5, c4, c3, c2, c1, c0), Some (d5, d4, d3, d2, d1, d0) =>
          Some (String x
                 (String (Ascii c2 c3 c4 c5 b0 b1 b2 b3)
                   (String (Ascii d0 d1 d2 d3 d4 d5 c0 c1) "")))
      | Some (c5, c4, c3, c2, c1, c0), None =>
          if is_pad d then Some (String x (String (Ascii c2 c3 c4 c5 b0 b1 b2 b3) ""))
          else None
      | None, _ =>
          if is_pad c && is_pad d then Some (String x "") else None
      end
  | _, _ => None
  end.

(** [base64.b64decode] on a text made of whole groups. *)
Fixpoint b64decode (s : string) : option string :=
  match s with
  | EmptyString => Some ""
  | String a (String b (String c (String d rest))) =>
      match b64decode_group a b c d, b64decode rest with
      | Some bytes, Some more => Some (bytes ++ more)
      | _, _ => None
      end
  | _ => None
  end.

(** The logo is a data URL of the bytes [bytes]. *)
Definition is_data_url_of (bytes url : string) : Prop :=
  exists text,
    url = "data:image/png;base64," ++ text
    /\ b64decode text = Some bytes
    /\ String.length text = 4 * ((String.length bytes + 2) / 3).

(** The decoder rejects the empty text and every text that starts with a
    backquote, as [json.loads] does. *)
Definition rejects_fences {RT : Runtime} : Prop :=
  (exists msg, json_loads "" = inl msg)
  /\ forall s, exists msg, json_loads (String "`" s) = inl msg.

(** The text is empty or starts with a backquote. *)
Definition is_fence_or_empty (s : string) : Prop :=
  s = "" \/ exists rest, s = String "`" rest.

(** A computation whose outcome and events do not depend on the state it
    starts from, and that leaves the session as it is. *)
Definition oblivious {A} (m : M A) : Prop :=
  exists o evs, forall st, m st = (o, mkState (session st) (trace st ++ evs)%list).

(* ================================================================== *)
(** * Proofs *)
(* ================================================================== *)

(** ** RiskClassifier *)

Lemma classify_high (score : Z) :
  (score > 80)%Z -> classify score = mkClassification "risk-high" "❌" "Auto-Reject".
Proof.
  intros Hs. unfold classify.
  destruct (score >? 80)%Z eqn:E; [reflexivity | lia].
Qed.

Lemma classify_medium (score : Z) :
  (50 < score <= 80)%Z ->
  classify score = mkClassification "risk-medium" "⚠️" "Requires Review".
Proof.
  intros Hs. unfold classify.
  destruct (score >? 80)%Z eqn:E80; [lia |].
  destruct (score >? 50)%Z eqn:E50; [reflexivity | lia].
Qed.

Lemma classify_low (score : Z) :
  (score <= 50)%Z -> classify score = mkClassification "risk-low" "✅" "Auto-Approve".
Proof.
  intros Hs. unfold classify.
  destruct (score >? 80)%Z eqn:E80; [lia |].
  destruct (score >? 50)%Z eqn:E50; [lia | reflexivity].
Qed.

(** C1. For every integer score: above 80 the level is High and the action
    Auto-Reject; above 50 and up to 80 the level is Medium and the action
    Requires Review; up to 50 the level is Low and the action Auto-Approve.
    In particular 81 is High, 80 is Medium, 50 and 0 are Low. *)
Theorem classify_spec :
  (forall score : Z, (score > 80)%Z ->
     level_of (classify score) = Some High
     /\ approval_action (classify score) = "Auto-Reject")
  /\ (forall score : Z, (50 < score <= 80)%Z ->
        level_of (classify score) = Some Medium
        /\ approval_action (classify score) = "Requires Review")
  /\ (forall score : Z, (score <= 50)%Z ->
        level_of (classify score) = Some Low
        /\ approval_action (classify score) = "Auto-Approve")
  /\ (level_of (classify 81), approval_action (classify 81)) = (Some High, "Auto-Reject")
  /\ (level_of (classify 80), approval_action (classify 80)) = (Some Medium, "Requires Review")
  /\ (level_of (classify 50), approval_action (classify 50)) = (Some Low, "Auto-Approve")
  /\ (level_of (classify 0), approval_action (classify 0)) = (Some Low, "Auto-Approve").
Proof.
  repeat split; try reflexivity.
  - rewrite classify_high by assumption. reflexivity.
  - rewrite classify_high by assumption. reflexivity.
  - rewrite classify_medium by assumption. reflexivity.
  - rewrite classify_medium by assumption. reflexivity.
  - rewrite classify_low by assumption. reflexivity.
  - rewrite classify_low by assumption. reflexivity.
Qed.

(** ** Strings *)

Lemma append_empty_r (s : string) : s ++ "" = s.
Proof. induction s as [|c s IH]; simpl; [reflexivity | now rewrite IH]. Qed.

Lemma append_assoc (a b c : string) : (a ++ b) ++ c = a ++ (b ++ c).
Proof. induction a as [|x a IH]; simpl; [reflexivity | now rewrite IH]. Qed.

Lemma length_append (a b : string) :
  String.length (a ++ b) = String.length a + String.length b.
Proof. induction a as [|x a IH]; simpl; [reflexivity | now rewrite IH]. Qed.

Lemma occurs_in_suffix (a b : string) : PyStr.occurs_in b (a ++ b).
Proof. exists a, "". now rewrite append_empty_r. Qed.

Lemma emitted_app (st : State) (s : Session) (evs : list Event) :
  emitted st (mkState s (trace st ++ evs)%list) = evs.
Proof.
  unfold emitted. simpl. rewrite skipn_app, skipn_all, Nat.sub_diag. reflexivity.
Qed.

(** ** Dates: [strptime] reads back what [strftime] wrote *)

Lemma digit_val_digit_char (n : nat) : digit_val (digit_char n) = Some (n mod 10).
Proof.
  unfold digit_val, digit_char.
  assert (Hlt : n mod 10 < 10) by (apply Nat.mod_upper_bound; lia).
  rewrite nat_ascii_embedding by lia.
  replace (48 <=? 48 + n mod 10) with true by (symmetry; apply Nat.leb_le; lia).
  replace (48 + n mod 10 <=? 57) with true by (symmetry; apply Nat.leb_le; lia).
  simpl. f_equal. lia.
Qed.

Lemma one_digit_digit_char {A} (k : nat -> Matcher A) (n : nat) (rest : string) :
  one_digit 0 9 k (String (digit_char n) rest) = k (n mod 10) rest.
Proof.
  unfold one_digit, in_range. rewrite digit_val_digit_char.
  assert (Hlt : n mod 10 < 10) by (apply Nat.mod_upper_bound; lia).
  replace (n mod 10 <=? 9) with true by (symmetry; apply Nat.leb_le; lia).
  reflexivity.
Qed.

Lemma four_digits (y : nat) :
  y < 10 * 1000 ->
  1000 * ((y / 1000) mod 10) + 100 * ((y / 100) mod 10) + 10 * ((y / 10) mod 10)
  + y mod 10 = y.
Proof.
  intros Hy.
  pose proof (Nat.div_mod_eq y 10) as H1.
  pose proof (Nat.div_mod_eq (y / 1000) 10) as H2.
  pose proof (Nat.div_mod_eq (y / 100) 10) as H3.
  pose proof (Nat.div_mod_eq (y / 10) 10) as H4.
  assert (y / 1000 / 10 = 0) by (rewrite Nat.Div0.div_div; apply Nat.div_small; lia).
  assert (y / 100 / 10 = y / 1000) by (rewrite Nat.Div0.div_div; reflexivity).
  assert (y / 10 / 10 = y / 100) by (rewrite Nat.Div0.div_div; reflexivity).
  lia.
Qed.

Lemma match_Y_pad4 {A} (k : nat -> Matcher A) (y : nat) (rest : string) :
  y < 10 * 1000 -> match_Y k (pad4 y rest) = k y rest.
Proof.
  intros Hy. unfold match_Y, pad4, pad2.
  rewrite !one_digit_digit_char. now rewrite four_digits.
Qed.

Lemma match_m_pad2 {A} (k : nat -> Matcher A) (m : nat) (rest : string) (r : A) :
  1 <= m <= 12 -> k m rest = Some r -> match_m k (pad2 m rest) = Some r.
Proof.
  intros Hm Hk.
  do 13 (destruct m as [| m]; [try lia; unfold match_m; simpl; now rewrite Hk |]).
  lia.
Qed.

Lemma match_d_pad2 {A} (k : nat -> Matcher A) (d : nat) (rest : string) (r : A) :
  1 <= d <= 31 -> k d rest = Some r -> match_d k (pad2 d rest) = Some r.
Proof.
  intros Hd Hk.
  do 32 (destruct d as [| d]; [try lia; unfold match_d; simpl; now rewrite Hk |]).
  lia.
Qed.

Lemma days_in_month_le_31 (y m : nat) : days_in_month y m <= 31.
Proof.
  unfold days_in_month.
  do 12 (destruct m as [| m]; [try destruct (is_leap y); lia |]). lia.
Qed.

Lemma valid_date_bounds (d : Date) :
  valid_date d = true ->
  1 <= year d < 10 * 1000 /\ 1 <= month d <= 12
  /\ 1 <= day d <= days_in_month (year d) (month d).
Proof.
  unfold valid_date. rewrite !andb_true_iff, !Nat.leb_le, Nat.ltb_lt. tauto.
Qed.

(** A valid date printed with [%Y-%m-%d] is read back by [strptime]. *)
Lemma strptime_strftime (d : Date) :
  valid_date d = true -> strptime_ymd (strftime_ymd d) = inr d.
Proof.
  intros Hv. pose proof (valid_date_bounds d Hv) as (Hy & Hm & Hd).
  pose proof (days_in_month_le_31 (year d) (month d)) as H31.
  unfold strptime_ymd, strftime_ymd, match_ymd.
  rewrite match_Y_pad4 by lia. unfold lit at 1. simpl Ascii.eqb. cbv iota.
  erewrite match_m_pad2; [| lia |].
  2:{ unfold lit at 1. simpl Ascii.eqb. cbv iota.
      apply match_d_pad2; [lia | reflexivity]. }
  simpl PyStr.is_empty. cbv iota.
  destruct d as [y m dd]. simpl in *.
  destruct y as [| y]; [lia |]. simpl Nat.eqb. cbv iota. now rewrite Hv.
Qed.

Lemma strftime_ymd_shape (d : Date) : is_ymd_text (strftime_ymd d) = true.
Proof.
  unfold strftime_ymd, pad4, pad2, is_ymd_text, is_digit.
  rewrite !digit_val_digit_char. reflexivity.
Qed.

(** ** Stripping and slicing *)

Lemma lstrip_spaces (ws s : string) :
  PyStr.all_space ws = true -> PyStr.lstrip (ws ++ s) = PyStr.lstrip s.
Proof.
  induction ws as [| c ws IH]; simpl; [reflexivity |].
  intros Hw. apply andb_true_iff in Hw as [Hc Hw]. rewrite Hc. auto.
Qed.

Lemma rstrip_all_space (ws : string) :
  PyStr.all_space ws = true -> PyStr.rstrip ws = "".
Proof.
  induction ws as [| c ws IH]; simpl; [reflexivity |].
  intros Hw. apply andb_true_iff in Hw as [Hc Hw]. rewrite IH, Hc by assumption.
  reflexivity.
Qed.

Lemma rstrip_spaces (s ws : string) :
  PyStr.all_space ws = true -> PyStr.rstrip (s ++ ws) = PyStr.rstrip s.
Proof.
  intros Hw. induction s as [| c s IH]; simpl.
  - now apply rstrip_all_space.
  - now rewrite IH.
Qed.

Lemma rstrip_keeps (s : string) (c : ascii) :
  PyStr.isspace c = false -> PyStr.rstrip (s ++ String c "") = s ++ String c "".
Proof.
  intros Hc. induction s as [| x s IH]; simpl.
  - now rewrite Hc.
  - rewrite IH. destruct (s ++ String c "") eqn:E; [| reflexivity].
    destruct s; discriminate.
Qed.

Lemma drop_length_append (a b : string) : PyStr.drop (String.length a) (a ++ b) = b.
Proof. induction a as [| x a IH]; simpl; [now destruct b | exact IH]. Qed.

Lemma take_length_append (a b : string) : PyStr.take (String.length a) (a ++ b) = a.
Proof. induction a as [| x a IH]; simpl; [now destruct b | now rewrite IH]. Qed.

Lemma endswith_append (a b : string) : PyStr.endswith (a ++ b) b = true.
Proof.
  unfold PyStr.endswith. rewrite length_append.
  replace (String.length a + String.length b - String.length b) with (String.length a) by lia.
  rewrite drop_length_append, String.eqb_refl.
  replace (String.length b <=? String.length a + String.length b) with true
    by (symmetry; apply Nat.leb_le; lia).
  reflexivity.
Qed.

Lemma drop_last_append (a b : string) :
  PyStr.drop_last (String.length b) (a ++ b) = a.
Proof.
  unfold PyStr.drop_last. rewrite length_append.
  replace (String.length a + String.length b - String.length b) with (String.length a) by lia.
  apply take_length_append.
Qed.

(** [strip] removes the spaces around a text that begins and ends with a
    backquote. *)
Lemma strip_fenced (ws1 ws2 middle : string) :
  PyStr.all_space ws1 = true -> PyStr.all_space ws2 = true ->
  PyStr.strip (ws1 ++ ("`" ++ middle ++ "`") ++ ws2) = "`" ++ middle ++ "`".
Proof.
  intros H1 H2. unfold PyStr.strip.
  rewrite lstrip_spaces by assumption.
  change (PyStr.lstrip (("`" ++ middle ++ "`") ++ ws2))
    with (("`" ++ middle ++ "`") ++ ws2).
  rewrite rstrip_spaces by assumption.
  change ("`" ++ middle ++ "`") with (String "`" (middle ++ "`")).
  change (String "`" (middle ++ "`")) with ((String "`" middle) ++ "`").
  now apply rstrip_keeps.
Qed.

(** ** The analyzer *)

Section AnalyzerFacts.

Context {RT : Runtime}.

Ltac run := unfold bind, ret, raise, lift, lift_unit, st_error, emit; simpl.

Lemma resolve_without_credential (w : World) (st : State) :
  no_credential w = true ->
  exists k, resolve_api_key w st = (Returned k, st) /\ truthy_key k = false.
Proof.
  unfold no_credential, env_yields_key, secrets_yield_key, resolve_api_key.
  intros Hn. apply andb_true_iff in Hn as [He Hs].
  apply negb_true_iff in He. rewrite He. simpl.
  unfold try_except_all. run.
  destruct (secrets_GEMINI_API_KEY w) as [e | k]; simpl.
  - exists (env_API_KEY w). split; [reflexivity | exact He].
  - exists (Some k). split; [reflexivity |].
    simpl. apply negb_true_iff in Hs. now rewrite Hs.
Qed.

Lemma resolve_with_credential (w : World) (st : State) :
  no_credential w = false ->
  exists k, resolve_api_key w st = (Returned k, st)
            /\ truthy_key k = true /\ key_text k = credential w.
Proof.
  unfold no_credential, credential, env_yields_key, secrets_yield_key, resolve_api_key.
  intros Hn. destruct (truthy_key (env_API_KEY w)) eqn:He; simpl in *.
  - exists (env_API_KEY w). repeat split; assumption.
  - unfold try_except_all. run.
    destruct (secrets_GEMINI_API_KEY w) as [e | k]; simpl in *; [discriminate |].
    exists (Some k). repeat split.
    simpl. apply negb_false_iff in Hn. exact Hn.
Qed.

(** Without a credential the function stops at line 148. *)
Lemma analyze_without_credential (w : World) (st : State) :
  no_credential w = true ->
  analyze_receipt_with_ai w st =
    (Returned (missing_key_record (now w)),
     mkState (session st) (trace st ++ [EvStError missing_key_message])%list).
Proof.
  intros Hn. destruct (resolve_without_credential w st Hn) as (k & Hr & Hk).
  unfold analyze_receipt_with_ai, bind at 1. rewrite Hr, Hk. reflexivity.
Qed.

(** With a credential the function is its [try] block under its handler. *)
Lemma analyze_with_credential (w : World) (st : State) :
  no_credential w = false ->
  analyze_receipt_with_ai w st =
    try_except_Exception
      (analyze_body w (credential w))
      (fun e =>
         st_error ("Error analyzing receipt: " ++ exn_str e) ;;
         ret (error_record (now w) e)) st.
Proof.
  intros Hn. destruct (resolve_with_credential w st Hn) as (k & Hr & Hk & Hc).
  unfold analyze_receipt_with_ai, bind at 1. rewrite Hr, Hk, Hc. reflexivity.
Qed.

Lemma analyze_failure (w : World) (st st1 : State) (e : Exn) :
  no_credential w = false ->
  analyze_body w (credential w) st = (Raised e, st1) ->
  is_Exception e = true ->
  analyze_receipt_with_ai w st =
    (Returned (error_record (now w) e), after_handler st1 e).
Proof.
  intros Hn Hb He. rewrite analyze_with_credential by assumption.
  unfold try_except_Exception. rewrite Hb, He. reflexivity.
Qed.

Lemma analyze_success (w : World) (st st1 : State) (data : Dict) :
  no_credential w = false ->
  analyze_body w (credential w) st = (Returned data, st1) ->
  analyze_receipt_with_ai w st = (Returned data, st1).
Proof.
  intros Hn Hb. rewrite analyze_with_credential by assumption.
  unfold try_except_Exception. rewrite Hb. reflexivity.
Qed.

Lemma select_model_name_returns (w : World) (st : State) :
  derives_Exception (list_models_error w) = true ->
  exists n, select_model_name w st =
              (Returned n, mkState (session st) (trace st ++ [EvListModels])%list).
Proof.
  intros Hl. unfold select_model_name, try_except_Exception. run.
  destruct (first_flash_model (list_models_items w)) as [n |]; simpl.
  - now exists n.
  - destruct (list_models_error w) as [e |]; simpl in *.
    + rewrite Hl. now exists default_model_name.
    + now exists default_model_name.
Qed.

Lemma ensure_data_types_raises (v : PyVal) (st st1 : State) (e : Exn) :
  ensure_data_types v st = (Raised e, st1) -> is_Exception e = true.
Proof.
  assert (Hf : forall x e', py_float x = inl e' -> is_Exception e' = true).
  { intros x e'. unfold py_float.
    destruct x; try (intros [= <-]; reflexivity).
    destruct (float_of_str s); intros [= <-]; reflexivity. }
  assert (Hi : forall x e', py_int x = inl e' -> is_Exception e' = true).
  { intros x e'. unfold py_int.
    destruct x; try (intros [= <-]; reflexivity).
    destruct (int_of_str s); intros [= <-]; reflexivity. }
  unfold ensure_data_types.
  destruct v; try (intros [= <- _]; reflexivity).
  run.
  destruct (py_float _) as [e1 | a] eqn:E1; simpl.
  - intros [= <- _]. eauto.
  - destruct (py_int _) as [e2 | z] eqn:E2; simpl.
    + intros [= <- _]. eauto.
    + discriminate.
Qed.

Lemma app3 {A} (l : list A) (a b c : A) :
  (((l ++ [a]) ++ [b]) ++ [c] = l ++ [a; b; c])%list.
Proof. now rewrite <- !app_assoc. Qed.

Lemma app4 {A} (l : list A) (a b c d : A) :
  ((((l ++ [a]) ++ [b]) ++ [c]) ++ [d] = l ++ [a; b; c; d])%list.
Proof. now rewrite <- !app_assoc. Qed.

(** The [try] block up to the request: when configuration, model listing
    and image decoding go through, the request is sent for some model and
    the block continues with the answer. *)
Lemma analyze_body_reaches_request (w : World) (key : string) (st : State) :
  configure_outcome w = None ->
  derives_Exception (list_models_error w) = true ->
  image_open_outcome w = None ->
  exists model,
    analyze_body w key st =
      (response <- lift (generate_content_outcome w) ;;
       text <- lift response ;;
       data <- loads (clean_response text) ;;
       ensure_data_types data) (after_request st key model).
Proof.
  intros Hc Hl Hi.
  destruct (select_model_name_returns w
              (mkState (session st) (trace st ++ [EvConfigure key])%list) Hl)
    as (model & Hm).
  exists model. unfold analyze_body.
  unfold bind at 1. unfold emit at 1. simpl.
  unfold bind at 1. rewrite Hc. simpl.
  unfold bind at 1. rewrite Hm. simpl.
  unfold bind at 1. unfold emit at 1. simpl.
  unfold bind at 1. rewrite Hi. simpl.
  unfold bind at 1. unfold emit at 1. simpl.
  unfold after_request. rewrite app4. reflexivity.
Qed.

(** Whatever the [try] block raises in a world that raises only
    [Exception]s is an [Exception]. *)
Lemma analyze_body_raises_Exception (w : World) (key : string) (st st1 : State) (e : Exn) :
  raises_only_Exception w = true ->
  analyze_body w key st = (Raised e, st1) ->
  is_Exception e = true.
Proof.
  unfold raises_only_Exception. intros Hw.
  apply andb_true_iff in Hw as [Hw Hg].
  apply andb_true_iff in Hw as [Hw Hi].
  apply andb_true_iff in Hw as [Hc Hl].
  destruct (configure_outcome w) as [ec |] eqn:Ec.
  { unfold analyze_body. run. rewrite Ec. simpl. intros [= <- _]. exact Hc. }
  destruct (image_open_outcome w) as [ei |] eqn:Ei.
  { destruct (select_model_name_returns w
                (mkState (session st) (trace st ++ [EvConfigure key])%list) Hl)
      as (model & Hm).
    unfold analyze_body.
    unfold bind at 1. unfold emit at 1. simpl.
    unfold bind at 1. rewrite Ec. simpl.
    unfold bind at 1. rewrite Hm. simpl.
    unfold bind at 1. unfold emit at 1. simpl.
    unfold bind at 1. rewrite Ei. simpl.
    intros [= <- _]. exact Hi. }
  destruct (analyze_body_reaches_request w key st Ec Hl Ei) as (model & ->).
  run.
  destruct (generate_content_outcome w) as [eg | [et | text]]; simpl.
  - intros [= <- _]. exact Hg.
  - intros [= <- _]. exact Hg.
  - unfold loads. destruct (json_loads (clean_response text)) as [msg | v]; simpl.
    + intros [= <- _]. reflexivity.
    + apply ensure_data_types_raises.
Qed.

(** The function returns in every world that raises only [Exception]s. *)
Lemma analyze_returns (w : World) (st : State) :
  raises_only_Exception w = true ->
  exists r st', analyze_receipt_with_ai w st = (Returned r, st').
Proof.
  intros Hw. destruct (no_credential w) eqn:Hn.
  - rewrite analyze_without_credential by assumption. eauto.
  - destruct (analyze_body w (credential w) st) as [[data | e] st1] eqn:Hb.
    + rewrite (analyze_success w st st1 data) by assumption. eauto.
    + rewrite (analyze_failure w st st1 e); eauto.
      eapply analyze_body_raises_Exception; eauto.
Qed.

(** *** The analyzer never writes to the session *)

Lemma keeps_ret {A} (a : A) : keeps_session (ret a).
Proof. intros st o st' [= _ <-]. reflexivity. Qed.

Lemma keeps_raise {A} (e : Exn) : keeps_session (@raise A e).
Proof. intros st o st' [= _ <-]. reflexivity. Qed.

Lemma keeps_emit (ev : Event) : keeps_session (emit ev).
Proof. intros st o st' [= _ <-]. reflexivity. Qed.

Lemma keeps_lift {A} (r : Exn + A) : keeps_session (lift r).
Proof. destruct r; [apply keeps_raise | apply keeps_ret]. Qed.

Lemma keeps_lift_unit (r : option Exn) : keeps_session (lift_unit r).
Proof. destruct r; [apply keeps_raise | apply keeps_ret]. Qed.

Lemma keeps_bind {A B} (m : M A) (k : A -> M B) :
  keeps_session m -> (forall a, keeps_session (k a)) -> keeps_session (bind m k).
Proof.
  intros Hm Hk st o st'. unfold bind.
  destruct (m st) as [[a | e] st1] eqn:E.
  - intros Hka. rewrite (Hk a st1 o st' Hka). eapply Hm; eauto.
  - intros [= _ <-]. eapply Hm; eauto.
Qed.

Lemma keeps_try_Exception {A} (m : M A) (h : Exn -> M A) :
  keeps_session m -> (forall e, keeps_session (h e)) ->
  keeps_session (try_except_Exception m h).
Proof.
  intros Hm Hh st o st'. unfold try_except_Exception.
  destruct (m st) as [[a | e] st1] eqn:E.
  - intros [= _ <-]. eapply Hm; eauto.
  - destruct (is_Exception e).
    + intros He. rewrite (Hh e st1 o st' He). eapply Hm; eauto.
    + intros [= _ <-]. eapply Hm; eauto.
Qed.

Lemma keeps_try_all {A} (m h : M A) :
  keeps_session m -> keeps_session h -> keeps_session (try_except_all m h).
Proof.
  intros Hm Hh st o st'. unfold try_except_all.
  destruct (m st) as [[a | e] st1] eqn:E.
  - intros [= _ <-]. eapply Hm; eauto.
  - intros He. rewrite (Hh st1 o st' He). eapply Hm; eauto.
Qed.

Create HintDb session discriminated.
Hint Resolve keeps_ret keeps_raise keeps_emit keeps_lift keeps_lift_unit : session.
Hint Extern 2 (keeps_session (bind _ _)) => apply keeps_bind; [| intro] : session.
Hint Extern 2 (keeps_session (try_except_Exception _ _)) =>
  apply keeps_try_Exception; [| intro] : session.
Hint Extern 2 (keeps_session (try_except_all _ _)) => apply keeps_try_all : session.

Lemma analyze_keeps_session (w : World) : keeps_session (analyze_receipt_with_ai w).
Proof.
  unfold analyze_receipt_with_ai, resolve_api_key, analyze_body,
    select_model_name, loads, ensure_data_types, st_error.
  apply keeps_bind.
  - destruct (negb (truthy_key (env_API_KEY w))); auto 10 with session.
  - intros k. destruct (negb (truthy_key k)); [auto 10 with session |].
    apply keeps_try_Exception; [| intro; auto 10 with session].
    repeat (apply keeps_bind; [auto with session | intro]).
    + apply keeps_try_Exception; [| intro; auto with session].
      apply keeps_bind; [auto with session | intro].
      destruct (first_flash_model _); auto 10 with session.
    + destruct (json_loads _); auto with session.
    + match goal with
      | |- keeps_session (match ?v with PyNone => _ | _ => _ end) => destruct v
      end; auto 10 with session.
Qed.

(** *** The three failures named by the specification *)

(** A network error: the request raises. *)
Lemma network_error_raises (w : World) (st : State) (e : Exn) :
  configure_outcome w = None ->
  derives_Exception (list_models_error w) = true ->
  image_open_outcome w = None ->
  generate_content_outcome w = inl e ->
  exists st1, analyze_body w (credential w) st = (Raised e, st1).
Proof.
  intros Hc Hl Hi Hg.
  destruct (analyze_body_reaches_request w (credential w) st Hc Hl Hi) as (model & ->).
  unfold bind at 1. rewrite Hg. simpl. eauto.
Qed.

(** A decoding error: [Image.open] raises. *)
Lemma decoding_error_raises (w : World) (st : State) (e : Exn) :
  configure_outcome w = None ->
  derives_Exception (list_models_error w) = true ->
  image_open_outcome w = Some e ->
  analyze_body w (credential w) st = (Raised e, at_image_open st (credential w)).
Proof.
  intros Hc Hl Hi.
  destruct (select_model_name_returns w
              (mkState (session st) (trace st ++ [EvConfigure (credential w)])%list) Hl)
    as (model & Hm).
  unfold analyze_body.
  unfold bind at 1. unfold emit at 1. simpl.
  unfold bind at 1. rewrite Hc. simpl.
  unfold bind at 1. rewrite Hm. simpl.
  unfold bind at 1. unfold emit at 1. simpl.
  unfold bind at 1. rewrite Hi. simpl.
  unfold at_image_open. now rewrite app3.
Qed.

(** A response that is not JSON once the fence is stripped. *)
Lemma malformed_response_raises (w : World) (st : State) (text msg : string) :
  configure_outcome w = None ->
  derives_Exception (list_models_error w) = true ->
  image_open_outcome w = None ->
  generate_content_outcome w = inr (inr text) ->
  json_loads (clean_response text) = inl msg ->
  exists st1, analyze_body w (credential w) st = (Raised (JSONDecodeError msg), st1).
Proof.
  intros Hc Hl Hi Hg Hj.
  destruct (analyze_body_reaches_request w (credential w) st Hc Hl Hi) as (model & ->).
  unfold bind at 1. rewrite Hg. simpl.
  unfold bind at 1. simpl.
  unfold bind at 1. unfold loads. rewrite Hj. simpl. eauto.
Qed.

Lemma error_record_fields (d : Date) (e : Exn) :
  has_record_keys (error_record d e)
  /\ dict_get "vendor" (error_record d e) = Some (PyStr "Error")
  /\ dict_get "category" (error_record d e) = Some (PyStr "Error")
  /\ PyStr.occurs_in (exn_str e) (string_of (dict_get "risk_reason" (error_record d e))).
Proof.
  repeat split. exact (occurs_in_suffix "Analysis failed: " (exn_str e)).
Qed.

(** C2. With a credential, a failure of the analysis (a raise of the [try]
    block by an exception deriving from [Exception]: network error,
    decoding error, response that is not JSON after fence stripping, ...)
    makes [analyze_receipt_with_ai] return a well-formed record with vendor
    and category "Error" and a [risk_reason] that contains the detail of
    the failure; the function returns in every world whose failures are
    such exceptions. *)
Theorem failure_degrades_to_error_record (w : World) (st : State) :
  no_credential w = false ->
  (* every failure of the analysis *)
  (forall e st1,
      analyze_body w (credential w) st = (Raised e, st1) ->
      is_Exception e = true ->
      analyze_receipt_with_ai w st = (Returned (error_record (now w) e), after_handler st1 e)
      /\ has_record_keys (error_record (now w) e)
      /\ dict_get "vendor" (error_record (now w) e) = Some (PyStr "Error")
      /\ dict_get "category" (error_record (now w) e) = Some (PyStr "Error")
      /\ PyStr.occurs_in (exn_str e)
           (string_of (dict_get "risk_reason" (error_record (now w) e))))
  (* network error *)
  /\ (forall e,
        configure_outcome w = None ->
        derives_Exception (list_models_error w) = true ->
        image_open_outcome w = None ->
        generate_content_outcome w = inl e -> is_Exception e = true ->
        fst (analyze_receipt_with_ai w st) = Returned (error_record (now w) e))
  (* decoding error *)
  /\ (forall e,
        configure_outcome w = None ->
        derives_Exception (list_models_error w) = true ->
        image_open_outcome w = Some e -> is_Exception e = true ->
        fst (analyze_receipt_with_ai w st) = Returned (error_record (now w) e))
  (* response that is not JSON *)
  /\ (forall text msg,
        configure_outcome w = None ->
        derives_Exception (list_models_error w) = true ->
        image_open_outcome w = None ->
        generate_content_outcome w = inr (inr text) ->
        json_loads (clean_response text) = inl msg ->
        fst (analyze_receipt_with_ai w st)
        = Returned (error_record (now w) (JSONDecodeError msg)))
  (* no exception leaves the function *)
  /\ (raises_only_Exception w = true ->
      exists r st', analyze_receipt_with_ai w st = (Returned r, st')).
Proof.
  intros Hn. repeat apply conj.
  - intros e st1 Hb He. split.
    + now apply analyze_failure.
    + apply error_record_fields.
  - intros e Hc Hl Hi Hg He.
    destruct (network_error_raises w st e Hc Hl Hi Hg) as (st1 & Hb).
    now rewrite (analyze_failure w st st1 e).
  - intros e Hc Hl Hi He.
    now rewrite (analyze_failure w st _ e Hn (decoding_error_raises w st e Hc Hl Hi)).
  - intros text msg Hc Hl Hi Hg Hj.
    destruct (malformed_response_raises w st text msg Hc Hl Hi Hg Hj) as (st1 & Hb).
    now rewrite (analyze_failure w st st1 _ Hn Hb).
  - apply analyze_returns.
Qed.

(** C3. Without a resolvable credential the function returns a record with
    [risk_score] 0, vendor "Unknown" and a non-empty [risk_reason] that
    mentions the missing key, and the only event it emits is the message
    shown to the user: no call reaches the external service. *)
Theorem missing_credential_degrades (w : World) (st : State) :
  no_credential w = true ->
  exists r st',
    analyze_receipt_with_ai w st = (Returned r, st')
    /\ dict_get "risk_score" r = Some (PyInt 0)
    /\ dict_get "vendor" r = Some (PyStr "Unknown")
    /\ PyStr.is_empty (string_of (dict_get "risk_reason" r)) = false
    /\ PyStr.occurs_in "API Key missing" (string_of (dict_get "risk_reason" r))
    /\ emitted st st' = [EvStError missing_key_message]
    /\ existsb is_network_call (emitted st st') = false.
Proof.
  intros Hn. eexists. eexists. split.
  - apply analyze_without_credential. exact Hn.
  - rewrite emitted_app. repeat split.
    exists "", ".". reflexivity.
Qed.

(** C10. Without a resolvable credential the degraded record has category
    "Uncategorized", amount 0.0 and the current date written as
    YYYY-MM-DD (which reads back as the current date); the record of an
    analysis failure has category "Error", so the two differ. *)
Theorem missing_credential_record_differs (w : World) (st : State) :
  no_credential w = true ->
  valid_date (now w) = true ->
  exists r st',
    analyze_receipt_with_ai w st = (Returned r, st')
    /\ dict_get "category" r = Some (PyStr "Uncategorized")
    /\ dict_get "amount" r = Some (PyFloat 0)
    /\ dict_get "date" r = Some (PyStr (strftime_ymd (now w)))
    /\ is_ymd_text (strftime_ymd (now w)) = true
    /\ strptime_ymd (strftime_ymd (now w)) = inr (now w)
    /\ (forall w' st0 st1 e,
          no_credential w' = false ->
          analyze_body w' (credential w') st0 = (Raised e, st1) ->
          is_Exception e = true ->
          exists r', fst (analyze_receipt_with_ai w' st0) = Returned r'
                     /\ dict_get "category" r' = Some (PyStr "Error")
                     /\ dict_get "category" r <> dict_get "category" r').
Proof.
  intros Hn Hv. eexists. eexists. split.
  - apply analyze_without_credential. exact Hn.
  - repeat split.
    + apply strftime_ymd_shape.
    + now apply strptime_strftime.
    + intros w' st0 st1 e Hn' Hb He.
      exists (error_record (now w') e).
      rewrite (analyze_failure w' st0 st1 e) by assumption.
      repeat split. simpl. discriminate.
Qed.

End AnalyzerFacts.

(** ** The response text: fences and decoding *)

Section ResponseFacts.

Context {RT : Runtime}.

Lemma prefix_append (p s : string) : String.prefix p (p ++ s) = true.
Proof.
  induction p as [| c p IH]; simpl.
  - now destruct s.
  - destruct (ascii_dec c c); [exact IH | congruence].
Qed.

(** The text between the opening [```json] and the closing [```] is what
    reaches the decoder. *)
Lemma clean_response_json_fence (ws1 payload ws2 : string) :
  PyStr.all_space ws1 = true -> PyStr.all_space ws2 = true ->
  clean_response (ws1 ++ "```json" ++ payload ++ "```" ++ ws2) = payload.
Proof.
  intros H1 H2. unfold clean_response.
  replace (ws1 ++ "```json" ++ payload ++ "```" ++ ws2)
    with (ws1 ++ ("`" ++ ("``json" ++ payload ++ "``") ++ "`") ++ ws2).
  2:{ f_equal. simpl. do 7 f_equal. now rewrite !append_assoc. }
  rewrite strip_fenced by assumption.
  replace ("`" ++ ("``json" ++ payload ++ "``") ++ "`")
    with ("```json" ++ (payload ++ "```")).
  2:{ simpl. do 7 f_equal. now rewrite !append_assoc. }
  unfold PyStr.startswith. rewrite prefix_append.
  change 7 with (String.length "```json") at 1. rewrite drop_length_append.
  rewrite endswith_append.
  change 3 with (String.length "```"). apply drop_last_append.
Qed.

Lemma bind_ext {A B} (m : M A) (k1 k2 : A -> M B) (st : State) :
  (forall a s, k1 a s = k2 a s) -> bind m k1 st = bind m k2 st.
Proof.
  intros Hk. unfold bind. destruct (m st) as [[a | e] s]; [apply Hk | reflexivity].
Qed.

(** Two responses that decode alike are analyzed alike. *)
Lemma analyze_body_same_decoding (w : World) (key t1 t2 : string) (st : State) :
  json_loads (clean_response t1) = json_loads (clean_response t2) ->
  analyze_body (with_response w t1) key st = analyze_body (with_response w t2) key st.
Proof.
  intros Hj. unfold analyze_body.
  do 6 (apply bind_ext; intros ? ?).
  unfold bind, loads. simpl. rewrite Hj. reflexivity.
Qed.

Lemma analyze_same_decoding (w : World) (t1 t2 : string) (st : State) :
  json_loads (clean_response t1) = json_loads (clean_response t2) ->
  analyze_receipt_with_ai (with_response w t1) st
  = analyze_receipt_with_ai (with_response w t2) st.
Proof.
  intros Hj. unfold analyze_receipt_with_ai.
  apply bind_ext. intros k s1.
  destruct (negb (truthy_key k)); [reflexivity |].
  unfold try_except_Exception.
  now rewrite (analyze_body_same_decoding w (key_text k) t1 t2 s1 Hj).
Qed.

(** X19. For every response made of a payload between an opening
    [```json] and a closing [```], with white space around or not, the
    text handed to the JSON decoder is exactly the payload; so whenever the
    decoder reads the payload as it reads the payload stripped, the wrapped
    response is analyzed to the same outcome as the payload alone. *)
Theorem json_fence_is_stripped (w : World) (st : State) (ws1 payload ws2 : string) :
  PyStr.all_space ws1 = true ->
  PyStr.all_space ws2 = true ->
  clean_response (ws1 ++ "```json" ++ payload ++ "```" ++ ws2) = payload
  /\ (json_loads payload = json_loads (clean_response payload) ->
      analyze_receipt_with_ai
        (with_response w (ws1 ++ "```json" ++ payload ++ "```" ++ ws2)) st
      = analyze_receipt_with_ai (with_response w payload) st).
Proof.
  intros H1 H2. split.
  - now apply clean_response_json_fence.
  - intros Hj. apply analyze_same_decoding.
    now rewrite clean_response_json_fence.
Qed.

End ResponseFacts.

(** ** Dictionaries *)

Lemma dict_get_set_same (k : string) (v : PyVal) (d : Dict) :
  dict_get k (dict_set k v d) = Some v.
Proof.
  induction d as [| [k' v'] d IH]; simpl.
  - now rewrite String.eqb_refl.
  - destruct (String.eqb k' k) eqn:E; simpl; now rewrite E.
Qed.

Lemma dict_get_set_other (k k' : string) (v : PyVal) (d : Dict) :
  k <> k' -> dict_get k (dict_set k' v d) = dict_get k d.
Proof.
  intros Hne. induction d as [| [k0 v0] d IH]; simpl.
  - destruct (String.eqb_spec k' k); [congruence | reflexivity].
  - destruct (String.eqb_spec k0 k'); simpl.
    + subst k0. destruct (String.eqb_spec k' k); [congruence | reflexivity].
    + destruct (String.eqb_spec k0 k); [reflexivity | exact IH].
Qed.

(** ** What the analyzer returns *)

Section ReturnedRecord.

Context {RT : Runtime}.

Lemma bind_returned {A B} (m : M A) (k : A -> M B) (st st' : State) (b : B) :
  bind m k st = (Returned b, st') ->
  exists a s, m st = (Returned a, s) /\ k a s = (Returned b, st').
Proof.
  unfold bind. destruct (m st) as [[a | e] s]; [eauto | discriminate].
Qed.

Lemma lift_returned {A} (r : Exn + A) (st st' : State) (a : A) :
  lift r st = (Returned a, st') -> r = inr a.
Proof. destruct r; simpl; [discriminate | now intros [= -> _]]. Qed.

(** The [try] block returns only by line 198: the response was decoded to
    a dictionary and both coercions went through. *)
Lemma analyze_body_returned (w : World) (key : string) (st st1 : State) (r : Dict) :
  analyze_body w key st = (Returned r, st1) ->
  exists text d q z,
    generate_content_outcome w = inr (inr text)
    /\ json_loads (clean_response text) = inr (PyDict d)
    /\ py_float (dict_get_default "amount" (PyFloat 0) d) = inr q
    /\ py_int (dict_get_default "risk_score" (PyInt 0) d) = inr z
    /\ r = dict_set "risk_score" (PyInt z) (dict_set "amount" (PyFloat q) d).
Proof.
  unfold analyze_body. intros Hb.
  do 6 (apply bind_returned in Hb as (? & ? & _ & Hb)).
  apply bind_returned in Hb as (response & s1 & Hg & Hb).
  apply bind_returned in Hb as (text & s2 & Ht & Hb).
  apply bind_returned in Hb as (data & s3 & Hl & Hb).
  apply lift_returned in Hg. apply lift_returned in Ht. subst response.
  unfold loads in Hl.
  destruct (json_loads (clean_response text)) as [msg | v] eqn:Ej; [discriminate |].
  injection Hl as <- _.
  unfold ensure_data_types in Hb. destruct v; try discriminate.
  apply bind_returned in Hb as (q & s4 & Hq & Hb).
  apply bind_returned in Hb as (z & s5 & Hz & Hb).
  apply lift_returned in Hq. apply lift_returned in Hz.
  injection Hb as <- _.
  unfold dict_get_default in Hz.
  rewrite dict_get_set_other in Hz by discriminate.
  exists text, d, q, z. repeat split; assumption.
Qed.

(** Every way for the function to return. *)
Lemma analyze_returned (w : World) (st st' : State) (r : Dict) :
  analyze_receipt_with_ai w st = (Returned r, st') ->
  degraded w r
  \/ exists st1, analyze_body w (credential w) st = (Returned r, st1).
Proof.
  destruct (no_credential w) eqn:Hn.
  - rewrite analyze_without_credential by assumption.
    intros [= <- _]. left. now left.
  - rewrite analyze_with_credential by assumption.
    unfold try_except_Exception.
    destruct (analyze_body w (credential w) st) as [[data | e] st1] eqn:Hb.
    + intros [= <- _]. right. eauto.
    + destruct (is_Exception e); [| discriminate].
      intros [= <- _]. left. right. eauto.
Qed.

Lemma degraded_fields (w : World) (r : Dict) :
  degraded w r ->
  dict_get "risk_score" r = Some (PyInt 0)
  /\ dict_get "amount" r = Some (PyFloat 0)
  /\ dict_get "date" r = Some (PyStr (strftime_ymd (now w))).
Proof. intros [-> | [e ->]]; repeat split. Qed.

(** C4 (amended). Every record returned by [analyze_receipt_with_ai] holds
    an [int] under [risk_score] and a [float] under [amount].  On the two
    degraded paths they are 0 and 0.0.  On the success path they are
    [int(...)] and [float(...)] of the values of the decoded payload (0 and
    0.0 when the key is absent), with no check of range: the record is in
    range exactly when these values are. *)
Theorem returned_record_is_coerced (w : World) (st st' : State) (r : Dict) :
  analyze_receipt_with_ai w st = (Returned r, st') ->
  (degraded w r
   /\ dict_get "risk_score" r = Some (PyInt 0)
   /\ dict_get "amount" r = Some (PyFloat 0)
   /\ record_in_range r = true)
  \/ (exists text d q z,
        generate_content_outcome w = inr (inr text)
        /\ json_loads (clean_response text) = inr (PyDict d)
        /\ py_float (dict_get_default "amount" (PyFloat 0) d) = inr q
        /\ py_int (dict_get_default "risk_score" (PyInt 0) d) = inr z
        /\ dict_get "risk_score" r = Some (PyInt z)
        /\ dict_get "amount" r = Some (PyFloat q)
        /\ record_in_range r = ((0 <=? z)%Z && (z <=? 100)%Z && Qle_bool 0 q)).
Proof.
  intros Hr. apply analyze_returned in Hr as [Hd | [st1 Hb]].
  - left. split; [exact Hd |].
    destruct Hd as [-> | [e ->]]; repeat split.
  - right. apply analyze_body_returned in Hb as (text & d & q & z & Hg & Hj & Hq & Hz & ->).
    exists text, d, q, z.
    assert (Hs : dict_get "risk_score"
                   (dict_set "risk_score" (PyInt z) (dict_set "amount" (PyFloat q) d))
                 = Some (PyInt z)) by apply dict_get_set_same.
    assert (Ha : dict_get "amount"
                   (dict_set "risk_score" (PyInt z) (dict_set "amount" (PyFloat q) d))
                 = Some (PyFloat q)).
    { rewrite dict_get_set_other by discriminate. apply dict_get_set_same. }
    repeat split; try assumption.
    unfold record_in_range. now rewrite Hs, Ha.
Qed.

End ReturnedRecord.

(** ** The ExpenseRecord store *)

Section StoreFacts.

Context {RT : Runtime}.

(** The handler after the analysis returned [data]: the record is appended
    first, then the date is converted. *)
Lemma run_ai_analysis_appends (w : World) (st st1 : State) (data : Dict) :
  analyze_receipt_with_ai w st = (Returned data, st1) ->
  run_ai_analysis w st =
    (date_cell <- getitem "date" data ;;
     d <- strptime date_cell ;;
     s <- get_session ;;
     put_session (mkSession (history s)
                            (full_history s ++ map (dict_del "date")
                               (map (dict_set "Date" (PyDate d)) [data]))%list
                            (session_advice s)) ;;
     emit EvRerun) (appended st1 data).
Proof.
  intros Ha. unfold run_ai_analysis.
  unfold bind at 1. rewrite Ha.
  unfold appended, all, bind, get_session, put_session, ret.
  destruct st1 as [[h df adv] tr]. simpl.
  destruct h as [h |]; reflexivity.
Qed.

Lemma latest_appended (st : State) (data : Dict) :
  latest (session (appended st data)) = Some data.
Proof.
  unfold latest, appended. simpl. rewrite map_app. simpl. apply last_last.
Qed.

(** The date parses: the handler returns and the table has one more row. *)
Lemma run_ai_analysis_parseable (w : World) (st st1 : State) (data : Dict)
      (s : string) (d : Date) :
  analyze_receipt_with_ai w st = (Returned data, st1) ->
  dict_get "date" data = Some (PyStr s) ->
  strptime_ymd s = inr d ->
  run_ai_analysis w st =
    (Returned tt,
     mkState (mkSession (Some (all (session st1) ++ [data])%list)
                        (full_history (session st1) ++ [mirrored_row d data])%list
                        (session_advice (session st1)))
             (trace st1 ++ [EvRerun])%list).
Proof.
  intros Ha Hd Hp. rewrite (run_ai_analysis_appends w st st1 data Ha).
  unfold bind, getitem, strptime, get_session, put_session, emit, ret, appended.
  rewrite Hd. simpl. rewrite Hp. reflexivity.
Qed.

(** The date does not parse: the conversion raises after the append. *)
Lemma run_ai_analysis_unparseable (w : World) (st st1 : State) (data : Dict)
      (s : string) (err : StrptimeError) :
  analyze_receipt_with_ai w st = (Returned data, st1) ->
  dict_get "date" data = Some (PyStr s) ->
  strptime_ymd s = inl err ->
  run_ai_analysis w st =
    (Raised (ValueError (strptime_message s err)), appended st1 data).
Proof.
  intros Ha Hd Hp. rewrite (run_ai_analysis_appends w st st1 data Ha).
  unfold bind, getitem, strptime, raise.
  rewrite Hd. simpl. rewrite Hp. reflexivity.
Qed.

(** Whatever the date, the record is in the session afterwards. *)
Lemma run_ai_analysis_stores (w : World) (st st1 : State) (data : Dict) :
  analyze_receipt_with_ai w st = (Returned data, st1) ->
  exists out st2,
    run_ai_analysis w st = (out, st2)
    /\ history (session st2) = Some (all (session st) ++ [data])%list.
Proof.
  intros Ha. rewrite (run_ai_analysis_appends w st st1 data Ha).
  pose proof (analyze_keeps_session w st (Returned data) st1 Ha) as Hs.
  unfold bind, getitem, strptime, get_session, put_session, emit, ret, raise, appended.
  rewrite Hs.
  destruct (dict_get "date" data) as [v |]; simpl; [| eauto].
  destruct v; simpl; eauto.
  destruct (strptime_ymd s) as [err | d]; simpl; eauto.
Qed.

Lemma latest_of_history (s : Session) (h : list Dict) (data : Dict) :
  history s = Some (h ++ [data])%list -> latest s = Some data.
Proof.
  intros Hh. unfold latest. rewrite Hh, map_app. simpl. apply last_last.
Qed.

Lemma all_of_history (s : Session) (h : list Dict) :
  history s = Some h -> all s = h.
Proof. intros Hh. unfold all. now rewrite Hh. Qed.

(** C5 (amended). After the handler ran on a record returned by the
    analyzer, [latest()] is that record and [all()] is the former sequence
    followed by it (one element more, order kept).  The HistoryTable gets
    exactly one more row whenever the date of the record reads as
    [%Y-%m-%d]; this is so for the degraded records of a failed analysis
    as well, whose date is the current date. *)
Theorem append_then_read (w : World) (st st1 : State) (data : Dict) :
  analyze_receipt_with_ai w st = (Returned data, st1) ->
  exists out st2,
    run_ai_analysis w st = (out, st2)
    /\ latest (session st2) = Some data
    /\ all (session st2) = (all (session st) ++ [data])%list
    /\ List.length (all (session st2)) = S (List.length (all (session st)))
    /\ (forall s d,
          dict_get "date" data = Some (PyStr s) -> strptime_ymd s = inr d ->
          out = Returned tt
          /\ full_history (session st2)
             = (full_history (session st) ++ [mirrored_row d data])%list
          /\ List.length (full_history (session st2))
             = S (List.length (full_history (session st))))
    /\ (degraded w data -> valid_date (now w) = true ->
        out = Returned tt
        /\ List.length (full_history (session st2))
           = S (List.length (full_history (session st)))).
Proof.
  intros Ha.
  pose proof (analyze_keeps_session w st (Returned data) st1 Ha) as Hs.
  destruct (run_ai_analysis_stores w st st1 data Ha) as (out & st2 & Hrun & Hh).
  assert (Hparse : forall s d,
             dict_get "date" data = Some (PyStr s) -> strptime_ymd s = inr d ->
             out = Returned tt
             /\ full_history (session st2)
                = (full_history (session st) ++ [mirrored_row d data])%list
             /\ List.length (full_history (session st2))
                = S (List.length (full_history (session st)))).
  { intros s d Hd Hp.
    rewrite (run_ai_analysis_parseable w st st1 data s d Ha Hd Hp) in Hrun.
    injection Hrun as <- <-. simpl. rewrite Hs.
    repeat split. rewrite length_app. simpl. lia. }
  exists out, st2. repeat apply conj.
  - exact Hrun.
  - eapply latest_of_history; eauto.
  - now apply all_of_history.
  - rewrite (all_of_history _ _ Hh), length_app. simpl. lia.
  - exact Hparse.
  - intros Hdeg Hv.
    destruct (degraded_fields w data Hdeg) as (_ & _ & Hd).
    destruct (Hparse _ _ Hd (strptime_strftime _ Hv)) as (Ho & _ & Hl).
    now split.
Qed.

(** What the handler does with a date string that does not read as
    [%Y-%m-%d], next to the two records whose date is the current date. *)
Theorem unparseable_date_is_not_defaulted (w : World) (st st1 : State) (data : Dict)
        (s : string) (err : StrptimeError) :
  analyze_receipt_with_ai w st = (Returned data, st1) ->
  dict_get "date" data = Some (PyStr s) ->
  strptime_ymd s = inl err ->
  (exists st2,
      run_ai_analysis w st = (Raised (ValueError (strptime_message s err)), st2)
      /\ latest (session st2) = Some data
      /\ all (session st2) = (all (session st) ++ [data])%list
      /\ full_history (session st2) = full_history (session st))
  /\ (forall r, degraded w r -> valid_date (now w) = true ->
        dict_get "date" r = Some (PyStr (strftime_ymd (now w)))
        /\ strptime_ymd (strftime_ymd (now w)) = inr (now w)).
Proof.
  intros Ha Hd Hp.
  pose proof (analyze_keeps_session w st (Returned data) st1 Ha) as Hs.
  split.
  - exists (appended st1 data). repeat apply conj.
    + now apply run_ai_analysis_unparseable.
    + apply latest_appended.
    + unfold appended, all. simpl. now rewrite Hs.
    + unfold appended. simpl. now rewrite Hs.
  - intros r Hdeg Hv. split.
    + now destruct (degraded_fields w r Hdeg) as (_ & _ & Hdate).
    + now apply strptime_strftime.
Qed.

End StoreFacts.

(** ** AggregationView *)

Lemma add_to_group_get (c c' : string) (a : Q) (acc : Summary) :
  summary_get c (add_to_group c' a acc)
  = if String.eqb c' c
    then Some (match summary_get c acc with Some t => t + a | None => 0 + a end)%Q
    else summary_get c acc.
Proof.
  induction acc as [| [k t] acc IH]; simpl.
  - destruct (String.eqb c' c); reflexivity.
  - destruct (String.eqb_spec k c').
    + subst k. simpl. destruct (String.eqb c' c); reflexivity.
    + simpl. destruct (String.eqb_spec k c).
      * subst k. destruct (String.eqb_spec c' c); [congruence | reflexivity].
      * exact IH.
Qed.

Lemma add_to_group_keys (c : string) (a : Q) (acc : Summary) :
  map fst (add_to_group c a acc)
  = if existsb (String.eqb c) (map fst acc) then map fst acc
    else (map fst acc ++ [c])%list.
Proof.
  induction acc as [| [k t] acc IH]; simpl; [reflexivity |].
  rewrite (String.eqb_sym c k).
  destruct (String.eqb k c); simpl; [reflexivity |].
  rewrite IH. destruct (existsb (String.eqb c) (map fst acc)); reflexivity.
Qed.

Lemma add_to_group_NoDup (c : string) (a : Q) (acc : Summary) :
  NoDup (map fst acc) -> NoDup (map fst (add_to_group c a acc)).
Proof.
  intros Hnd. rewrite add_to_group_keys.
  destruct (existsb (String.eqb c) (map fst acc)) eqn:E; [exact Hnd |].
  apply NoDup_app; [exact Hnd | constructor; [easy | constructor] |].
  intros x Hx [<- | []].
  assert (existsb (String.eqb c) (map fst acc) = true); [| congruence].
  apply existsb_exists. exists c. split; [exact Hx | apply String.eqb_refl].
Qed.

Lemma option_Qeq_trans (a b c : option Q) :
  option_Qeq a b -> option_Qeq b c -> option_Qeq a c.
Proof.
  destruct a, b, c; simpl; try tauto. intros H1 H2. now rewrite H1.
Qed.

(** The totals after the rows [df] were added to the totals [acc]. *)
Lemma fold_totals_get (c : string) (df : DataFrame) (acc : Summary) :
  option_Qeq
    (summary_get c
       (fold_left
          (fun acc r =>
             match category_cell r with
             | Some c' => add_to_group c' (amount_or_zero r) acc
             | None => acc
             end) df acc))
    (match summary_get c acc with
     | Some t => Some (t + category_total c df)%Q
     | None => if has_category c df then Some (category_total c df) else None
     end).
Proof.
  revert acc. induction df as [| r df IH]; intros acc.
  - simpl. unfold category_total. simpl.
    destruct (summary_get c acc); simpl; [ring | exact I].
  - simpl fold_left. eapply option_Qeq_trans; [apply IH |].
    unfold has_category, category_total, in_category. simpl.
    destruct (category_cell r) as [c' |] eqn:Er.
    + rewrite add_to_group_get.
      destruct (String.eqb c' c) eqn:Ec; simpl.
      * destruct (summary_get c acc) as [t |]; simpl; ring.
      * destruct (summary_get c acc) as [t |]; simpl; [reflexivity |].
        destruct (existsb _ df); simpl; [reflexivity | exact I].
    + destruct (summary_get c acc) as [t |]; simpl; [reflexivity |].
      destruct (existsb _ df); simpl; [reflexivity | exact I].
Qed.

Lemma fold_totals_NoDup (df : DataFrame) (acc : Summary) :
  NoDup (map fst acc) ->
  NoDup (map fst
           (fold_left
              (fun acc r =>
                 match category_cell r with
                 | Some c' => add_to_group c' (amount_or_zero r) acc
                 | None => acc
                 end) df acc)).
Proof.
  revert acc. induction df as [| r df IH]; intros acc Hnd; simpl; [exact Hnd |].
  apply IH. destruct (category_cell r); [now apply add_to_group_NoDup | exact Hnd].
Qed.

Section SortFacts.

Context {A : Type}.
Variable before : A -> A -> bool.

Lemma insert_stable_perm (x : A) (l : list A) :
  Permutation (insert_stable before x l) (x :: l).
Proof.
  induction l as [| y l IH]; simpl; [reflexivity |].
  destruct (before x y); [| reflexivity].
  rewrite IH. apply perm_swap.
Qed.

Lemma stable_sort_perm (l : list A) : Permutation (stable_sort before l) l.
Proof.
  induction l as [| x l IH]; simpl; [reflexivity |].
  rewrite insert_stable_perm. now constructor.
Qed.

(** An element only moves behind elements of other classes, so the
    elements of one class keep their order. *)
Section Classes.
Variable p : A -> bool.
Hypothesis passes_other_classes :
  forall x y, p x = true -> before x y = true -> p y = false.

Lemma filter_insert_stable (x : A) (l : list A) :
  filter p (insert_stable before x l) = filter p (x :: l).
Proof.
  induction l as [| y l IH]; [reflexivity |].
  simpl insert_stable. destruct (before x y) eqn:E; [| reflexivity].
  simpl in *. rewrite IH.
  destruct (p x) eqn:Px; [| reflexivity].
  now rewrite (passes_other_classes x y Px E).
Qed.

Lemma filter_stable_sort (l : list A) :
  filter p (stable_sort before l) = filter p l.
Proof.
  induction l as [| x l IH]; [reflexivity |].
  simpl stable_sort. rewrite filter_insert_stable. simpl. now rewrite IH.
Qed.
End Classes.

Section Order.
Variable R : A -> A -> Prop.
Hypothesis stays_before : forall x y, before x y = false -> R x y.
Hypothesis moves_behind : forall x y, before x y = true -> R y x.

Lemma insert_stable_HdRel (a x : A) (l : list A) :
  R a x -> HdRel R a l -> HdRel R a (insert_stable before x l).
Proof.
  intros Hax Hl. destruct l as [| y l]; simpl; [now constructor |].
  destruct (before x y); constructor; [| exact Hax].
  now inversion Hl.
Qed.

Lemma insert_stable_sorted (x : A) (l : list A) :
  Sorted R l -> Sorted R (insert_stable before x l).
Proof.
  induction l as [| y l IH]; intros Hs; simpl.
  - repeat constructor.
  - inversion Hs as [| ? ? Hl Hh]; subst.
    destruct (before x y) eqn:E.
    + constructor; [now apply IH |].
      apply insert_stable_HdRel; [now apply moves_behind | exact Hh].
    + constructor; [exact Hs |]. constructor. now apply stays_before.
Qed.

Lemma stable_sort_sorted (l : list A) : Sorted R (stable_sort before l).
Proof.
  induction l as [| x l IH]; simpl; [constructor |].
  now apply insert_stable_sorted.
Qed.
End Order.

Lemma StronglySorted_app_inv (R : A -> A -> Prop) (l1 l2 : list A) :
  StronglySorted R (l1 ++ l2) ->
  StronglySorted R l1
  /\ (forall x y, In x l1 -> In y l2 -> R x y).
Proof.
  induction l1 as [| a l1 IH]; simpl; intros Hs.
  - split; [constructor | intros x y []].
  - inversion Hs as [| ? ? Hs' Hall]; subst.
    destruct (IH Hs') as [H1 H2].
    rewrite Forall_app in Hall. destruct Hall as [Ha1 Ha2].
    split.
    + now constructor.
    + intros x y [<- | Hx] Hy; [| now apply H2].
      rewrite Forall_forall in Ha2. now apply Ha2.
Qed.

End SortFacts.

Lemma Qltb_lt (x y : Q) : Qltb x y = true <-> (x < y)%Q.
Proof.
  unfold Qltb. rewrite negb_true_iff. split.
  - intros Hf. apply Qnot_le_lt. intros Hle.
    apply Qle_bool_iff in Hle. congruence.
  - intros Hlt. destruct (Qle_bool y x) eqn:E; [| reflexivity].
    apply Qle_bool_iff in E. exfalso. exact (Qlt_not_le _ _ Hlt E).
Qed.

Lemma Qltb_ge (x y : Q) : Qltb x y = false <-> (y <= x)%Q.
Proof.
  unfold Qltb. rewrite negb_false_iff. apply Qle_bool_iff.
Qed.

Lemma total_ge_trans (a b c : string * Q) : total_ge a b -> total_ge b c -> total_ge a c.
Proof. unfold total_ge. intros Hab Hbc. now apply Qle_trans with (snd b). Qed.

Lemma sort_keeping_ties_sorted (s : Summary) :
  StronglySorted total_ge (sort_keeping_ties s).
Proof.
  apply Sorted_StronglySorted.
  - exact total_ge_trans.
  - apply stable_sort_sorted.
    + intros x y Hxy. now apply Qltb_ge.
    + intros x y Hxy. apply Qltb_lt in Hxy. now apply Qlt_le_weak.
Qed.

Lemma sort_swapping_ties_sorted (s : Summary) :
  StronglySorted total_ge (sort_swapping_ties s).
Proof.
  apply Sorted_StronglySorted.
  - exact total_ge_trans.
  - apply stable_sort_sorted; intros x y Hxy; unfold amount_not_before, total_ge in *.
    + destruct (Qlt_le_dec (snd y) (snd x)) as [Hlt | Hle]; [now apply Qlt_le_weak |].
      apply Qle_bool_iff in Hle. congruence.
    + now apply Qle_bool_iff.
Qed.

(** Both sorts do what the library promises. *)
Definition keeping_ties : Sorting :=
  {| sort_values_desc := sort_keeping_ties;
     sort_values_desc_permutes := stable_sort_perm amount_after;
     sort_values_desc_descends := sort_keeping_ties_sorted |}.

Definition swapping_ties : Sorting :=
  {| sort_values_desc := sort_swapping_ties;
     sort_values_desc_permutes := stable_sort_perm amount_not_before;
     sort_values_desc_descends := sort_swapping_ties_sorted |}.

Lemma sort_keeping_ties_keeps (q : Q) (s : Summary) :
  filter (has_total q) (sort_keeping_ties s) = filter (has_total q) s.
Proof.
  apply filter_stable_sort. intros x y Hx Hb.
  unfold has_total in *. apply Qeq_bool_iff in Hx. apply Qltb_lt in Hb.
  destruct (Qeq_bool (snd y) q) eqn:E; [| reflexivity].
  apply Qeq_bool_iff in E. rewrite Hx, E in Hb.
  exfalso. exact (Qlt_irrefl _ Hb).
Qed.

(** ** Reading a summary *)

Lemma summary_get_In (c : string) (t : Q) (s : Summary) :
  summary_get c s = Some t -> In (c, t) s.
Proof.
  induction s as [| [k v] s IH]; simpl; [discriminate |].
  destruct (String.eqb_spec k c).
  - intros [= <-]. subst. now left.
  - intros Hg. right. now apply IH.
Qed.

Lemma summary_get_None (c : string) (s : Summary) :
  summary_get c s = None <-> ~ In c (map fst s).
Proof.
  induction s as [| [k v] s IH]; simpl; [tauto |].
  destruct (String.eqb_spec k c).
  - split; [discriminate | intros Hn; exfalso; apply Hn; now left].
  - rewrite IH. tauto.
Qed.

Lemma In_summary_get (c : string) (t : Q) (s : Summary) :
  NoDup (map fst s) -> In (c, t) s -> summary_get c s = Some t.
Proof.
  induction s as [| [k v] s IH]; simpl; [tauto |].
  intros Hnd. inversion Hnd as [| ? ? Hk Hnd']; subst.
  intros [[= -> ->] | Hin].
  - now rewrite String.eqb_refl.
  - destruct (String.eqb_spec k c); [| now apply IH].
    subst k. exfalso. apply Hk. apply in_map_iff. now exists (c, t).
Qed.

(** A mapping read by key does not depend on the order of its entries. *)
Lemma summary_get_perm (c : string) (s s' : Summary) :
  NoDup (map fst s) -> Permutation s s' -> summary_get c s' = summary_get c s.
Proof.
  intros Hnd Hp.
  assert (Hnd' : NoDup (map fst s')).
  { eapply Permutation_NoDup; [| exact Hnd]. now apply Permutation_map. }
  destruct (summary_get c s) as [t |] eqn:E.
  - apply In_summary_get; [exact Hnd' |].
    eapply Permutation_in; [exact Hp |]. now apply summary_get_In.
  - apply summary_get_None. apply summary_get_None in E.
    intros Hin. apply E. eapply Permutation_in; [| exact Hin].
    apply Permutation_map. now symmetry.
Qed.

Lemma summarize_get (df : DataFrame) (c : string) :
  option_Qeq (summary_get c (summarize df))
             (if has_category c df then Some (category_total c df) else None).
Proof.
  unfold summarize.
  rewrite (summary_get_perm c (group_totals df)).
  - exact (fold_totals_get c df []).
  - apply (fold_totals_NoDup df []). constructor.
  - symmetry. apply stable_sort_perm.
Qed.

Lemma summarize_NoDup (df : DataFrame) : NoDup (map fst (summarize df)).
Proof.
  unfold summarize.
  eapply Permutation_NoDup.
  - apply Permutation_map. symmetry. apply stable_sort_perm.
  - apply (fold_totals_NoDup df []). constructor.
Qed.

Lemma summarize_sorted_by_key (df : DataFrame) :
  Sorted (fun a b => String.leb (fst a) (fst b) = true) (summarize df).
Proof.
  apply stable_sort_sorted; intros x y; unfold key_after, String.ltb, String.leb.
  - rewrite (String.compare_antisym (fst x) (fst y)).
    destruct (String.compare (fst y) (fst x)); simpl; congruence.
  - destruct (String.compare (fst y) (fst x)); congruence.
Qed.

Lemma list_times_length {A} (l : list A) (n : nat) :
  List.length (list_times l n) = n * List.length l.
Proof.
  induction n as [| n IH]; simpl; [reflexivity |].
  rewrite length_app, IH. reflexivity.
Qed.

Lemma zip_rows_length (cs : list string) (amounts : list Q) (dates : list Date) :
  List.length (zip_rows cs amounts dates)
  = Nat.min (List.length cs) (Nat.min (List.length amounts) (List.length dates)).
Proof.
  revert amounts dates. induction cs as [| c cs IH]; intros [| a amounts] [| d dates];
    simpl; try lia.
  rewrite IH. lia.
Qed.

(** X4. The table seeded at the start of a session from 120 amounts and 120
    dates has 120 rows. *)
Theorem initial_data_length (amounts : list Q) (dates : list Date) :
  List.length amounts = 120 -> List.length dates = 120 ->
  List.length (initial_data amounts dates) = 120.
Proof.
  intros Ha Hd. unfold initial_data.
  rewrite zip_rows_length, list_times_length, Ha, Hd. reflexivity.
Qed.

(** A sort that does what the library promises has no choice on two rows of
    different totals. *)
Lemma sort_values_desc_pair {SO : Sorting} (a b : string * Q) :
  (snd b < snd a)%Q ->
  sort_values_desc [a; b] = [a; b] /\ sort_values_desc [b; a] = [a; b].
Proof.
  intros Hlt.
  assert (H : forall l, Permutation l [a; b] -> StronglySorted total_ge l -> l = [a; b]).
  { intros l Hp Hs. apply Permutation_sym, Permutation_length_2_inv in Hp as [-> | ->];
      [reflexivity |].
    inversion Hs as [| ? ? _ Hall]; subst. inversion Hall as [| ? ? Hba _]; subst.
    unfold total_ge in Hba. exfalso. exact (Qlt_not_le _ _ Hlt Hba). }
  split; apply H; try apply sort_values_desc_descends.
  - apply sort_values_desc_permutes.
  - rewrite sort_values_desc_permutes. apply perm_swap.
Qed.

Lemma topN_length {SO : Sorting} (s : Summary) (n : nat) :
  List.length (topN s n) = Nat.min n (List.length s).
Proof.
  unfold topN. rewrite length_firstn.
  now rewrite (Permutation_length (sort_values_desc_permutes s)).
Qed.

(** C8 (amended). On a table whose [Category] cells are texts or missing and
    whose [Amount] cells are floats or missing, [summarize] maps each
    category to the sum of the amounts of its rows, each category once;
    [topN] lists [n] entries of greatest total (all of them when there are
    fewer), in descending order, whatever the sort of the library does with
    entries of equal total: their order is not fixed by the call of line 415.
    On the rows (Travel,100), (Travel,50), (Meals,30) the summary maps Travel
    to 150 and Meals to 30, and [topN] with [n = 1] yields Travel. *)
Theorem summarize_and_topN {SO : Sorting} :
  (forall df c,
      well_typed df = true ->
      option_Qeq (summary_get c (summarize df))
                 (if has_category c df then Some (category_total c df) else None))
  /\ (forall df, well_typed df = true -> NoDup (map fst (summarize df)))
  /\ (forall s n,
        List.length (topN s n) = Nat.min n (List.length s)
        /\ StronglySorted total_ge (topN s n)
        /\ exists rest,
            Permutation (topN s n ++ rest) s
            /\ (forall x y, In x (topN s n) -> In y rest -> (snd y <= snd x)%Q))
  /\ well_typed three_rows = true
  /\ summary_get "Travel" (summarize three_rows) = Some 150%Q
  /\ summary_get "Meals" (summarize three_rows) = Some 30%Q
  /\ map fst (summarize three_rows) = ["Meals"; "Travel"]
  /\ map fst (topN (summarize three_rows) 1) = ["Travel"]
  /\ option_map fst (idxmax_row (summarize three_rows)) = Some "Travel"
  /\ map fst (top_3_breakdown three_rows) = ["Travel"; "Meals"].
Proof.
  split; [intros df c _; apply summarize_get |].
  split; [intros df _; apply summarize_NoDup |].
  split.
  { intros s n. split; [apply topN_length |]. unfold topN.
    pose proof (sort_values_desc_descends s) as Hs.
    rewrite <- (firstn_skipn n (sort_values_desc s)) in Hs.
    apply StronglySorted_app_inv in Hs as [Hs1 Hs2].
    split; [exact Hs1 |].
    exists (skipn n (sort_values_desc s)). rewrite firstn_skipn. split.
    - apply sort_values_desc_permutes.
    - exact Hs2. }
  assert (Hs : summarize three_rows = [("Meals", 30%Q); ("Travel", 150%Q)])
    by (vm_compute; reflexivity).
  assert (Hsort : sort_values_desc (summarize three_rows)
                  = [("Travel", 150%Q); ("Meals", 30%Q)]).
  { rewrite Hs. apply (sort_values_desc_pair ("Travel", 150%Q) ("Meals", 30%Q)).
    reflexivity. }
  unfold top_3_breakdown, topN. rewrite Hsort, Hs.
  repeat split.
Qed.

(** C8 as stated fails: the order of two categories of equal total is the one
    of the sort.  Of two sorts that both give the descending order, one lists
    Meals first, as in the summary, the other lists Travel first. *)
Lemma tie_order_is_not_fixed :
  summarize tied_rows = [("Meals", 100%Q); ("Travel", 100%Q)]
  /\ well_typed tied_rows = true
  /\ topN (SO := keeping_ties) (summarize tied_rows) 1 = [("Meals", 100%Q)]
  /\ topN (SO := swapping_ties) (summarize tied_rows) 1 = [("Travel", 100%Q)]
  /\ StronglySorted total_ge (sort_values_desc (Sorting := swapping_ties) (summarize tied_rows))
  /\ Permutation (sort_values_desc (Sorting := swapping_ties) (summarize tied_rows))
                 (summarize tied_rows).
Proof.
  split; [vm_compute; reflexivity |].
  split; [reflexivity |].
  split; [vm_compute; reflexivity |].
  split; [vm_compute; reflexivity |].
  split; [apply sort_values_desc_descends | apply sort_values_desc_permutes].
Qed.

(** ** AdvisorStub *)

Lemma column_sum_from (df : DataFrame) (start : Q) :
  (fold_left (fun acc r => acc + amount_or_zero r) df start
   == start + sum_of_amounts df)%Q.
Proof.
  revert start. induction df as [| r df IH]; intros start; simpl.
  - unfold sum_of_amounts. simpl. ring.
  - rewrite IH. unfold sum_of_amounts, Qsum. simpl. ring.
Qed.

Lemma column_sum_is_sum (df : DataFrame) : (column_sum df == sum_of_amounts df)%Q.
Proof. unfold column_sum. rewrite column_sum_from. ring. Qed.




(** ** What the dashboards see of an analyzed receipt *)

Lemma dict_get_del_other (k k' : string) (d : Dict) :
  k <> k' -> dict_get k (dict_del k' d) = dict_get k d.
Proof.
  intros Hne. induction d as [| [k0 v0] d IH]; simpl; [reflexivity |].
  destruct (String.eqb_spec k0 k'); simpl.
  - subst k0. destruct (String.eqb_spec k' k); [congruence | reflexivity].
  - destruct (String.eqb_spec k0 k); [reflexivity | exact IH].
Qed.

Lemma mirrored_row_get (k : string) (d : Date) (data : Dict) :
  k <> "date" -> k <> "Date" ->
  dict_get k (mirrored_row d data) = dict_get k data.
Proof.
  intros H1 H2. unfold mirrored_row.
  rewrite dict_get_del_other by assumption. now apply dict_get_set_other.
Qed.

Lemma column_sum_app (df : DataFrame) (r : Row) :
  (column_sum (df ++ [r])%list == column_sum df + amount_or_zero r)%Q.
Proof.
  unfold column_sum. rewrite fold_left_app. simpl. reflexivity.
Qed.

(** X1. The row added for a record that has its category and amount under the
    lowercase keys of the prompt has no cell in the columns [Category] and
    [Amount]: the summary by category and the sum of the amounts of the
    grown table are those of the table before. *)
Theorem mirrored_row_is_not_aggregated (df : DataFrame) (d : Date) (data : Dict) :
  dict_get "Category" data = None ->
  dict_get "Amount" data = None ->
  category_cell (mirrored_row d data) = None
  /\ amount_cell (mirrored_row d data) = None
  /\ summarize (df ++ [mirrored_row d data])%list = summarize df
  /\ (column_sum (df ++ [mirrored_row d data])%list == column_sum df)%Q.
Proof.
  intros Hc Ha.
  assert (Hcc : category_cell (mirrored_row d data) = None).
  { unfold category_cell. rewrite mirrored_row_get by discriminate. now rewrite Hc. }
  assert (Hac : amount_cell (mirrored_row d data) = None).
  { unfold amount_cell. rewrite mirrored_row_get by discriminate. now rewrite Ha. }
  repeat split; try assumption.
  - unfold summarize, group_totals. rewrite fold_left_app. simpl. now rewrite Hcc.
  - rewrite column_sum_app. unfold amount_or_zero. rewrite Hac. ring.
Qed.

Lemma mirrored_row_witness :
  summarize (three_rows ++ [mirrored_row (mkDate 2024 3 9) cafe_record])%list
  = summarize three_rows.
Proof.
  apply (mirrored_row_is_not_aggregated three_rows (mkDate 2024 3 9) cafe_record);
    reflexivity.
Defined.

Lemma initial_data_witness :
  List.length (initial_data (repeat 100%Q 120) (repeat today 120)) = 120.
Proof.
  apply initial_data_length; apply repeat_length.
Defined.

(** X2. A valid date from the year 1000 on, written with [%Y-%m-%d], has
    the shape YYYY-MM-DD and is read back by [strptime] as the same date.
    (Below the year 1000 the C library decides whether the year is written
    on four digits; the clock gives no such date.) *)
Theorem date_text_round_trip (d : Date) :
  valid_date d = true ->
  1000 <= year d ->
  is_ymd_text (strftime_ymd d) = true /\ strptime_ymd (strftime_ymd d) = inr d.
Proof.
  intros Hv _. split; [apply strftime_ymd_shape | now apply strptime_strftime].
Qed.

Lemma date_text_witness :
  is_ymd_text (strftime_ymd (mkDate 2024 2 29)) = true
  /\ strptime_ymd (strftime_ymd (mkDate 2024 2 29)) = inr (mkDate 2024 2 29).
Proof.
  apply date_text_round_trip; [reflexivity | simpl; lia].
Defined.

(* ================================================================== *)
(** * The statements on concrete inputs *)
(* ================================================================== *)

(** A request that fails is reported in an error record. *)
Lemma failure_degrades_witness :
  fst (analyze_on unreachable (fresh [])) = Returned (error_record today connection_refused).
Proof.
  destruct (failure_degrades_to_error_record (RT := JsonModel.runtime) unreachable (fresh []) eq_refl)
    as (_ & Hnetwork & _).
  apply Hnetwork; reflexivity.
Defined.

(** Without any key the record is the placeholder and nothing is sent. *)
Lemma missing_credential_witness :
  exists r st',
    analyze_on offline (fresh []) = (Returned r, st')
    /\ dict_get "risk_score" r = Some (PyInt 0)
    /\ dict_get "vendor" r = Some (PyStr "Unknown")
    /\ PyStr.is_empty (string_of (dict_get "risk_reason" r)) = false
    /\ PyStr.occurs_in "API Key missing" (string_of (dict_get "risk_reason" r))
    /\ emitted (fresh []) st' = [EvStError missing_key_message]
    /\ existsb is_network_call (emitted (fresh []) st') = false.
Proof.
  exact (missing_credential_degrades (RT := JsonModel.runtime) offline (fresh []) eq_refl).
Defined.

Lemma missing_credential_differs_witness :
  exists r st',
    analyze_on offline (fresh []) = (Returned r, st')
    /\ dict_get "category" r = Some (PyStr "Uncategorized")
    /\ dict_get "amount" r = Some (PyFloat 0)
    /\ dict_get "date" r = Some (PyStr "2026-11-04").
Proof.
  destruct (missing_credential_record_differs (RT := JsonModel.runtime) offline (fresh []) eq_refl eq_refl)
    as (r & st' & Hr & Hc & Ha & Hd & _).
  exists r, st'. repeat split; assumption.
Defined.

(** C4 as stated fails: a payload out of range comes back out of range. *)
Lemma payload_out_of_range_is_returned :
  exists r st',
    analyze_on (online casino_payload) (fresh []) = (Returned r, st')
    /\ dict_get "risk_score" r = Some (PyInt 150)
    /\ dict_get "amount" r = Some (PyFloat (-5))
    /\ record_in_range r = false.
Proof.
  eexists. eexists. split; [vm_compute; reflexivity |].
  repeat split.
Qed.

Lemma returned_record_witness :
  exists z q,
    dict_get "risk_score" cafe_record = Some (PyInt z)
    /\ dict_get "amount" cafe_record = Some (PyFloat q)
    /\ record_in_range cafe_record = ((0 <=? z)%Z && (z <=? 100)%Z && Qle_bool 0 q).
Proof.
  assert (Ha : analyze_on (online cafe_payload) (fresh [])
               = (Returned cafe_record,
                  after_request (fresh []) "k-1" "models/gemini-1.5-flash-latest"))
    by (vm_compute; reflexivity).
  destruct (returned_record_is_coerced (RT := JsonModel.runtime) _ _ _ _ Ha)
    as [(_ & Hs & Hq & Hr) | (text & d & q & z & _ & _ & _ & _ & Hs & Hq & Hr)].
  - exists 0%Z, 0%Q. repeat split; assumption.
  - exists z, q. repeat split; assumption.
Defined.

(** C5 as stated fails: a failed analysis adds a row to the table all the
    same. *)
Lemma failed_analysis_adds_a_row :
  fst (analyze_on offline (fresh three_rows)) = Returned (missing_key_record today)
  /\ exists st2,
      run_on offline (fresh three_rows) = (Returned tt, st2)
      /\ List.length three_rows = 3
      /\ List.length (full_history (session st2)) = 4.
Proof.
  split; [reflexivity |]. eexists. split; [vm_compute; reflexivity |].
  split; reflexivity.
Qed.

Lemma append_then_read_witness :
  exists out st2,
    run_on (online cafe_payload) (fresh three_rows) = (out, st2)
    /\ latest (session st2) = Some cafe_record
    /\ all (session st2) = [cafe_record]
    /\ List.length (full_history (session st2)) = 4.
Proof.
  assert (Ha : analyze_on (online cafe_payload) (fresh three_rows)
               = (Returned cafe_record,
                  after_request (fresh three_rows) "k-1" "models/gemini-1.5-flash-latest"))
    by (vm_compute; reflexivity).
  destruct (append_then_read (RT := JsonModel.runtime) _ _ _ _ Ha) as (out & st2 & Hrun & Hl & Hall & _ & Hp & _).
  exists out, st2. repeat split; try assumption.
  exact (proj2 (proj2 (Hp "2024-03-09" (mkDate 2024 3 9) eq_refl eq_refl))).
Defined.

(** C6, where the code departs from it.  Line 189 removes any closing
    fence, line 187 removes the opening fence only when it is [```json]: a
    fence that names no language stays in front of the payload, and the
    analysis of the wrapped payload ends in the Error record where the
    analysis of the payload alone gives the record. *)
Lemma plain_fence_is_not_stripped :
  clean_response (plain_fenced cafe_payload) = "```" ++ newline ++ cafe_payload ++ newline
  /\ fst (analyze_on (online (plain_fenced cafe_payload)) (fresh []))
     = Returned (error_record today (JSONDecodeError "Expecting value"))
  /\ fst (analyze_on (online cafe_payload) (fresh [])) = Returned cafe_record.
Proof.
  repeat split; vm_compute; reflexivity.
Qed.

Lemma json_fence_witness :
  analyze_on (with_response (online "")
                (" " ++ "```json" ++ (newline ++ cafe_payload ++ newline) ++ "```" ++ newline))
             (fresh [])
  = analyze_on (with_response (online "") (newline ++ cafe_payload ++ newline)) (fresh []).
Proof.
  apply (json_fence_is_stripped (RT := JsonModel.runtime)
           (online "") (fresh []) " " (newline ++ cafe_payload ++ newline) newline
           eq_refl eq_refl).
  vm_compute. reflexivity.
Defined.

(** C7, where the code departs from it.  A date that does not parse makes
    the handler raise [ValueError] at line 315: the record is in the
    sequence of records with the text received as its date, not the current
    date, and the table, to which lines 308-311 say the data goes as well,
    has no new row. *)
Lemma unparseable_date_raises :
  exists e st2,
    run_on (online undated_payload) (fresh three_rows) = (Raised e, st2)
    /\ exn_type e = "ValueError"
    /\ option_map (dict_get "date") (latest (session st2)) = Some (Some (PyStr "March 9th"))
    /\ strftime_ymd (now (online undated_payload)) = "2026-11-04"
    /\ full_history (session st2) = three_rows.
Proof.
  eexists. eexists. split; [vm_compute; reflexivity |].
  repeat split.
Qed.

Lemma unparseable_date_witness :
  exists st2,
    run_on (online undated_payload) (fresh three_rows)
    = (Raised (ValueError (strptime_message "March 9th" NoMatch)), st2)
    /\ all (session st2) = [dict_set "date" (PyStr "March 9th") cafe_record]
    /\ full_history (session st2) = three_rows.
Proof.
  assert (Ha : analyze_on (online undated_payload) (fresh three_rows)
               = (Returned (dict_set "date" (PyStr "March 9th") cafe_record),
                  after_request (fresh three_rows) "k-1" "models/gemini-1.5-flash-latest"))
    by (vm_compute; reflexivity).
  destruct (unparseable_date_is_not_defaulted (RT := JsonModel.runtime) _ _ _ _ "March 9th" NoMatch Ha eq_refl eq_refl)
    as [(st2 & Hrun & _ & Hall & Hf) _].
  exists st2. repeat split; assumption.
Defined.


(* ================================================================== *)
(** * Further properties: what one call of the analyzer emits *)
(* ================================================================== *)

Section TraceFacts.

Context {RT : Runtime}.

Lemma first_flash_model_flash (models : list ModelInfo) (n : string) :
  first_flash_model models = Some n -> PyStr.contains "flash" n = true.
Proof.
  induction models as [| m models IH]; simpl; [discriminate |].
  destruct (existsb _ _ && PyStr.contains "flash" (name m)) eqn:E.
  - intros [= <-]. now apply andb_true_iff in E.
  - exact IH.
Qed.

Lemma chosen_model_flash (w : World) : PyStr.contains "flash" (chosen_model w) = true.
Proof.
  unfold chosen_model.
  destruct (first_flash_model (list_models_items w)) as [n |] eqn:E; [| reflexivity].
  now apply first_flash_model_flash in E.
Qed.

(** Listing the models emits one event; what comes out is the selected
    name, or an exception that [except Exception] lets through. *)
Lemma select_model_name_outcome (w : World) (st : State) :
  exists o,
    select_model_name w st
    = (o, mkState (session st) (trace st ++ [EvListModels])%list)
    /\ match o with
       | Returned n => n = chosen_model w
       | Raised e => is_Exception e = false
       end.
Proof.
  unfold select_model_name, try_except_Exception, bind, emit, ret, lift_unit, raise,
    chosen_model.
  simpl.
  destruct (first_flash_model (list_models_items w)) as [n |] eqn:E; simpl.
  - exists (Returned n). split; reflexivity.
  - destruct (list_models_error w) as [e |]; simpl.
    + destruct (is_Exception e) eqn:Ee.
      * exists (Returned default_model_name). now split.
      * exists (Raised e). now split.
    + exists (Returned default_model_name). now split.
Qed.

(** The steps after the request emit nothing. *)
Lemma after_request_is_silent (w : World) (st : State) :
  exists o,
    (response <- lift (generate_content_outcome w) ;;
     text <- lift response ;;
     data <- loads (clean_response text) ;;
     ensure_data_types data) st = (o, st).
Proof.
  unfold bind, lift, loads, ret, raise.
  destruct (generate_content_outcome w) as [e | [e | text]]; [eauto | eauto |].
  destruct (json_loads (clean_response text)) as [msg | v]; [eauto |].
  unfold ensure_data_types, bind, lift, ret, raise.
  destruct v; eauto.
  destruct (py_float (dict_get_default "amount" (PyFloat 0) d)) as [e | q]; [eauto |].
  destruct (py_int _) as [e | z]; eauto.
Qed.

(** The [try] block emits a beginning of the four calls, in their order. *)
Lemma analyze_body_events (w : World) (key : string) (st st1 : State) (o : Outcome Dict) :
  analyze_body w key st = (o, st1) ->
  exists n model,
    1 <= n <= 4
    /\ model = chosen_model w
    /\ st1 = mkState (session st) (trace st ++ firstn n (request_steps key model))%list.
Proof.
  unfold analyze_body.
  unfold bind at 1. unfold emit at 1. simpl.
  unfold bind at 1.
  destruct (configure_outcome w) as [e |]; simpl.
  { intros [= _ <-]. exists 1, (chosen_model w). repeat split; lia. }
  unfold bind at 1.
  destruct (select_model_name_outcome w
              (mkState (session st) (trace st ++ [EvConfigure key])%list))
    as (om & -> & Hom).
  destruct om as [model | e]; simpl.
  2:{ intros [= _ <-]. exists 2, (chosen_model w).
      rewrite <- app_assoc. repeat split; lia. }
  unfold bind at 1. unfold emit at 1. simpl.
  unfold bind at 1.
  destruct (image_open_outcome w) as [e |]; simpl.
  { intros [= _ <-]. exists 3, model. rewrite <- !app_assoc.
    repeat split; try lia. exact Hom. }
  unfold bind at 1. unfold emit at 1. simpl.
  match goal with
  | |- context [?m (mkState ?s ?t)] =>
      destruct (after_request_is_silent w (mkState s t)) as (o' & ->)
  end.
  intros [= _ <-]. exists 4, model. rewrite <- !app_assoc.
  repeat split; try lia. exact Hom.
Qed.

Lemma analyze_events (w : World) (st st' : State) (o : Outcome Dict) :
  analyze_receipt_with_ai w st = (o, st') ->
  exists evs, trace st' = (trace st ++ evs)%list /\ analysis_events w evs.
Proof.
  destruct (no_credential w) eqn:Hn.
  - rewrite analyze_without_credential by assumption. intros [= _ <-].
    eexists. split; [reflexivity |]. left. now split.
  - rewrite analyze_with_credential by assumption. unfold try_except_Exception.
    destruct (analyze_body w (credential w) st) as [[data | e] st1] eqn:Hb;
      apply analyze_body_events in Hb as (n & model & Hn4 & Hf & ->).
    + intros [= _ <-]. exists (firstn n (request_steps (credential w) model)).
      split; [reflexivity |]. right. split; [exact Hn |].
      exists n, model, []. rewrite app_nil_r. repeat split; try lia; auto.
    + destruct (is_Exception e).
      * unfold bind, st_error, emit, ret. simpl. intros [= _ <-].
        eexists. split; [rewrite <- app_assoc; reflexivity |].
        right. split; [exact Hn |].
        exists n, model, [EvStError ("Error analyzing receipt: " ++ exn_str e)].
        repeat split; try lia; eauto.
      * intros [= _ <-]. exists (firstn n (request_steps (credential w) model)).
        split; [reflexivity |]. right. split; [exact Hn |].
        exists n, model, []. rewrite app_nil_r. repeat split; try lia; auto.
Qed.

End TraceFacts.

Section PageFacts.

Context {RT : Runtime}.

Lemma firstn_request_steps (n : nat) (key model : string) :
  1 <= n <= 4 ->
  firstn n (request_steps key model) = [EvConfigure key]
  \/ firstn n (request_steps key model) = [EvConfigure key; EvListModels]
  \/ firstn n (request_steps key model) = [EvConfigure key; EvListModels; EvImageOpen]
  \/ firstn n (request_steps key model) = request_steps key model.
Proof.
  intros Hn. do 5 (destruct n as [| n]; [try lia; simpl; tauto |]). lia.
Qed.

Lemma emitted_of_trace (st st' : State) (evs : list Event) :
  trace st' = (trace st ++ evs)%list -> emitted st st' = evs.
Proof.
  intros Ht. unfold emitted. rewrite Ht, skipn_app, skipn_all, Nat.sub_diag.
  reflexivity.
Qed.

(** X5. Whatever the world and the outcome, one call of the analyzer sends
    at most one [generate_content] request (nothing is tried again) and at
    most two requests in all; a request is for a model whose name contains
    [flash], and it comes after the configuration, the listing and the
    decoding of the image, in this order. *)
Theorem analyzer_sends_one_request (w : World) (st : State) :
  List.length (filter is_request (emitted st (snd (analyze_receipt_with_ai w st)))) <= 1
  /\ List.length (filter is_network_call (emitted st (snd (analyze_receipt_with_ai w st)))) <= 2
  /\ forall m,
      In (EvGenerateContent m) (emitted st (snd (analyze_receipt_with_ai w st))) ->
      PyStr.contains "flash" m = true
      /\ begins [EvConfigure (credential w); EvListModels; EvImageOpen; EvGenerateContent m]
                (emitted st (snd (analyze_receipt_with_ai w st))).
Proof.
  destruct (analyze_receipt_with_ai w st) as [o st'] eqn:Ha. simpl.
  destruct (analyze_events w st st' o Ha) as (evs & Ht & Hev).
  rewrite (emitted_of_trace st st' evs Ht).
  destruct Hev as [[_ ->] | (_ & n & model & msgs & Hn & Hf & Hm & ->)].
  - simpl. split; [lia | split; [lia |]].
    intros m [H | []]. discriminate.
  - assert (Hmsgs : filter is_request msgs = [] /\ filter is_network_call msgs = []
                    /\ forall m, ~ In (EvGenerateContent m) msgs).
    { destruct Hm as [-> | [msg ->]]; simpl; (split; [reflexivity | split; [reflexivity |]]).
      - intros m [].
      - intros m [H | []]. discriminate. }
    destruct Hmsgs as (Hr & Hc & Hin).
    rewrite !filter_app, Hr, Hc, !app_nil_r.
    destruct (firstn_request_steps n (credential w) model Hn) as [-> | [-> | [-> | ->]]];
      simpl; (split; [lia | split; [lia |]]);
      intros m Hm'.
    + destruct Hm' as [H | Hm']; [discriminate |]. now apply Hin in Hm'.
    + destruct Hm' as [H | [H | Hm']]; try discriminate. now apply Hin in Hm'.
    + destruct Hm' as [H | [H | [H | Hm']]]; try discriminate. now apply Hin in Hm'.
    + destruct Hm' as [H | [H | [H | [H | Hm']]]]; try discriminate.
      * injection H as <-. split; [rewrite Hf; apply chosen_model_flash |].
        exists msgs. reflexivity.
      * now apply Hin in Hm'.
Qed.

(** ** The status box of the sidebar *)

Lemma system_status_value (w : World) (st : State) :
  exists k,
    resolve_api_key w st = (Returned k, st)
    /\ truthy_key k = negb (no_credential w)
    /\ system_status w st
       = (Returned
            (if truthy_key k then
               mkStatusBox true "AI Model (Gemini Vision) Online 🟢" "Secure API Key Loaded"
             else if is_empty_key k then
               mkStatusBox false "AI Model Offline 🔴" "API Key is present but empty"
             else mkStatusBox false "AI Model Offline 🔴" "Missing API Key"), st).
Proof.
  destruct (no_credential w) eqn:Hn.
  - destruct (resolve_without_credential w st Hn) as (k & Hr & Hk).
    exists k. repeat split; [exact Hr | exact Hk |].
    unfold system_status, bind. rewrite Hr, Hk.
    destruct (is_empty_key k); reflexivity.
  - destruct (resolve_with_credential w st Hn) as (k & Hr & Hk & _).
    exists k. repeat split; [exact Hr | exact Hk |].
    unfold system_status, bind. rewrite Hr, Hk. reflexivity.
Qed.

(** X6. The status box and the analyzer agree: the box says Online exactly
    when a credential is resolved, and then the analyzer starts by
    configuring the library with that credential (the key of the
    environment when it is not empty, else the key of the secrets file);
    when the box says Offline the analyzer returns the record of the
    missing key without any request. *)
Theorem status_box_agrees_with_analyzer (w : World) (st st0 : State) :
  exists box,
    system_status w st = (Returned box, st)
    /\ status_online box = negb (no_credential w)
    /\ (if status_online box then
          hd_error (emitted st0 (snd (analyze_receipt_with_ai w st0)))
          = Some (EvConfigure (credential w))
          /\ credential w
             = (if truthy_key (env_API_KEY w) then key_text (env_API_KEY w)
                else match secrets_GEMINI_API_KEY w with inr k => k | inl _ => "" end)
        else
          fst (analyze_receipt_with_ai w st0) = Returned (missing_key_record (now w))
          /\ existsb is_network_call (emitted st0 (snd (analyze_receipt_with_ai w st0)))
             = false).
Proof.
  destruct (system_status_value w st) as (k & Hr & Hk & Hs).
  eexists. split; [exact Hs |].
  destruct (no_credential w) eqn:Hn; simpl in Hk; rewrite Hk.
  - assert (Hb : status_online
                   (if is_empty_key k
                    then mkStatusBox false "AI Model Offline 🔴" "API Key is present but empty"
                    else mkStatusBox false "AI Model Offline 🔴" "Missing API Key") = false)
      by (destruct (is_empty_key k); reflexivity).
    rewrite Hb. split; [reflexivity |].
    rewrite analyze_without_credential by assumption. simpl.
    rewrite emitted_app. split; reflexivity.
  - simpl. split; [reflexivity |]. split; [| reflexivity].
    destruct (analyze_receipt_with_ai w st0) as [o st'] eqn:Ha. simpl.
    destruct (analyze_events w st0 st' o Ha) as (evs & Ht & Hev).
    rewrite (emitted_of_trace st0 st' evs Ht).
    destruct Hev as [[Hc _] | (_ & n & model & msgs & Hn4 & _ & _ & ->)];
      [congruence |].
    destruct (firstn_request_steps n (credential w) model Hn4) as [-> | [-> | [-> | ->]]];
      reflexivity.
Qed.

(** The caption tells the two offline cases apart by the value left in
    [api_key], not by where it was looked for. *)
Lemma offline_caption (w : World) (st : State) :
  no_credential w = true ->
  exists box,
    system_status w st = (Returned box, st)
    /\ status_caption box
       = match env_API_KEY w, secrets_GEMINI_API_KEY w with
         | None, inl _ => "Missing API Key"
         | _, _ => "API Key is present but empty"
         end.
Proof.
  intros Hn. unfold system_status, resolve_api_key, bind, try_except_all, lift, ret, raise.
  unfold no_credential, env_yields_key, secrets_yield_key in Hn.
  apply andb_true_iff in Hn as [He Hs]. apply negb_true_iff in He.
  rewrite He. simpl.
  destruct (secrets_GEMINI_API_KEY w) as [e | k]; simpl in *.
  - rewrite He. destruct (env_API_KEY w) as [k |]; simpl in *.
    + apply negb_false_iff in He. rewrite He. eexists. split; reflexivity.
    + eexists. split; reflexivity.
  - apply negb_true_iff, negb_false_iff in Hs. rewrite Hs. simpl.
    eexists. split; [reflexivity |]. now destruct (env_API_KEY w).
Qed.

End PageFacts.

(* ================================================================== *)
(** * Further properties: the result card *)
(* ================================================================== *)

Section CardFacts.

Context {RT : Runtime}.

(** The two numbers of a record that the analyzer returned. *)
Lemma analyzed_record_numbers (w : World) (st st' : State) (r : Dict) :
  analyze_receipt_with_ai w st = (Returned r, st') ->
  exists z q,
    dict_get "risk_score" r = Some (PyInt z) /\ dict_get "amount" r = Some (PyFloat q).
Proof.
  intros Ha. apply analyze_returned in Ha as [Hd | [st1 Hb]].
  - destruct (degraded_fields w r Hd) as (Hs & Hq & _). eauto.
  - apply analyze_body_returned in Hb as (text & d & q & z & _ & _ & _ & _ & ->).
    exists z, q. split.
    + apply dict_get_set_same.
    + rewrite dict_get_set_other by discriminate. apply dict_get_set_same.
Qed.

Lemma first_button_classify (z : Z) :
  first_button (approval_action (classify z))
  = if (z >? 80)%Z then "Flag for Manual Review" else "Confirm & Approve".
Proof.
  unfold classify. destruct (z >? 80)%Z, (z >? 50)%Z; reflexivity.
Qed.

(** The card of a record whose two numbers have their types. *)
Lemma render_results_typed (s : State) (r : Dict) (z : Z) (q : Q) :
  latest (session s) = Some r ->
  dict_get "risk_score" r = Some (PyInt z) ->
  dict_get "amount" r = Some (PyFloat q) ->
  (exists card,
      render_results s = (Returned (Some card), s)
      /\ card_classification card = classify z
      /\ card_score card = PyInt z
      /\ card_amount card = PyFloat q
      /\ dict_get "vendor" r = Some (card_vendor card)
      /\ dict_get "date" r = Some (card_date card)
      /\ dict_get "category" r = Some (card_category card)
      /\ dict_get "risk_reason" r = Some (card_risk_reason card)
      /\ card_button card
         = if (z >? 80)%Z then "Flag for Manual Review" else "Confirm & Approve")
  \/ (exists k,
        In k payload_only_keys
        /\ dict_get k r = None
        /\ render_results s = (Raised (KeyError k), s)).
Proof.
  intros Hl Hs Hq.
  unfold render_results, bind, get_session, getitem, lift, py_gt, ret, raise.
  rewrite Hl, Hs, Hq.
  destruct (dict_get "vendor" r) as [vendor |] eqn:Hv.
  2:{ right. exists "vendor". simpl. auto. }
  destruct (dict_get "date" r) as [date |] eqn:Hd.
  2:{ right. exists "date". simpl. auto. }
  destruct (dict_get "category" r) as [category |] eqn:Hc.
  2:{ right. exists "category". simpl. auto. }
  destruct (dict_get "risk_reason" r) as [reason |] eqn:Hr.
  2:{ right. exists "risk_reason". simpl. auto 6. }
  left. eexists. split; [reflexivity |]. simpl.
  repeat split. apply first_button_classify.
Qed.

(** X7. The card of a record that the analyzer returned: the comparisons
    of lines 337 and 341 never fail, since [risk_score] holds an [int]; the
    card shows the classification of that integer, and its first button is
    Flag for Manual Review above 80 and Confirm & Approve otherwise.  The
    card can fail in one way only, [KeyError] on one of [vendor], [date],
    [category], [risk_reason] that the payload did not have.  For the two
    records of a failed analysis it does not fail: they are shown under
    Auto-Approve with the button Confirm & Approve. *)
Theorem result_card_of_analyzed_record (w : World) (st st' s : State) (r : Dict) :
  analyze_receipt_with_ai w st = (Returned r, st') ->
  latest (session s) = Some r ->
  (exists z,
      dict_get "risk_score" r = Some (PyInt z)
      /\ ((exists card,
              render_results s = (Returned (Some card), s)
              /\ card_classification card = classify z
              /\ card_score card = PyInt z
              /\ card_button card
                 = if (z >? 80)%Z then "Flag for Manual Review" else "Confirm & Approve")
          \/ (exists k,
                In k payload_only_keys
                /\ dict_get k r = None
                /\ render_results s = (Raised (KeyError k), s))))
  /\ (degraded w r ->
      exists card,
        render_results s = (Returned (Some card), s)
        /\ approval_action (card_classification card) = "Auto-Approve"
        /\ card_button card = "Confirm & Approve").
Proof.
  intros Ha Hl. split.
  - destruct (analyzed_record_numbers w st st' r Ha) as (z & q & Hs & Hq).
    exists z. split; [exact Hs |].
    destruct (render_results_typed s r z q Hl Hs Hq)
      as [(card & Hr & Hc & Hsc & _ & _ & _ & _ & _ & Hb) | Hk].
    + left. exists card. repeat split; assumption.
    + right. exact Hk.
  - intros Hd.
    unfold render_results, bind, get_session. rewrite Hl.
    destruct Hd as [-> | [e ->]]; eexists; (split; [reflexivity |]); split; reflexivity.
Qed.

(** X8. Lines 195-196 write [amount] and [risk_score] and nothing else:
    a record that is not one of the two degraded records is the decoded
    payload with these two keys set, so every other key of the payload
    reaches the record with its value, whatever its type, and a key that
    the payload lacks is not supplied. *)
Theorem payload_fields_pass_through (w : World) (st st' : State) (r : Dict) :
  analyze_receipt_with_ai w st = (Returned r, st') ->
  degraded w r
  \/ exists d,
      decoded_payload w = Some d
      /\ forall k,
          k <> "amount" -> k <> "risk_score" -> dict_get k r = dict_get k d.
Proof.
  intros Ha. apply analyze_returned in Ha as [Hd | [st1 Hb]]; [now left | right].
  apply analyze_body_returned in Hb as (text & d & q & z & Hg & Hj & _ & _ & ->).
  exists d. split.
  - unfold decoded_payload. now rewrite Hg, Hj.
  - intros k Hka Hks. now rewrite !dict_get_set_other by congruence.
Qed.

End CardFacts.

(* ================================================================== *)
(** * Further properties: the session over several analyses *)
(* ================================================================== *)

Section SessionFacts.

Context {RT : Runtime}.

(** The analyzer lets through only what [except Exception] does not catch. *)
Lemma analyze_raised (w : World) (st st1 : State) (e : Exn) :
  analyze_receipt_with_ai w st = (Raised e, st1) -> is_Exception e = false.
Proof.
  destruct (no_credential w) eqn:Hn.
  - rewrite analyze_without_credential by assumption. discriminate.
  - rewrite analyze_with_credential by assumption. unfold try_except_Exception.
    destruct (analyze_body w (credential w) st) as [[data | e'] st'] eqn:Hb;
      [discriminate |].
    destruct (is_Exception e') eqn:Ee.
    + unfold bind, st_error, emit, ret. simpl. discriminate.
    + now intros [= <- _].
Qed.

(** The handler stops where the analyzer raised. *)
Lemma run_ai_analysis_raised (w : World) (st st1 : State) (e : Exn) :
  analyze_receipt_with_ai w st = (Raised e, st1) ->
  run_ai_analysis w st = (Raised e, st1).
Proof. intros Ha. unfold run_ai_analysis. unfold bind at 1. now rewrite Ha. Qed.

(** The handler after the analyzer returned. *)
Lemma run_ai_analysis_returned (w : World) (st st1 : State) (data : Dict) :
  analyze_receipt_with_ai w st = (Returned data, st1) ->
  (exists s d,
      dict_get "date" data = Some (PyStr s)
      /\ strptime_ymd s = inr d
      /\ run_ai_analysis w st
         = (Returned tt,
            mkState (mkSession (Some (all (session st) ++ [data])%list)
                               (full_history (session st) ++ [mirrored_row d data])%list
                               (session_advice (session st)))
                    (trace st1 ++ [EvRerun])%list))
  \/ (exists e,
        date_failure data e
        /\ run_ai_analysis w st
           = (Raised e,
              mkState (mkSession (Some (all (session st) ++ [data])%list)
                                 (full_history (session st))
                                 (session_advice (session st)))
                      (trace st1))).
Proof.
  intros Ha.
  pose proof (analyze_keeps_session w st (Returned data) st1 Ha) as Hs.
  rewrite (run_ai_analysis_appends w st st1 data Ha).
  unfold bind, getitem, strptime, get_session, put_session, emit, ret, raise, appended.
  rewrite Hs.
  destruct (dict_get "date" data) as [v |] eqn:Hd; simpl.
  2:{ right. eexists. split; [| reflexivity]. left. now split. }
  destruct v;
    try (right; eexists; split; [| reflexivity]; right; left; eexists;
         split; [exact Hd |]; split; [discriminate | reflexivity]).
  match goal with
  | H : dict_get "date" data = Some (PyStr ?t) |- _ =>
      destruct (strptime_ymd t) as [err | d] eqn:Hp; simpl
  end.
  - right. eexists. split; [| reflexivity]. right. right. eauto.
  - left. eexists. exists d. repeat split; eassumption.
Qed.

(** X9. One press of the analysis button is not all or nothing.  When the
    handler returns, the record of the analyzer was appended to the
    sequence of records, its row to the table, and the page is run again.
    When it raises, the table is as before and no rerun is asked; the
    exception is one that the analyzer let through (not an [Exception];
    the sequence of records is as before), or the failure of the
    conversion of the date of line 315 ([KeyError] for a payload without
    [date], [TypeError] for a date that is not a string, [ValueError] for
    a string that does not read as a date), and then the record is in the
    sequence of records all the same.  The stored advice is never
    touched. *)
Theorem handler_outcome (w : World) (st : State) :
  session_advice (session (press st w)) = session_advice (session st)
  /\ match fst (run_ai_analysis w st) with
     | Returned _ =>
         exists r s d,
           fst (analyze_receipt_with_ai w st) = Returned r
           /\ dict_get "date" r = Some (PyStr s)
           /\ strptime_ymd s = inr d
           /\ all (session (press st w)) = (all (session st) ++ [r])%list
           /\ full_history (session (press st w))
              = (full_history (session st) ++ [mirrored_row d r])%list
           /\ emitted st (press st w)
              = (emitted st (snd (analyze_receipt_with_ai w st)) ++ [EvRerun])%list
     | Raised e =>
         full_history (session (press st w)) = full_history (session st)
         /\ emitted st (press st w) = emitted st (snd (analyze_receipt_with_ai w st))
         /\ ((fst (analyze_receipt_with_ai w st) = Raised e
              /\ is_Exception e = false
              /\ history (session (press st w)) = history (session st))
             \/ (exists r,
                   fst (analyze_receipt_with_ai w st) = Returned r
                   /\ date_failure r e
                   /\ all (session (press st w)) = (all (session st) ++ [r])%list))
     end.
Proof.
  unfold press.
  destruct (analyze_receipt_with_ai w st) as [[r | e] st1] eqn:Ha.
  - destruct (analyze_events w st st1 _ Ha) as (evs & Ht & _).
    destruct (run_ai_analysis_returned w st st1 r Ha)
      as [(s & d & Hd & Hp & ->) | (e & He & ->)]; simpl.
    + split; [reflexivity |]. exists r, s, d. repeat split; try assumption.
      rewrite (emitted_of_trace st st1 evs Ht).
      apply emitted_of_trace. simpl. now rewrite Ht, <- app_assoc.
    + split; [reflexivity |]. split; [reflexivity |]. split.
      * rewrite (emitted_of_trace st st1 evs Ht). now apply emitted_of_trace.
      * right. exists r. repeat split. exact He.
  - pose proof (analyze_keeps_session w st _ st1 Ha) as Hs.
    rewrite (run_ai_analysis_raised w st st1 e Ha). simpl. rewrite Hs.
    split; [reflexivity |]. split; [reflexivity |]. split; [reflexivity |].
    left. repeat split. now apply analyze_raised in Ha.
Qed.

(** What one press does to the session. *)
Lemma press_step (w : World) (st : State) :
  begins (all (session st)) (all (session (press st w)))
  /\ begins (full_history (session st)) (full_history (session (press st w)))
  /\ begins (trace st) (trace (press st w))
  /\ List.length (all (session (press st w))) <= S (List.length (all (session st)))
  /\ List.length (full_history (session (press st w))) + List.length (all (session st))
     <= List.length (full_history (session st)) + List.length (all (session (press st w)))
  /\ session_advice (session (press st w)) = session_advice (session st)
  /\ (raises_only_Exception w = true ->
      List.length (all (session (press st w))) = S (List.length (all (session st)))).
Proof.
  unfold press.
  destruct (analyze_receipt_with_ai w st) as [[r | e] st1] eqn:Ha.
  - destruct (analyze_events w st st1 _ Ha) as (evs & Ht & _).
    destruct (run_ai_analysis_returned w st st1 r Ha)
      as [(s & d & Hd & Hp & ->) | (e & He & ->)]; unfold all; simpl;
      rewrite ?length_app; simpl.
    + repeat split; try (intros; lia).
      * now exists [r].
      * now exists [mirrored_row d r].
      * exists (evs ++ [EvRerun])%list. now rewrite Ht, app_assoc.
    + repeat split; try (intros; lia).
      * now exists [r].
      * exists []. now rewrite app_nil_r.
      * now exists evs.
  - pose proof (analyze_keeps_session w st _ st1 Ha) as Hs.
    destruct (analyze_events w st st1 _ Ha) as (evs & Ht & _).
    rewrite (run_ai_analysis_raised w st st1 e Ha). simpl. rewrite Hs.
    repeat split; try lia.
    + exists []. now rewrite app_nil_r.
    + exists []. now rewrite app_nil_r.
    + now exists evs.
    + intros Hw. destruct (analyze_returns w st Hw) as (r & st' & Hr). congruence.
Qed.

Lemma begins_trans {A} (l1 l2 l3 : list A) : begins l1 l2 -> begins l2 l3 -> begins l1 l3.
Proof.
  intros [r1 ->] [r2 ->]. exists (r1 ++ r2)%list. now rewrite app_assoc.
Qed.

Lemma begins_refl {A} (l : list A) : begins l l.
Proof. exists []. now rewrite app_nil_r. Qed.

(** X10. The session only grows.  After any number of presses of the
    analysis button, in any worlds, the sequence of records and the table
    begin with what they were, the stored advice is untouched, at most one
    record is added by press and at most one row by added record (a row
    is never added without its record).  When the worlds raise only
    [Exception]s, every press adds exactly one record, whether the
    analysis succeeded or not. *)
Theorem session_is_append_only (ws : list World) (st : State) :
  begins (all (session st)) (all (session (presses ws st)))
  /\ begins (full_history (session st)) (full_history (session (presses ws st)))
  /\ begins (trace st) (trace (presses ws st))
  /\ List.length (all (session (presses ws st)))
     <= List.length (all (session st)) + List.length ws
  /\ List.length (full_history (session (presses ws st))) + List.length (all (session st))
     <= List.length (full_history (session st))
        + List.length (all (session (presses ws st)))
  /\ session_advice (session (presses ws st)) = session_advice (session st)
  /\ (forallb raises_only_Exception ws = true ->
      List.length (all (session (presses ws st)))
      = List.length (all (session st)) + List.length ws).
Proof.
  unfold presses. revert st.
  induction ws as [| w ws IH]; intros st; simpl.
  - repeat split; try lia; apply begins_refl.
  - destruct (press_step w st) as (Ha & Hf & Ht & Hla & Hlf & Hadv & Hex).
    destruct (IH (press st w)) as (Ha' & Hf' & Ht' & Hla' & Hlf' & Hadv' & Hex').
    repeat split; try lia.
    + eapply begins_trans; eauto.
    + eapply begins_trans; eauto.
    + eapply begins_trans; eauto.
    + congruence.
    + intros Hw. apply andb_true_iff in Hw as [Hw Hws].
      specialize (Hex Hw). specialize (Hex' Hws). lia.
Qed.

End SessionFacts.

(* ================================================================== *)
(** * Further properties: the dashboard *)
(* ================================================================== *)

(** ** The highest category *)

Lemma idxmax_row_In (s : Summary) (x : string * Q) :
  idxmax_row s = Some x -> In x s.
Proof.
  revert x. induction s as [| y s IH]; simpl; [discriminate |].
  intros x. destruct (idxmax_row s) as [m |].
  - destruct (Qltb (snd y) (snd m)); intros [= <-]; auto.
  - intros [= <-]. auto.
Qed.

Lemma idxmax_row_greatest (s : Summary) (x : string * Q) :
  idxmax_row s = Some x -> forall y, In y s -> (snd y <= snd x)%Q.
Proof.
  revert x. induction s as [| z s IH]; simpl; [discriminate |].
  intros x Hx y Hy. destruct (idxmax_row s) as [m |] eqn:Em.
  - specialize (IH m eq_refl).
    destruct (Qltb (snd z) (snd m)) eqn:El; injection Hx as <-.
    + apply Qltb_lt in El. destruct Hy as [<- | Hy]; [lra | now apply IH].
    + apply Qltb_ge in El. destruct Hy as [<- | Hy]; [lra |].
      specialize (IH y Hy). lra.
  - injection Hx as <-. destruct s as [| z' s]; [| simpl in Em].
    + destruct Hy as [<- | []]. lra.
    + destruct (idxmax_row s) as [m |]; [| discriminate].
      destruct (Qltb (snd z') (snd m)); discriminate.
Qed.

Lemma idxmax_row_some (s : Summary) : s <> [] -> exists x, idxmax_row s = Some x.
Proof.
  destruct s as [| y s]; [congruence | intros _]. simpl.
  destruct (idxmax_row s) as [m |]; [| eauto].
  destruct (Qltb (snd y) (snd m)); eauto.
Qed.

(** ** The total of the summary *)

Lemma total_spending_from (s : Summary) (start : Q) :
  (fold_left (fun acc x => acc + snd x) s start == start + Qsum (map snd s))%Q.
Proof.
  revert start. induction s as [| x s IH]; intros start; simpl.
  - ring.
  - rewrite IH. ring.
Qed.

Lemma total_spending_is_sum (s : Summary) : (total_spending s == Qsum (map snd s))%Q.
Proof. unfold total_spending. rewrite total_spending_from. ring. Qed.

Lemma Qsum_perm (l l' : list Q) : Permutation l l' -> (Qsum l == Qsum l')%Q.
Proof.
  induction 1; simpl.
  - reflexivity.
  - now rewrite IHPermutation.
  - ring.
  - now rewrite IHPermutation1.
Qed.

Lemma Qsum_add_to_group (c : string) (a : Q) (acc : Summary) :
  (Qsum (map snd (add_to_group c a acc)) == Qsum (map snd acc) + a)%Q.
Proof.
  induction acc as [| [c' t] acc IH]; simpl.
  - ring.
  - destruct (String.eqb c' c); simpl.
    + ring.
    + rewrite IH. ring.
Qed.

Lemma Qsum_group_totals_from (df : DataFrame) (acc : Summary) :
  (Qsum (map snd
           (fold_left
              (fun acc r =>
                 match category_cell r with
                 | Some c => add_to_group c (amount_or_zero r) acc
                 | None => acc
                 end) df acc))
   == Qsum (map snd acc) + Qsum (map amount_or_zero (filter categorised df)))%Q.
Proof.
  revert acc. induction df as [| r df IH]; intros acc; simpl.
  - ring.
  - rewrite IH. unfold categorised.
    destruct (category_cell r) as [c |]; simpl.
    + rewrite Qsum_add_to_group. ring.
    + reflexivity.
Qed.

Lemma total_spending_summarize (df : DataFrame) :
  (total_spending (summarize df)
   == Qsum (map amount_or_zero (filter categorised df)))%Q.
Proof.
  rewrite total_spending_is_sum. unfold summarize.
  rewrite (Qsum_perm _ (map snd (group_totals df))).
  - unfold group_totals. rewrite Qsum_group_totals_from. simpl. ring.
  - apply Permutation_map, stable_sort_perm.
Qed.

Lemma summarize_not_empty (df : DataFrame) (c : string) :
  has_category c df = true -> summarize df <> [].
Proof.
  intros Hc Hs. pose proof (summarize_get df c) as Hg.
  rewrite Hc, Hs in Hg. exact Hg.
Qed.

Lemma entry_eq_dec (a b : string * Q) : {a = b} + {a <> b}.
Proof.
  decide equality.
  - decide equality; [apply Pos.eq_dec | apply Z.eq_dec].
  - apply string_dec.
Qed.

(** X3. The entry shown as Highest Category ([idxmax]) and the first entry
    of the Top 3 Breakdown ([sort_values] descending, [head]) hold the same
    total, the greatest; they are the same entry when no other entry holds
    that total.  With several entries of the greatest total the first line
    of the breakdown is the one that the sort of the library puts first,
    which need not be the one of [idxmax]. *)
Theorem highest_category_is_top1 {SO : Sorting} (s : Summary) (x : string * Q) :
  idxmax_row s = Some x ->
  exists y,
    hd_error (topN s 1) = Some y
    /\ (snd y == snd x)%Q
    /\ ((forall z, In z s -> z <> x -> (snd z < snd x)%Q) -> y = x).
Proof.
  intros Hx.
  pose proof (idxmax_row_In s x Hx) as Hin.
  pose proof (idxmax_row_greatest s x Hx) as Hmax.
  pose proof (sort_values_desc_permutes s) as Hp.
  pose proof (sort_values_desc_descends s) as Hs.
  unfold topN.
  destruct (sort_values_desc s) as [| y l] eqn:E.
  - apply Permutation_nil in Hp. subst s. destruct Hin.
  - exists y. split; [reflexivity |].
    assert (Hy : In y s) by (apply (Permutation_in _ Hp); now left).
    assert (Hxy : (snd x <= snd y)%Q).
    { apply Permutation_sym in Hp. apply (Permutation_in _ Hp) in Hin.
      destruct Hin as [<- | Hin]; [apply Qle_refl |].
      inversion Hs as [| ? ? _ Hall]; subst.
      rewrite Forall_forall in Hall. exact (Hall x Hin). }
    pose proof (Hmax y Hy) as Hyx.
    split; [now apply Qle_antisym |].
    intros Huniq. destruct (entry_eq_dec y x) as [Heq | Hne]; [exact Heq |].
    specialize (Huniq y Hy Hne). exfalso. exact (Qlt_not_le _ _ Huniq Hxy).
Qed.

(** X11. The second tab on a table whose [Category] cells are texts or
    missing, whose [Amount] cells are floats or missing, and in which some
    row has a category: it renders (the only failure of the tab, [idxmax]
    on an empty summary, needs a table without any category); the Highest
    Category is a category of the summary whose total no other total
    exceeds; the Total Historical Spend is the sum of the amounts of the
    rows that have a category (a row without category counts in no bar and
    not in the total); the breakdown lists three entries in descending
    order, or all of them when there are fewer. *)
Theorem dashboard_of_table {SO : Sorting} (st : State) (c0 : string) :
  well_typed (full_history (session st)) = true ->
  has_category c0 (full_history (session st)) = true ->
  exists d,
    render_dashboard st = (Returned d, st)
    /\ dash_summary d = summarize (full_history (session st))
    /\ (exists t,
          In (dash_highest d, t) (dash_summary d)
          /\ forall y, In y (dash_summary d) -> (snd y <= t)%Q)
    /\ (dash_total d
        == Qsum (map amount_or_zero (filter categorised (full_history (session st)))))%Q
    /\ dash_top3 d = topN (dash_summary d) 3
    /\ List.length (dash_top3 d) = Nat.min 3 (List.length (dash_summary d))
    /\ StronglySorted total_ge (dash_top3 d).
Proof.
  intros _ Hc. unfold render_dashboard, bind, get_session, ret.
  destruct (idxmax_row_some _ (summarize_not_empty _ _ Hc)) as ([c t] & Hx).
  rewrite Hx. eexists. split; [reflexivity |]. simpl.
  split; [reflexivity |]. split; [| split; [| split; [| split]]].
  - exists t. split.
    + now apply idxmax_row_In.
    + intros y Hy. exact (idxmax_row_greatest _ _ Hx y Hy).
  - apply total_spending_summarize.
  - reflexivity.
  - apply topN_length.
  - unfold topN.
    pose proof (sort_values_desc_descends (summarize (full_history (session st)))) as Hs.
    rewrite <- (firstn_skipn 3 (sort_values_desc _)) in Hs.
    now apply StronglySorted_app_inv in Hs as [Hs1 _].
Qed.

(** ** Rows without a category *)

Lemma group_totals_app_uncategorised (df rows : DataFrame) :
  Forall (fun r => category_cell r = None) rows ->
  group_totals (df ++ rows)%list = group_totals df.
Proof.
  intros Hr. unfold group_totals. rewrite fold_left_app.
  induction Hr as [| r rows Hc _ IH]; simpl; [reflexivity |].
  now rewrite Hc.
Qed.

Lemma Qsum_app (l l' : list Q) : (Qsum (l ++ l')%list == Qsum l + Qsum l')%Q.
Proof.
  induction l as [| x l IH]; simpl.
  - ring.
  - rewrite IH. ring.
Qed.

Lemma column_sum_app_no_amount (df rows : DataFrame) :
  Forall (fun r => amount_cell r = None) rows ->
  (column_sum (df ++ rows)%list == column_sum df)%Q.
Proof.
  intros Hr. rewrite !column_sum_is_sum. unfold sum_of_amounts.
  rewrite map_app, Qsum_app.
  assert (H0 : (Qsum (map amount_or_zero rows) == 0)%Q).
  { induction Hr as [| r rows Ha _ IH]; simpl; [reflexivity |].
    unfold amount_or_zero at 1. rewrite Ha, IH. ring. }
  rewrite H0. ring.
Qed.

Lemma render_dashboard_of_summary {SO : Sorting} (st st' : State) :
  summarize (full_history (session st')) = summarize (full_history (session st)) ->
  fst (render_dashboard st') = fst (render_dashboard st).
Proof.
  intros Hs. unfold render_dashboard, bind, get_session, ret, raise.
  rewrite Hs. destruct (idxmax_row _); reflexivity.
Qed.

Section DashboardFacts.

Context {RT : Runtime} {SO : Sorting}.

(** A record of the analyzer has the keys [Category] and [Amount] only if
    the payload has them. *)
Lemma analyzed_record_table_keys (w : World) (st st' : State) (r : Dict) :
  analyze_receipt_with_ai w st = (Returned r, st') ->
  prompt_keys_only w = true ->
  dict_get "Category" r = None /\ dict_get "Amount" r = None.
Proof.
  intros Ha Hk. apply analyze_returned in Ha as [Hd | [st1 Hb]].
  - destruct Hd as [-> | [e ->]]; split; reflexivity.
  - apply analyze_body_returned in Hb as (text & d & q & z & Hg & Hj & _ & _ & ->).
    unfold prompt_keys_only, decoded_payload in Hk. rewrite Hg, Hj in Hk.
    rewrite !dict_get_set_other by discriminate.
    destruct (dict_get "Category" d); [discriminate |].
    destruct (dict_get "Amount" d); [discriminate |]. now split.
Qed.

Lemma press_adds_no_cell (w : World) (st : State) :
  prompt_keys_only w = true ->
  exists rows,
    full_history (session (press st w)) = (full_history (session st) ++ rows)%list
    /\ Forall (fun r => category_cell r = None) rows
    /\ Forall (fun r => amount_cell r = None) rows.
Proof.
  intros Hk. unfold press.
  destruct (analyze_receipt_with_ai w st) as [[r | e] st1] eqn:Ha.
  - destruct (analyzed_record_table_keys w st st1 r Ha Hk) as [Hc Hq].
    destruct (run_ai_analysis_returned w st st1 r Ha)
      as [(s & d & Hd & Hp & ->) | (e & He & ->)]; simpl.
    + exists [mirrored_row d r]. split; [reflexivity |].
      split; constructor; try constructor.
      * unfold category_cell. rewrite mirrored_row_get by discriminate. now rewrite Hc.
      * unfold amount_cell. rewrite mirrored_row_get by discriminate. now rewrite Hq.
    + exists []. rewrite app_nil_r. repeat split; constructor.
  - pose proof (analyze_keeps_session w st _ st1 Ha) as Hs.
    rewrite (run_ai_analysis_raised w st st1 e Ha). simpl. rewrite Hs.
    exists []. rewrite app_nil_r. repeat split; constructor.
Qed.

Lemma presses_add_no_cell (ws : list World) (st : State) :
  forallb prompt_keys_only ws = true ->
  exists rows,
    full_history (session (presses ws st)) = (full_history (session st) ++ rows)%list
    /\ Forall (fun r => category_cell r = None) rows
    /\ Forall (fun r => amount_cell r = None) rows.
Proof.
  unfold presses. revert st. induction ws as [| w ws IH]; intros st Hk; simpl.
  - exists []. rewrite app_nil_r. repeat split; constructor.
  - simpl in Hk. apply andb_true_iff in Hk as [Hw Hws].
    destruct (press_adds_no_cell w st Hw) as (rows1 & H1 & Hc1 & Ha1).
    destruct (IH (press st w) Hws) as (rows2 & H2 & Hc2 & Ha2).
    exists (rows1 ++ rows2)%list. rewrite H2, H1, app_assoc.
    split; [reflexivity |]. split; apply Forall_app; now split.
Qed.

Lemma presses_keep_summary (ws : list World) (st : State) :
  forallb prompt_keys_only ws = true ->
  summarize (full_history (session (presses ws st)))
  = summarize (full_history (session st))
  /\ fst (render_dashboard (presses ws st)) = fst (render_dashboard st).
Proof.
  intros Hk. destruct (presses_add_no_cell ws st Hk) as (rows & Hf & Hc & _).
  assert (Hs : summarize (full_history (session (presses ws st)))
               = summarize (full_history (session st))).
  { rewrite Hf. unfold summarize. now rewrite group_totals_app_uncategorised. }
  split; [exact Hs | now apply render_dashboard_of_summary].
Qed.

(** X12. What the analyses leave of the dashboard and of the forecast.
    When the payloads use the keys that the prompt asks for (no key
    [Category], no key [Amount]), then after any number of presses of the
    analysis button, whether the analyses succeeded or not, the summary by
    category, the whole second tab and the sum behind the forecast are
    those of the table before: no analysed receipt ever counts in them. *)
Theorem dashboard_ignores_analyses (ws : list World) (st : State) :
  forallb prompt_keys_only ws = true ->
  summarize (full_history (session (presses ws st)))
  = summarize (full_history (session st))
  /\ fst (render_dashboard (presses ws st)) = fst (render_dashboard st)
  /\ (column_sum (full_history (session (presses ws st)))
      == column_sum (full_history (session st)))%Q
  /\ (forall u,
        forecast (full_history (session (presses ws st))) u
        == forecast (full_history (session st)) u)%Q.
Proof.
  intros Hk. destruct (presses_add_no_cell ws st Hk) as (rows & Hf & Hc & Ha).
  assert (Hs : summarize (full_history (session (presses ws st)))
               = summarize (full_history (session st))).
  { rewrite Hf. unfold summarize. now rewrite group_totals_app_uncategorised. }
  assert (Hq : (column_sum (full_history (session (presses ws st)))
                == column_sum (full_history (session st)))%Q).
  { rewrite Hf. now apply column_sum_app_no_amount. }
  repeat split; try assumption.
  - now apply render_dashboard_of_summary.
  - intros u. unfold forecast. now rewrite Hq.
Qed.

(** ** The seeded table *)

Lemma zip_rows_categories (cs : list string) (amounts : list Q) (dates : list Date) :
  List.length amounts = List.length cs ->
  List.length dates = List.length cs ->
  map category_cell (zip_rows cs amounts dates) = map Some cs.
Proof.
  revert amounts dates. induction cs as [| c cs IH]; intros [| a amounts] [| d dates];
    simpl; try discriminate; try reflexivity.
  intros [= Ha] [= Hd]. now rewrite IH.
Qed.

Lemma zip_rows_amounts (cs : list string) (amounts : list Q) (dates : list Date) :
  List.length amounts = List.length cs ->
  List.length dates = List.length cs ->
  map amount_or_zero (zip_rows cs amounts dates) = amounts.
Proof.
  revert amounts dates. induction cs as [| c cs IH]; intros [| a amounts] [| d dates];
    simpl; try discriminate; try reflexivity.
  intros [= Ha] [= Hd]. now rewrite IH.
Qed.

Lemma zip_rows_categorised (cs : list string) (amounts : list Q) (dates : list Date) :
  filter categorised (zip_rows cs amounts dates) = zip_rows cs amounts dates.
Proof.
  revert amounts dates. induction cs as [| c cs IH]; intros [| a amounts] [| d dates];
    simpl; try reflexivity.
  now rewrite IH.
Qed.

Lemma map_fst_add_to_group (c : string) (a : Q) (acc : Summary) :
  map fst (add_to_group c a acc) = add_key c (map fst acc).
Proof.
  induction acc as [| [c' t] acc IH]; simpl; [reflexivity |].
  destruct (String.eqb c' c); simpl; [reflexivity | now rewrite IH].
Qed.

Lemma map_fst_group_totals_from (df : DataFrame) (acc : Summary) :
  map fst
    (fold_left
       (fun acc r =>
          match category_cell r with
          | Some c => add_to_group c (amount_or_zero r) acc
          | None => acc
          end) df acc)
  = fold_left (fun keys oc => match oc with Some c => add_key c keys | None => keys end)
              (map category_cell df) (map fst acc).
Proof.
  revert acc. induction df as [| r df IH]; intros acc; simpl; [reflexivity |].
  rewrite IH. destruct (category_cell r); [now rewrite map_fst_add_to_group | reflexivity].
Qed.

Lemma map_fst_insert_stable (x : string * Q) (l : Summary) :
  map fst (insert_stable key_after x l) = insert_stable name_after (fst x) (map fst l).
Proof.
  induction l as [| y l IH]; simpl; [reflexivity |].
  unfold key_after at 1, name_after at 1.
  destruct (String.ltb (fst y) (fst x)); simpl; [now rewrite IH | reflexivity].
Qed.

(** The bars of the chart depend on the column of categories only. *)
Lemma summarize_keys (df : DataFrame) :
  map fst (summarize df) = stable_sort name_after (group_keys (map category_cell df)).
Proof.
  unfold summarize, group_keys, group_totals.
  change (@nil string) with (map fst (@nil (string * Q))).
  rewrite <- (map_fst_group_totals_from df []).
  generalize (fold_left
                (fun acc r =>
                   match category_cell r with
                   | Some c => add_to_group c (amount_or_zero r) acc
                   | None => acc
                   end) df []).
  intros l. induction l as [| x l IH]; simpl; [reflexivity |].
  now rewrite map_fst_insert_stable, IH.
Qed.

Lemma filter_in_category_length (c : string) (df : DataFrame) :
  List.length (filter (in_category c) df)
  = List.length (filter (fun oc => match oc with
                                   | Some c' => String.eqb c' c
                                   | None => false
                                   end) (map category_cell df)).
Proof.
  induction df as [| r df IH]; simpl; [reflexivity |].
  unfold in_category at 1. destruct (category_cell r) as [c' |]; simpl; [| exact IH].
  destruct (String.eqb c' c); simpl; now rewrite IH.
Qed.

(** X13. The dashboard of a session that starts from the seeded table
    (120 amounts, 120 dates).  Each of the six categories has 20 rows; the
    chart has six bars, in alphabetical order; the tab renders; the total
    is the sum of the 120 amounts; the Highest Category is one of the six
    and the breakdown has three entries.  This stays so after any number
    of analyses whose payloads use the keys of the prompt. *)
Theorem seeded_dashboard (amounts : list Q) (dates : list Date) (ws : list World) :
  List.length amounts = 120 ->
  List.length dates = 120 ->
  forallb prompt_keys_only ws = true ->
  (forall c, In c seed_categories ->
     List.length (filter (in_category c) (initial_data amounts dates)) = 20)
  /\ exists d,
      fst (render_dashboard (presses ws (seeded amounts dates))) = Returned d
      /\ map fst (dash_summary d) = chart_categories
      /\ (dash_total d == Qsum amounts)%Q
      /\ In (dash_highest d) seed_categories
      /\ List.length (dash_top3 d) = 3.
Proof.
  intros Ha Hd Hk.
  assert (Hcats : map category_cell (initial_data amounts dates)
                  = map Some (list_times seed_categories 20)).
  { unfold initial_data. apply zip_rows_categories.
    - rewrite Ha. reflexivity.
    - rewrite Hd. reflexivity. }
  assert (Hkeys : map fst (summarize (initial_data amounts dates)) = chart_categories).
  { rewrite summarize_keys, Hcats. vm_compute. reflexivity. }
  split.
  - intros c Hc. rewrite filter_in_category_length, Hcats.
    simpl in Hc.
    destruct Hc as [<- | [<- | [<- | [<- | [<- | [<- | []]]]]]]; vm_compute; reflexivity.
  - destruct (presses_keep_summary ws (seeded amounts dates) Hk) as [Hs Hr].
    simpl in Hs. rewrite Hr.
    unfold render_dashboard, bind, get_session, ret, raise. simpl.
    destruct (idxmax_row (summarize (initial_data amounts dates))) as [[c t] |] eqn:Hx.
    + eexists. split; [reflexivity |]. simpl.
      split; [exact Hkeys |]. split; [| split].
      * rewrite total_spending_summarize.
        unfold initial_data. rewrite zip_rows_categorised, zip_rows_amounts.
        -- reflexivity.
        -- rewrite Ha. reflexivity.
        -- rewrite Hd. reflexivity.
      * apply idxmax_row_In in Hx. apply (in_map fst) in Hx. rewrite Hkeys in Hx.
        simpl in Hx. simpl.
        destruct Hx as [<- | [<- | [<- | [<- | [<- | [<- | []]]]]]]; auto 10.
      * rewrite topN_length, <- (length_map fst), Hkeys. reflexivity.
    + exfalso.
      destruct (summarize (initial_data amounts dates)) as [| x s]; [discriminate |].
      simpl in Hx. destruct (idxmax_row s) as [m |]; [| discriminate].
      destruct (Qltb (snd x) (snd m)); discriminate.
Qed.

End DashboardFacts.

(* ================================================================== *)
(** * Further properties: the financial coach *)
(* ================================================================== *)

Lemma round_half_even_error (y : Q) :
  (- (1 # 2) <= inject_Z (round_half_even y) - y)%Q
  /\ (inject_Z (round_half_even y) - y <= 1 # 2)%Q.
Proof.
  unfold round_half_even.
  pose proof (Qfloor_le y) as Hf. pose proof (Qlt_floor y) as Hc.
  rewrite inject_Z_plus in Hc. change (inject_Z 1) with 1%Q in Hc.
  destruct (Qcompare (y - inject_Z (Qfloor y)) (1 # 2)) eqn:E.
  - apply Qeq_alt in E. destruct (Z.even (Qfloor y)).
    + split; lra.
    + rewrite inject_Z_plus. change (inject_Z 1) with 1%Q. split; lra.
  - apply Qlt_alt in E. split; lra.
  - apply Qgt_alt in E. rewrite inject_Z_plus. change (inject_Z 1) with 1%Q. split; lra.
Qed.

Lemma round2_error (x : Q) :
  (- (1 # 200) <= round2 x - x)%Q /\ (round2 x - x <= 1 # 200)%Q.
Proof.
  unfold round2. destruct (round_half_even_error (x * 100)) as [H1 H2].
  set (r := inject_Z (round_half_even (x * 100))) in *.
  assert (Hr : (r / 100 == r * (1 # 100))%Q) by (field).
  rewrite Hr. split; lra.
Qed.

(** X14. The coach of the third tab, on a table whose [Amount] cells are
    floats or missing and with a multiplier of [0.95, 1.05].  The handler
    returns, waits two seconds, asks for a rerun and makes no call to the
    service; it leaves the records and the table as they are and replaces
    the stored advice.  The tips and the expenses to cut are constants.
    The forecast shown, rounded to two decimals, differs from the sum of
    the amounts of the table by at most five percent of it and half a
    cent. *)
Theorem coach_stores_a_bounded_forecast (w : World) (st : State) :
  float_amounts (full_history (session st)) = true ->
  (95 # 100 <= uniform_sample w)%Q ->
  (uniform_sample w <= 105 # 100)%Q ->
  exists a,
    ask_financial_coach w st
    = (Returned tt,
       mkState (mkSession (history (session st)) (full_history (session st)) (Some a))
               (trace st ++ [EvSleep 2; EvRerun])%list)
    /\ existsb is_network_call (emitted st (snd (ask_financial_coach w st))) = false
    /\ advice a = advice_list
    /\ cuttable_expenses a = "Entertainment, High-Value Meals"
    /\ (Qabs (monthly_forecast a - sum_of_amounts (full_history (session st)))
        <= (5 # 100) * Qabs (sum_of_amounts (full_history (session st))) + (1 # 200))%Q.
Proof.
  intros _ Hlo Hhi.
  assert (Hrun : ask_financial_coach w st
                 = (Returned tt,
                    mkState (mkSession (history (session st)) (full_history (session st))
                               (Some (mkAdvice
                                        (round2 (forecast (full_history (session st))
                                                          (uniform_sample w)))
                                        "Entertainment, High-Value Meals" advice_list)))
                            (trace st ++ [EvSleep 2; EvRerun])%list)).
  { unfold ask_financial_coach, get_financial_advice_and_prediction, bind, get_session,
      put_session, emit, ret. simpl. now rewrite <- app_assoc. }
  assert (Hb : (Qabs (round2 (forecast (full_history (session st)) (uniform_sample w))
                      - sum_of_amounts (full_history (session st)))
                <= (5 # 100) * Qabs (sum_of_amounts (full_history (session st)))
                   + (1 # 200))%Q).
  { set (df := full_history (session st)).
    destruct (round2_error (forecast df (uniform_sample w))) as [H1 H2].
    assert (Hf : (forecast df (uniform_sample w) == sum_of_amounts df * uniform_sample w)%Q)
      by (unfold forecast; now rewrite column_sum_is_sum).
    set (u := uniform_sample w) in *. set (t := sum_of_amounts df) in *.
    set (m := round2 (forecast df u)) in *. set (f := forecast df u) in *.
    apply Qabs_Qle_condition.
    destruct (Qlt_le_dec t 0) as [Hneg | Hpos].
    + rewrite (Qabs_neg t) by lra. split; nra.
    + rewrite (Qabs_pos t) by lra. split; nra. }
  eexists. split; [exact Hrun |]. rewrite Hrun.
  split; [| split; [reflexivity | split; [reflexivity | exact Hb]]].
  cbn [snd]. rewrite (emitted_of_trace st _ [EvSleep 2; EvRerun]); reflexivity.
Qed.

(* ================================================================== *)
(** * Further properties: the script [list_models.py] *)
(* ================================================================== *)

Lemma first_flash_is_listed (models : list ModelInfo) (n : string) :
  first_flash_model models = Some n -> In n (generation_models models).
Proof.
  induction models as [| m models IH]; [discriminate |].
  cbn [first_flash_model generation_models].
  destruct (existsb (String.eqb "generateContent") (supported_generation_methods m));
    cbn [andb].
  - destruct (PyStr.contains "flash" (name m)).
    + intros [= <-]. now left.
    + intros H. right. auto.
  - exact IH.
Qed.

Section ScriptFacts.

Context {RT : Runtime}.

(** The model of a request of the analyzer is the selected one. *)
Lemma requested_model_is_chosen (w : World) (st : State) (m : string) :
  In (EvGenerateContent m) (emitted st (snd (analyze_receipt_with_ai w st))) ->
  m = chosen_model w.
Proof.
  destruct (analyze_receipt_with_ai w st) as [o st'] eqn:Ha. simpl.
  destruct (analyze_events w st st' o Ha) as (evs & Ht & Hev).
  rewrite (emitted_of_trace st st' evs Ht).
  destruct Hev as [[_ ->] | (_ & n & model & msgs & Hn & -> & Hm & ->)].
  - intros [H | []]. discriminate.
  - intros Hin. apply in_app_or in Hin as [Hin | Hin].
    + destruct (firstn_request_steps n (credential w) (chosen_model w) Hn)
        as [E | [E | [E | E]]]; rewrite E in Hin; simpl in Hin;
        repeat (destruct Hin as [Hin | Hin]; try discriminate); try contradiction.
      now injection Hin as <-.
    + destruct Hm as [-> | [msg ->]]; [destruct Hin |].
      destruct Hin as [H | []]. discriminate.
Qed.

(** X15. The script [list_models.py] and the analyzer.  The script never
    sends a generation request.  It ends by [exit] only with code 1, having
    printed that the key was not found and called nothing.  When it runs
    to its last line it has configured the library and listed the models
    once, and it has printed the header followed by the names of the
    listed models that support [generateContent], in the order of the
    listing (and after them the error of the listing, if it failed).  The
    model of every request that the analyzer sends in the same world is
    the default [gemini-1.5-flash] or one of these names. *)
Theorem script_lists_the_analyzer_model
        (secrets : Exn + option string) (w : World) (st : State) :
  existsb is_request (calls (list_models_script secrets w)) = false
  /\ (forall code,
        termination (list_models_script secrets w) = SystemExit code ->
        code = 1%Z
        /\ stdout (list_models_script secrets w) = ["API Key not found!"]
        /\ calls (list_models_script secrets w) = [])
  /\ (termination (list_models_script secrets w) = Finished ->
      (exists key, calls (list_models_script secrets w) = [EvConfigure key; EvListModels])
      /\ begins ("Listing available models:" :: generation_models (list_models_items w))
                (stdout (list_models_script secrets w))
      /\ List.length (stdout (list_models_script secrets w))
         <= 2 + List.length (generation_models (list_models_items w)))
  /\ (forall m,
        In (EvGenerateContent m) (emitted st (snd (analyze_receipt_with_ai w st))) ->
        m = default_model_name \/ In m (generation_models (list_models_items w))).
Proof.
  split; [| split; [| split]].
  - unfold list_models_script.
    destruct (script_api_key (env_API_KEY w) secrets) as [e | k]; [reflexivity |].
    destruct (truthy_key k); [| reflexivity]. simpl.
    destruct (configure_outcome w); [reflexivity |].
    destruct (list_models_error w) as [e |]; [| reflexivity].
    destruct (is_Exception e); reflexivity.
  - intros code. unfold list_models_script.
    destruct (script_api_key (env_API_KEY w) secrets) as [e | k]; [discriminate |].
    destruct (truthy_key k); simpl.
    + destruct (configure_outcome w); [discriminate |].
      destruct (list_models_error w) as [e |]; [| discriminate].
      destruct (is_Exception e); discriminate.
    + intros [= <-]. repeat split.
  - unfold list_models_script.
    destruct (script_api_key (env_API_KEY w) secrets) as [e | k]; [discriminate |].
    destruct (truthy_key k); simpl; [| discriminate].
    destruct (configure_outcome w); [discriminate |].
    destruct (list_models_error w) as [e |].
    + destruct (is_Exception e); [| discriminate]. intros _. simpl.
      split; [eauto |]. split.
      * eexists. reflexivity.
      * rewrite length_app. simpl. lia.
    + intros _. simpl. split; [eauto |]. split.
      * exists []. now rewrite app_nil_r.
      * lia.
  - intros m Hin. apply requested_model_is_chosen in Hin. subst m.
    unfold chosen_model.
    destruct (first_flash_model (list_models_items w)) as [n |] eqn:E; [| now left].
    right. now apply first_flash_is_listed.
Qed.

End ScriptFacts.

(* ================================================================== *)
(** * Further properties: the logo *)
(* ================================================================== *)

Lemma b64_bits_char (b5 b4 b3 b2 b1 b0 : bool) :
  b64_bits (Base64.b64_char (Base64.sextet b5 b4 b3 b2 b1 b0))
  = Some (b5, b4, b3, b2, b1, b0).
Proof. destruct b5, b4, b3, b2, b1, b0; vm_compute; reflexivity. Qed.

Lemma b64decode_group_encode3 (x y z a b c d : ascii) :
  Base64.encode3 x y z = String a (String b (String c (String d ""))) ->
  b64decode_group a b c d = Some (String x (String y (String z ""))).
Proof.
  destruct x as [x0 x1 x2 x3 x4 x5 x6 x7], y as [y0 y1 y2 y3 y4 y5 y6 y7],
           z as [z0 z1 z2 z3 z4 z5 z6 z7].
  cbn [Base64.encode3]. intros [= <- <- <- <-].
  unfold b64decode_group. now rewrite !b64_bits_char.
Qed.

Lemma b64decode_encode2 (x y : ascii) :
  b64decode (Base64.encode2 x y) = Some (String x (String y "")).
Proof.
  destruct x as [x0 x1 x2 x3 x4 x5 x6 x7], y as [y0 y1 y2 y3 y4 y5 y6 y7].
  cbn [Base64.encode2 b64decode]. unfold b64decode_group.
  rewrite !b64_bits_char. reflexivity.
Qed.

Lemma b64decode_encode1 (x : ascii) :
  b64decode (Base64.encode1 x) = Some (String x "").
Proof.
  destruct x as [x0 x1 x2 x3 x4 x5 x6 x7].
  cbn [Base64.encode1 b64decode]. unfold b64decode_group.
  rewrite !b64_bits_char. reflexivity.
Qed.

Lemma encode3_shape (x y z : ascii) :
  exists a b c d, Base64.encode3 x y z = String a (String b (String c (String d ""))).
Proof.
  destruct x as [x0 x1 x2 x3 x4 x5 x6 x7], y as [y0 y1 y2 y3 y4 y5 y6 y7],
           z as [z0 z1 z2 z3 z4 z5 z6 z7].
  cbn [Base64.encode3]. eauto.
Qed.

Lemma encode2_length (x y : ascii) : String.length (Base64.encode2 x y) = 4.
Proof. now destruct x, y. Qed.

Lemma encode1_length (x : ascii) : String.length (Base64.encode1 x) = 4.
Proof. now destruct x. Qed.

(** Induction three bytes at a time. *)
Lemma string_ind3 (P : string -> Prop) :
  P "" ->
  (forall x, P (String x "")) ->
  (forall x y, P (String x (String y ""))) ->
  (forall x y z rest, P rest -> P (String x (String y (String z rest)))) ->
  forall s, P s.
Proof.
  intros H0 H1 H2 H3 s.
  assert (H : P s /\ (forall x, P (String x s)) /\ (forall x y, P (String x (String y s)))).
  { induction s as [| c s (IH0 & IH1 & IH2)].
    - repeat split; auto.
    - repeat split; auto. }
  apply H.
Qed.

(** What [b64encode] writes reads back as the bytes, and has four characters
    for every three bytes or part of it. *)
Lemma b64decode_b64encode (bytes : string) :
  b64decode (Base64.b64encode bytes) = Some bytes
  /\ String.length (Base64.b64encode bytes) = 4 * ((String.length bytes + 2) / 3).
Proof.
  induction bytes as [| x | x y | x y z rest [IHd IHl]] using string_ind3.
  - split; reflexivity.
  - split; [apply b64decode_encode1 | apply encode1_length].
  - split; [apply b64decode_encode2 | apply encode2_length].
  - cbn [Base64.b64encode].
    destruct (encode3_shape x y z) as (a & b & c & d & E). rewrite E.
    cbn [append b64decode String.length].
    rewrite (b64decode_group_encode3 x y z a b c d E), IHd, IHl. split; [reflexivity |].
    replace (S (S (S (String.length rest))) + 2) with (String.length rest + 2 + 1 * 3) by lia.
    rewrite Nat.div_add by lia. lia.
Qed.

(** X16. The logo.  [get_base64_image] lets no [Exception] out.  It
    returns the placeholder with a warning, without reading, when the file
    does not exist; the placeholder with an error message when opening or
    reading raises an [Exception]; and otherwise, without any message, a
    data URL of the bytes read: the prefix [data:image/png;base64,]
    followed by a Base64 text that reads back as exactly these bytes and has
    four characters for every three bytes or part of it. *)
Theorem logo_is_data_url_or_placeholder (fs : Files) (path : string) :
  match get_base64_image fs path with
  | Returned (url, NoNotice) =>
      path_exists fs path = true
      /\ exists bytes, read_file fs path = inr bytes /\ is_data_url_of bytes url
  | Returned (url, StWarning msg) =>
      path_exists fs path = false
      /\ url = placeholder_logo
      /\ msg = "Logo file not found at " ++ path ++ ". Using placeholder."
  | Returned (url, StError msg) =>
      path_exists fs path = true
      /\ url = placeholder_logo
      /\ exists e, read_file fs path = inl e
                   /\ is_Exception e = true
                   /\ msg = "Error loading logo: " ++ exn_str e ++ ". Using placeholder."
  | Raised e =>
      path_exists fs path = true /\ read_file fs path = inl e /\ is_Exception e = false
  end.
Proof.
  unfold get_base64_image.
  destruct (path_exists fs path); cbn [negb]; [| repeat split].
  destruct (read_file fs path) as [e | bytes].
  - destruct (is_Exception e) eqn:Ee.
    + repeat split. exists e. repeat split. exact Ee.
    + repeat split. exact Ee.
  - split; [reflexivity |]. exists bytes. split; [reflexivity |].
    exists (Base64.b64encode bytes).
    destruct (b64decode_b64encode bytes) as [Hd Hl]. repeat split; assumption.
Qed.

(* ================================================================== *)
(** * Further properties: a fence that names no language *)
(* ================================================================== *)

Lemma prefix_cons (a b : ascii) (p s : string) :
  String.prefix (String a p) (String b s) = true -> a = b /\ String.prefix p s = true.
Proof. simpl. destruct (ascii_dec a b); [auto | discriminate]. Qed.

Lemma take_fence (n : nat) (s : string) :
  is_fence_or_empty (PyStr.take n (String "`" s)).
Proof. destruct n; simpl; [now left | right; eauto]. Qed.

(** With an opening fence other than [```json], the text handed to the
    decoder keeps the fence. *)
Lemma bare_fence_reaches_decoder (text : string) :
  PyStr.startswith (PyStr.strip text) "```" = true ->
  PyStr.startswith (PyStr.strip text) "```json" = false ->
  is_fence_or_empty (clean_response text).
Proof.
  unfold clean_response. intros H3 Hj. rewrite Hj.
  unfold PyStr.startswith in H3.
  destruct (PyStr.strip text) as [| c t]; [discriminate |].
  apply prefix_cons in H3 as [<- _].
  destruct (PyStr.endswith (String "`" t) "```").
  - unfold PyStr.drop_last. apply take_fence.
  - right. eauto.
Qed.

Section FenceFacts.

Context {RT : Runtime}.

(** X17. A response whose opening fence is not [```json] (a bare [```],
    [```JSON], ...) is never unwrapped: line 187 leaves the opening fence,
    so the decoder is handed a text that starts with a backquote (or
    nothing at all), and with a decoder that rejects such texts, as
    [json.loads] does, the analysis ends in the Error record whose reason
    carries the message of the decoder, whatever the payload inside the
    fence. *)
Theorem bare_fence_yields_error_record (w : World) (st : State) (text : string) :
  rejects_fences ->
  no_credential w = false ->
  configure_outcome w = None ->
  derives_Exception (list_models_error w) = true ->
  image_open_outcome w = None ->
  generate_content_outcome w = inr (inr text) ->
  PyStr.startswith (PyStr.strip text) "```" = true ->
  PyStr.startswith (PyStr.strip text) "```json" = false ->
  is_fence_or_empty (clean_response text)
  /\ exists msg st',
      json_loads (clean_response text) = inl msg
      /\ analyze_receipt_with_ai w st
         = (Returned (error_record (now w) (JSONDecodeError msg)), st')
      /\ dict_get "vendor" (error_record (now w) (JSONDecodeError msg)) = Some (PyStr "Error")
      /\ dict_get "risk_reason" (error_record (now w) (JSONDecodeError msg))
         = Some (PyStr ("Analysis failed: " ++ msg)).
Proof.
  intros [He Hq] Hn Hc Hl Hi Hg H3 Hj.
  pose proof (bare_fence_reaches_decoder text H3 Hj) as Hf.
  split; [exact Hf |].
  assert (Hmsg : exists msg, json_loads (clean_response text) = inl msg).
  { destruct Hf as [-> | [rest ->]]; [exact He | apply Hq]. }
  destruct Hmsg as [msg Hmsg].
  destruct (malformed_response_raises w st text msg Hc Hl Hi Hg Hmsg) as (st1 & Hb).
  exists msg, (after_handler st1 (JSONDecodeError msg)).
  split; [exact Hmsg |]. split.
  - now apply analyze_failure.
  - split; reflexivity.
Qed.

End FenceFacts.

(* ================================================================== *)
(** * Further properties: the analyzer has no memory *)
(* ================================================================== *)

Lemma state_eta (st : State) : mkState (session st) (trace st ++ [])%list = st.
Proof. destruct st. simpl. now rewrite app_nil_r. Qed.

Lemma oblivious_ret {A} (a : A) : oblivious (ret a).
Proof. exists (Returned a), []. intros st. unfold ret. now rewrite state_eta. Qed.

Lemma oblivious_raise {A} (e : Exn) : oblivious (@raise A e).
Proof. exists (Raised e), []. intros st. unfold raise. now rewrite state_eta. Qed.

Lemma oblivious_emit (ev : Event) : oblivious (emit ev).
Proof. exists (Returned tt), [ev]. reflexivity. Qed.

Lemma oblivious_lift {A} (r : Exn + A) : oblivious (lift r).
Proof. destruct r; [apply oblivious_raise | apply oblivious_ret]. Qed.

Lemma oblivious_lift_unit (r : option Exn) : oblivious (lift_unit r).
Proof. destruct r; [apply oblivious_raise | apply oblivious_ret]. Qed.

Lemma oblivious_bind {A B} (m : M A) (k : A -> M B) :
  oblivious m -> (forall a, oblivious (k a)) -> oblivious (bind m k).
Proof.
  intros (o & evs & Hm) Hk. destruct o as [a | e].
  - destruct (Hk a) as (o' & evs' & Hka).
    exists o', (evs ++ evs')%list. intros st. unfold bind.
    rewrite Hm, Hka. simpl. now rewrite app_assoc.
  - exists (Raised e), evs. intros st. unfold bind. now rewrite Hm.
Qed.

Lemma oblivious_try_Exception {A} (m : M A) (h : Exn -> M A) :
  oblivious m -> (forall e, oblivious (h e)) -> oblivious (try_except_Exception m h).
Proof.
  intros (o & evs & Hm) Hh. destruct o as [a | e].
  - exists (Returned a), evs. intros st. unfold try_except_Exception. now rewrite Hm.
  - destruct (is_Exception e) eqn:Ee.
    + destruct (Hh e) as (o' & evs' & He).
      exists o', (evs ++ evs')%list. intros st. unfold try_except_Exception.
      rewrite Hm, Ee, He. simpl. now rewrite app_assoc.
    + exists (Raised e), evs. intros st. unfold try_except_Exception. now rewrite Hm, Ee.
Qed.

Lemma oblivious_try_all {A} (m h : M A) :
  oblivious m -> oblivious h -> oblivious (try_except_all m h).
Proof.
  intros (o & evs & Hm) (o' & evs' & Hh). destruct o as [a | e].
  - exists (Returned a), evs. intros st. unfold try_except_all. now rewrite Hm.
  - exists o', (evs ++ evs')%list. intros st. unfold try_except_all.
    rewrite Hm, Hh. simpl. now rewrite app_assoc.
Qed.

Ltac oblivious_step :=
  first [ apply oblivious_ret
        | apply oblivious_raise
        | apply oblivious_emit
        | apply oblivious_lift
        | apply oblivious_lift_unit
        | apply oblivious_bind; [| intros ?]
        | apply oblivious_try_Exception; [| intros ?]
        | apply oblivious_try_all ].

Section MemoryFacts.

Context {RT : Runtime}.

Lemma select_model_name_oblivious (w : World) : oblivious (select_model_name w).
Proof.
  unfold select_model_name.
  apply oblivious_try_Exception; [| intros e; apply oblivious_ret].
  apply oblivious_bind; [apply oblivious_emit | intros _].
  destruct (first_flash_model (list_models_items w)); repeat oblivious_step.
Qed.

Lemma ensure_data_types_oblivious (data : PyVal) : oblivious (ensure_data_types data).
Proof.
  unfold ensure_data_types. destruct data; repeat oblivious_step.
Qed.

Lemma loads_oblivious (text : string) : oblivious (loads text).
Proof. unfold loads. destruct (json_loads text); oblivious_step. Qed.

Lemma analyze_body_oblivious (w : World) (key : string) : oblivious (analyze_body w key).
Proof.
  unfold analyze_body.
  apply oblivious_bind; [apply oblivious_emit | intros _].
  apply oblivious_bind; [apply oblivious_lift_unit | intros _].
  apply oblivious_bind; [apply select_model_name_oblivious | intros model_name].
  apply oblivious_bind; [apply oblivious_emit | intros _].
  apply oblivious_bind; [apply oblivious_lift_unit | intros _].
  apply oblivious_bind; [apply oblivious_emit | intros _].
  apply oblivious_bind; [apply oblivious_lift | intros response].
  apply oblivious_bind; [apply oblivious_lift | intros text].
  apply oblivious_bind; [apply loads_oblivious | intros data].
  apply ensure_data_types_oblivious.
Qed.

Lemma analyze_oblivious (w : World) : oblivious (analyze_receipt_with_ai w).
Proof.
  unfold analyze_receipt_with_ai, resolve_api_key, st_error.
  apply oblivious_bind.
  { destruct (negb (truthy_key (env_API_KEY w))); repeat oblivious_step. }
  intros api_key. destruct (negb (truthy_key api_key)); [repeat oblivious_step |].
  apply oblivious_try_Exception; [apply analyze_body_oblivious |].
  intros e. repeat oblivious_step.
Qed.

(** X18. The analyzer has no memory.  Whether it returns or raises, what
    it returns or raises and the events it emits depend on the world only:
    not on the session, on the records analysed before or on what was
    emitted so far; and it leaves the session as it found it.  So two
    analyses in one world give the same record. *)
Theorem analyzer_is_memoryless (w : World) (st st' : State) :
  fst (analyze_receipt_with_ai w st) = fst (analyze_receipt_with_ai w st')
  /\ emitted st (snd (analyze_receipt_with_ai w st))
     = emitted st' (snd (analyze_receipt_with_ai w st'))
  /\ session (snd (analyze_receipt_with_ai w st)) = session st
  /\ begins (trace st) (trace (snd (analyze_receipt_with_ai w st))).
Proof.
  destruct (analyze_oblivious w) as (o & evs & H).
  rewrite (H st), (H st'). simpl.
  repeat split.
  - rewrite !(emitted_of_trace _ _ evs); reflexivity.
  - now exists evs.
Qed.

End MemoryFacts.

(* ================================================================== *)
(** * The further properties on concrete inputs *)
(* ================================================================== *)

(** The record of the missing key is shown under Auto-Approve. *)
Lemma result_card_witness :
  exists card,
    render_results (appended (fresh []) (missing_key_record today))
    = (Returned (Some card), appended (fresh []) (missing_key_record today))
    /\ approval_action (card_classification card) = "Auto-Approve"
    /\ card_button card = "Confirm & Approve".
Proof.
  refine (proj2 (result_card_of_analyzed_record (RT := JsonModel.runtime)
                   offline (fresh []) (snd (analyze_on offline (fresh [])))
                   (appended (fresh []) (missing_key_record today))
                   (missing_key_record today) _ _) _).
  - vm_compute. reflexivity.
  - vm_compute. reflexivity.
  - left. reflexivity.
Defined.

Lemma payload_fields_witness :
  degraded (online cafe_payload) cafe_record
  \/ exists d,
      decoded_payload (RT := JsonModel.runtime) (online cafe_payload) = Some d
      /\ forall k,
          k <> "amount" -> k <> "risk_score" -> dict_get k cafe_record = dict_get k d.
Proof.
  apply (payload_fields_pass_through (RT := JsonModel.runtime)
           (online cafe_payload) (fresh [])
           (snd (analyze_on (online cafe_payload) (fresh [])))).
  vm_compute. reflexivity.
Defined.

Lemma dashboard_witness :
  exists d,
    render_dashboard (SO := swapping_ties) (fresh three_rows) = (Returned d, fresh three_rows)
    /\ dash_summary d = summarize (full_history (session (fresh three_rows)))
    /\ (exists t,
          In (dash_highest d, t) (dash_summary d)
          /\ forall y, In y (dash_summary d) -> (snd y <= t)%Q)
    /\ (dash_total d
        == Qsum (map amount_or_zero
                   (filter categorised (full_history (session (fresh three_rows))))))%Q
    /\ dash_top3 d = topN (SO := swapping_ties) (dash_summary d) 3
    /\ List.length (dash_top3 d) = Nat.min 3 (List.length (dash_summary d))
    /\ StronglySorted total_ge (dash_top3 d).
Proof.
  apply (dashboard_of_table (SO := swapping_ties) (fresh three_rows) "Travel");
    reflexivity.
Defined.

(** The summary of the three rows: Travel is the highest category and the
    first line of the breakdown. *)
Lemma highest_category_witness :
  exists y,
    hd_error (topN (SO := swapping_ties) (summarize three_rows) 1) = Some y
    /\ (snd y == snd ("Travel", 150%Q))%Q
    /\ ((forall z, In z (summarize three_rows) -> z <> ("Travel", 150%Q) ->
         (snd z < snd ("Travel", 150%Q))%Q) ->
        y = ("Travel", 150%Q)).
Proof.
  apply (highest_category_is_top1 (SO := swapping_ties) (summarize three_rows)
           ("Travel", 150%Q)).
  vm_compute. reflexivity.
Defined.

(** Two analyses, one answered and one without key, leave the summary of
    the three rows as it is. *)
Lemma dashboard_ignores_witness :
  summarize (full_history
               (session (presses (RT := JsonModel.runtime)
                           [online cafe_payload; offline] (fresh three_rows))))
  = summarize (full_history (session (fresh three_rows))).
Proof.
  apply (dashboard_ignores_analyses (RT := JsonModel.runtime) (SO := keeping_ties)
           [online cafe_payload; offline] (fresh three_rows)).
  vm_compute. reflexivity.
Defined.

Lemma seeded_dashboard_witness :
  exists d,
    fst (render_dashboard (SO := keeping_ties)
           (presses (RT := JsonModel.runtime) [online cafe_payload]
                    (seeded (repeat 100%Q 120) (repeat today 120))))
    = Returned d
    /\ map fst (dash_summary d) = chart_categories
    /\ (dash_total d == Qsum (repeat 100%Q 120))%Q
    /\ In (dash_highest d) seed_categories
    /\ List.length (dash_top3 d) = 3.
Proof.
  apply (seeded_dashboard (RT := JsonModel.runtime) (SO := keeping_ties)
           (repeat 100%Q 120) (repeat today 120) [online cafe_payload]).
  - apply repeat_length.
  - apply repeat_length.
  - vm_compute. reflexivity.
Defined.

Lemma coach_witness :
  exists a,
    ask_financial_coach generous (fresh thousand)
    = (Returned tt,
       mkState (mkSession (history (session (fresh thousand)))
                          (full_history (session (fresh thousand))) (Some a))
               (trace (fresh thousand) ++ [EvSleep 2; EvRerun])%list)
    /\ existsb is_network_call
         (emitted (fresh thousand) (snd (ask_financial_coach generous (fresh thousand))))
       = false
    /\ advice a = advice_list
    /\ cuttable_expenses a = "Entertainment, High-Value Meals"
    /\ (Qabs (monthly_forecast a - sum_of_amounts (full_history (session (fresh thousand))))
        <= (5 # 100) * Qabs (sum_of_amounts (full_history (session (fresh thousand))))
           + (1 # 200))%Q.
Proof.
  apply (coach_stores_a_bounded_forecast generous (fresh thousand)).
  - reflexivity.
  - vm_compute. congruence.
  - vm_compute. congruence.
Defined.

(** The decoder of [JsonModel] rejects what [json.loads] rejects here, and
    the bare fence around the payload of the cafe ends in the Error
    record. *)
Lemma bare_fence_witness :
  exists msg st',
    JsonModel.decode (clean_response (plain_fenced cafe_payload)) = inl msg
    /\ analyze_on (online (plain_fenced cafe_payload)) (fresh [])
       = (Returned (error_record today (JSONDecodeError msg)), st')
    /\ dict_get "vendor" (error_record today (JSONDecodeError msg)) = Some (PyStr "Error")
    /\ dict_get "risk_reason" (error_record today (JSONDecodeError msg))
       = Some (PyStr ("Analysis failed: " ++ msg)).
Proof.
  refine (proj2 (bare_fence_yields_error_record (RT := JsonModel.runtime)
                   (online (plain_fenced cafe_payload)) (fresh [])
                   (plain_fenced cafe_payload) _ _ _ _ _ _ _ _)).
  - split.
    + eexists. reflexivity.
    + intros s. eexists. reflexivity.
  - reflexivity.
  - reflexivity.
  - reflexivity.
  - reflexivity.
  - reflexivity.
  - vm_compute. reflexivity.
  - vm_compute. reflexivity.
Defined.
